(** * Presentation store and generation worker

    A shallow embedding of [src/libs/presentationRepo.ts] (the single-table
    presentation store) and of [src/handlers/sqs/generatePresentation.ts]
    (the queue consumer), with the properties of the specification proved
    or refuted on it.

    JavaScript objects and DynamoDB items are finite maps from attribute
    names to values; the storage service, the clock, the generation client
    and the WebSocket gateway form an explicit [World] that every awaited
    call reads and updates. *)

From Equations Require Import Equations.
From stdpp Require Import gmap strings list fin_maps sorting pretty.
From Stdlib Require Import ZArith Lia.

Local Open Scope string_scope.
Local Open Scope Z_scope.

(** ** Values *)

(** The values the document client marshals.  Numbers are the integers
    (epoch milliseconds, array positions); fractions, NaN and the
    infinities are outside the model. *)
#[local] Unset Elimination Schemes.
Inductive Value : Type :=
| VNull
| VBool (b : bool)
| VNum (n : Z)
| VStr (s : string)
| VList (l : list Value)
| VMap (m : list (string * Value)).
#[local] Set Elimination Schemes.

(** A value that may be [undefined] is an [option Value]. *)
Definition truthy (v : option Value) : bool :=
  match v with
  | None => false
  | Some VNull => false
  | Some (VBool b) => b
  | Some (VNum n) => negb (n =? 0)
  | Some (VStr s) => negb (String.eqb s "")
  | Some (VList _) => true
  | Some (VMap _) => true
  end.

(** [a || b] on values. *)
Definition js_or (a : option Value) (b : Value) : Value :=
  if truthy a then default b a else b.

(** A JavaScript object or DynamoDB item: attribute name to value.  An
    attribute that is [undefined] is absent from the map, which is also what
    the marshaller does with it ([removeUndefinedValues: true]). *)
Abbreviation Item := (gmap string Value).

(** [{ k: v, ...o }] for a possibly undefined [v]. *)
Definition set_attr (k : string) (v : option Value) (o : Item) : Item :=
  match v with
  | Some x => <[k := x]> o
  | None => o
  end.

(** ** Key construction *)

Module Keys.

(** [String(n)] for an integer [n] (below 10^21 in absolute value, where
    JavaScript prints every digit). *)
Definition String_of_number (n : Z) : string := pretty n.

(** [padString.repeat(k)] *)
Fixpoint string_repeat (k : nat) (padString : string) : string :=
  match k with
  | O => ""
  | S k' => padString +:+ string_repeat k' padString
  end.

Fixpoint string_take (k : nat) (s : string) : string :=
  match k, s with
  | S k', String c s' => String c (string_take k' s')
  | _, _ => ""
  end.

(** [s.padStart(targetLength, padString)]: the filler is [padString]
    repeated and cut to the missing length; nothing is added when [s] is
    long enough or [padString] is empty. *)
Definition padStart (s : string) (targetLength : nat) (padString : string) : string :=
  let len := String.length s in
  if (targetLength <=? len)%nat then s
  else if String.eqb padString "" then s
  else
    let fillLen := (targetLength - len)%nat in
    string_take fillLen (string_repeat fillLen padString) +:+ s.

Inductive SKType := METADATA | SLIDE.

Definition createPK (presentationId : string) : string :=
  "PRESENTATION#" +:+ presentationId.

Definition createSK (type : SKType) (slideIndex : option Z) : string :=
  match type, slideIndex with
  | SLIDE, Some i => "SLIDE#" +:+ padStart (String_of_number i) 3 "0"
  | _, _ => "METADATA"
  end.

Definition createGSI1PK (userId : string) : string :=
  "USER#" +:+ userId.

Definition createGSI1SK (presentationId : string) : string :=
  "PRESENTATION#" +:+ presentationId.

(** The decimal digit [d] (0..9) as a character. *)
Definition digit_char (d : Z) : Ascii.ascii :=
  Ascii.ascii_of_nat (48 + Z.to_nat d).

(** The slide sort key in the words of the specification: the prefix, then
    the hundreds, tens and units digits of the index. *)
Definition spec_slide_key (i : Z) : string :=
  "SLIDE#" +:+
  String (digit_char (i / 100))
    (String (digit_char ((i / 10) mod 10))
       (String (digit_char (i mod 10)) "")).

Definition slide_key_agrees (n : nat) : bool :=
  String.eqb (createSK SLIDE (Some (Z.of_nat n))) (spec_slide_key (Z.of_nat n)).

End Keys.

(** ** The world every awaited call runs in *)

(** What a [throw] carries: an [Error] object with its message, or any other
    value. *)
Inductive Exn : Type :=
| JsError (message : string)
| Thrown (v : Value).

Inductive Outcome (A : Type) : Type :=
| Ok (a : A)
| Throw (e : Exn).
Arguments Ok {A} a.
Arguments Throw {A} e.

(** [Presentation] of [types/presentation.ts]; every field is read from
    unchecked JSON or from an unchecked item, so each may be [undefined]. *)
Record Presentation : Type := mkPresentation {
  id : option Value;
  title : option Value;
  description : option Value;
  theme : option Value;
  slides : list (option Value)
}.

Inductive WriteRequest : Type :=
| PutRequest (Item : Item)
| DeleteRequest (pk sk : string).

(** [RequestItems] and [UnprocessedItems] of a batch write: one property per
    table name, in insertion order. *)
Abbreviation RequestItems := (list (string * list WriteRequest)).

Inductive WebSocketMessageType : Type :=
| presentation_completed
| presentation_failed
| slide_updated.

Record WebSocketMessage : Type := mkWebSocketMessage {
  ws_type : WebSocketMessageType;
  ws_presentationId : option string;
  ws_error : option string
}.

(** What the storage service does with one command: it serves it, leaving
    the write requests at the positions [skip] of a batch unprocessed (the
    list is ignored by the other commands), or it rejects it. *)
Inductive DdbOutcome : Type :=
| Served (skip : list nat)
| Rejected (e : Exn).

(** The commands and calls that leave the process, in the order issued. *)
Inductive Event : Type :=
| EvGet (TableName pk sk : string)
| EvPut (TableName : string) (item : Item)
| EvQuery (TableName pk skPrefix : string)
| EvUpdate (TableName pk sk : string) (sets : list (string * Value))
| EvBatchWrite (requestItems : RequestItems)
| EvSleep (ms : Z)
| EvGenerate (title description : string)
| EvPost (endpoint connectionId : string) (message : WebSocketMessage).

Record World : Type := mkWorld {
  (** the table, by partition key and sort key *)
  table : gmap (string * string) Item;
  (** what [Date.now()] answers *)
  clock : Z;
  (** the outcomes of the coming storage commands; all served when empty *)
  ddb : list DdbOutcome;
  (** the generation client: a presentation or the exception it throws *)
  openai : string -> string -> Exn + Presentation;
  (** the outcomes of the coming [PostToConnection] calls; [None] is a
      delivered message, and so is an empty list *)
  gateway : list (option Exn);
  (** [process.env] *)
  TABLE_NAME : option string;
  WEBSOCKET_API_ENDPOINT : option string;
  (** what has been issued so far *)
  trace : list Event;
  (** how many of the items that match a query, taken in key order, the
      service puts in its answer (an answer stops at 1 MB of data) *)
  page : list Item -> nat
}.

Definition with_table (t : gmap (string * string) Item) (w : World) : World :=
  mkWorld t (clock w) (ddb w) (openai w) (gateway w)
          (TABLE_NAME w) (WEBSOCKET_API_ENDPOINT w) (trace w) (page w).
Definition with_clock (c : Z) (w : World) : World :=
  mkWorld (table w) c (ddb w) (openai w) (gateway w)
          (TABLE_NAME w) (WEBSOCKET_API_ENDPOINT w) (trace w) (page w).
Definition with_ddb (d : list DdbOutcome) (w : World) : World :=
  mkWorld (table w) (clock w) d (openai w) (gateway w)
          (TABLE_NAME w) (WEBSOCKET_API_ENDPOINT w) (trace w) (page w).
Definition with_gateway (g : list (option Exn)) (w : World) : World :=
  mkWorld (table w) (clock w) (ddb w) (openai w) g
          (TABLE_NAME w) (WEBSOCKET_API_ENDPOINT w) (trace w) (page w).
Definition emit (ev : Event) (w : World) : World :=
  mkWorld (table w) (clock w) (ddb w) (openai w) (gateway w)
          (TABLE_NAME w) (WEBSOCKET_API_ENDPOINT w) (trace w ++ [ev]) (page w).

(** ** Awaited computations: state and exceptions *)

Definition M (A : Type) : Type := World -> Outcome A * World.

#[global] Instance M_ret : MRet M := fun A a w => (Ok a, w).

#[global] Instance M_bind : MBind M := fun A B f m w =>
  match m w with
  | (Ok a, w') => f a w'
  | (Throw e, w') => (Throw e, w')
  end.

Definition throw {A} (e : Exn) : M A := fun w => (Throw e, w).

(** [try { body } catch (error) { handler error }] *)
Definition try_catch {A} (body : M A) (handler : Exn -> M A) : M A := fun w =>
  match body w with
  | (Ok a, w') => (Ok a, w')
  | (Throw e, w') => handler e w'
  end.

(** [Date.now()] *)
Definition Date_now : M Z := fun w => (Ok (clock w), w).

(** [await new Promise((resolve) => setTimeout(resolve, ms))]: at least
    [ms] milliseconds pass. *)
Definition sleep (ms : Z) : M unit := fun w =>
  (Ok tt, with_clock (clock w + ms) (emit (EvSleep ms) w)).

(** [process.env.NAME || fallback] *)
Definition env_or (v : option string) (fallback : string) : string :=
  match v with
  | Some s => if String.eqb s "" then fallback else s
  | None => fallback
  end.

Definition getTableName : M string := fun w =>
  (Ok (env_or (TABLE_NAME w) "presentations"), w).

(** ** The storage service *)

Module Ddb.

Abbreviation Table := (gmap (string * string) Item).

Definition ValidationException : Exn := JsError "ValidationException".

(** The primary key of an item is read from its own [pk] and [sk]. *)
Definition item_key (item : Item) : option (string * string) :=
  match item !! "pk", item !! "sk" with
  | Some (VStr pk), Some (VStr sk) => Some (pk, sk)
  | _, _ => None
  end.

Definition key_attrs (pk sk : string) : Item :=
  <["pk" := VStr pk]> (<["sk" := VStr sk]> ∅).

Definition next_outcome (d : list DdbOutcome) : DdbOutcome * list DdbOutcome :=
  match d with
  | [] => (Served [], [])
  | o :: rest => (o, rest)
  end.

(** The positions the next command leaves unprocessed, were it a batch. *)
Definition next_outcome_skip (d : list DdbOutcome) : list nat :=
  match d with
  | Served skip :: _ => skip
  | _ => []
  end.

(** [ddbDocClient.send(command)]: the command is recorded and the service's
    next outcome decides whether it is served. *)
Definition send {A} (ev : Event)
    (serve : list nat -> Table -> Outcome A * Table) : M A := fun w =>
  let w1 := emit ev w in
  let '(o, rest) := next_outcome (ddb w1) in
  match o with
  | Rejected e => (Throw e, with_ddb rest w1)
  | Served skip =>
      let '(r, t) := serve skip (table w1) in
      (r, with_table t (with_ddb rest w1))
  end.

(** [GetCommand]: the item at the exact key, if any. *)
Definition GetCommand (TableName pk sk : string) : M (option Item) :=
  send (EvGet TableName pk sk) (fun _ t => (Ok (t !! (pk, sk)), t)).

(** [PutCommand]: insert or replace at the item's key. *)
Definition PutCommand (TableName : string) (item : Item) : M unit :=
  send (EvPut TableName item) (fun _ t =>
    match item_key item with
    | Some k => (Ok tt, <[k := item]> t)
    | None => (Throw ValidationException, t)
    end).

(** The items that match [pk = :pk AND begins_with(sk, :skPrefix)], in
    ascending order of sort key. *)
Definition query_items (t : Table) (pk skPrefix : string)
    : list ((string * string) * Item) :=
  merge_sort (fun a b => String.le a.1.2 b.1.2)
    (filter (fun kv => kv.1.1 = pk /\ String.prefix skPrefix kv.1.2 = true)
            (map_to_list t)).

(** What one [Query] answers of the matching items: the first page of them.
    The answer also carries a [LastEvaluatedKey] when items are left; the
    repository never reads it and never sets a [Limit]. *)
Definition first_page (w : World) (items : list Item) : list Item :=
  take (page w items) items.

(** [QueryCommand] with [pk = :pk AND begins_with(sk, :skPrefix)] *)
Definition QueryCommand (TableName pk skPrefix : string) : M (list Item) := fun w =>
  send (EvQuery TableName pk skPrefix)
       (fun _ t => (Ok (first_page w (snd <$> query_items t pk skPrefix)), t)) w.

(** [UpdateCommand] with an expression [SET a1 = v1, a2 = v2, ...]: the
    assignments are applied to the item at the key, which is created with
    its key attributes when absent. *)
Definition apply_sets (sets : list (string * Value)) (item : Item) : Item :=
  foldl (fun it kv => <[kv.1 := kv.2]> it) item sets.

Definition UpdateCommand (TableName pk sk : string)
    (sets : list (string * Value)) : M unit :=
  send (EvUpdate TableName pk sk sets) (fun _ t =>
    (Ok tt,
     <[(pk, sk) := apply_sets sets (default (key_attrs pk sk) (t !! (pk, sk)))]> t)).

(** [BatchWriteCommand].  The service refuses an empty request, an empty
    list for a table, more than 25 write requests, and a put whose item has
    no key.  Otherwise the requests at the positions [skip] of each list are
    returned as [UnprocessedItems] and the others are applied in order. *)
Definition request_ok (r : WriteRequest) : bool :=
  match r with
  | PutRequest item => bool_decide (is_Some (item_key item))
  | DeleteRequest _ _ => true
  end.

Definition batch_ok (requestItems : RequestItems) : bool :=
  negb (bool_decide (requestItems = []))
  && forallb (fun e => negb (bool_decide (e.2 = [])) && forallb request_ok e.2)
             requestItems
  && (length (concat (snd <$> requestItems)) <=? 25)%nat.

Definition processed (skip : list nat) (reqs : list WriteRequest)
    : list WriteRequest :=
  snd <$> filter (fun ir => ir.1 ∉ skip) (imap pair reqs).

Definition unprocessed (skip : list nat) (reqs : list WriteRequest)
    : list WriteRequest :=
  snd <$> filter (fun ir => ir.1 ∈ skip) (imap pair reqs).

Definition apply_request (t : Table) (r : WriteRequest) : Table :=
  match r with
  | PutRequest item =>
      match item_key item with
      | Some k => <[k := item]> t
      | None => t
      end
  | DeleteRequest pk sk => delete (pk, sk) t
  end.

Definition UnprocessedItems (skip : list nat) (requestItems : RequestItems)
    : RequestItems :=
  filter (fun e => e.2 ≠ [])
         ((fun e => (e.1, unprocessed skip e.2)) <$> requestItems).

Definition BatchWriteCommand (requestItems : RequestItems) : M RequestItems :=
  send (EvBatchWrite requestItems) (fun skip t =>
    if batch_ok requestItems then
      (Ok (UnprocessedItems skip requestItems),
       foldl apply_request t
             (concat ((fun e => processed skip e.2) <$> requestItems)))
    else (Throw ValidationException, t)).

(** [QueryCommand] with [pk = :pk] alone.  It selects what the empty prefix
    selects, every item of the partition, and is recorded as that query. *)
Definition QueryPartitionCommand (TableName pk : string) : M (list Item) :=
  QueryCommand TableName pk "".

(** The secondary index [GSI1] (hash key [gsi1pk], range key [gsi1sk]) holds
    the items that carry both attributes as strings. *)
Definition index_key (item : Item) : option (string * string) :=
  match item !! "gsi1pk", item !! "gsi1sk" with
  | Some (VStr hk), Some (VStr rk) => Some (hk, rk)
  | _, _ => None
  end.

Definition index_range (item : Item) : string :=
  default "" (snd <$> index_key item).

(** The items of an index partition in ascending order of [gsi1sk].  The
    index is taken to be up to date with the table. *)
Definition index_items (t : Table) (gsi1pk : string)
    : list ((string * string) * Item) :=
  merge_sort (fun a b => String.le (index_range a.2) (index_range b.2))
    (filter (fun kv => fst <$> index_key kv.2 = Some gsi1pk) (map_to_list t)).

(** [QueryCommand] on the index with [gsi1pk = :gsi1pk]; the query is
    recorded under the name of the table followed by the index. *)
Definition QueryIndexCommand (TableName IndexName gsi1pk : string)
    : M (list Item) := fun w =>
  send (EvQuery (TableName +:+ "/index/" +:+ IndexName) gsi1pk "")
       (fun _ t => (Ok (first_page w (snd <$> index_items t gsi1pk)), t)) w.

End Ddb.

(** ** JavaScript array helpers *)

Module Js.

(** [a - b] on two numbers; [None] is NaN.  On anything that is not a number
    the model answers NaN, as JavaScript does for [undefined]; every writer
    of this repository stores [slideIndex] as a number. *)
Definition minus (a b : option Value) : option Z :=
  match a, b with
  | Some (VNum x), Some (VNum y) => Some (x - y)
  | _, _ => None
  end.

(** A comparator result asks for a swap when it is positive; NaN counts
    as zero. *)
Definition positive (r : option Z) : bool :=
  match r with
  | Some v => 0 <? v
  | None => false
  end.

Section Sort.
Context {A : Type} (comparefn : A -> A -> option Z).

Fixpoint sort_insert (x : A) (l : list A) : list A :=
  match l with
  | [] => [x]
  | y :: l' =>
      if positive (comparefn x y) then y :: sort_insert x l' else x :: l
  end.

(** [l.sort(comparefn)]: a stable sort, here by insertion. *)
Fixpoint sort (l : list A) : list A :=
  match l with
  | [] => []
  | x :: l' => sort_insert x (sort l')
  end.
End Sort.

(** [l.slice(i, j)] for [0 <= i <= j] *)
Definition slice {A} (i j : nat) (l : list A) : list A :=
  take (j - i)%nat (drop i l).

End Js.

(** ** The repository *)

Inductive PresentationStatus : Type := processing | completed | failed.

Definition status_string (s : PresentationStatus) : string :=
  match s with
  | processing => "processing"
  | completed => "completed"
  | failed => "failed"
  end.

(** [Omit<PresentationMetadata, "createdAt" | "updatedAt">] *)
Record MetadataInput : Type := mkMetadataInput {
  m_id : string;
  m_title : string;
  m_description : option string;
  m_userId : string;
  m_status : PresentationStatus;
  m_theme : Value;
  m_errorMessage : option string
}.

Module PresentationRepository.
Import Keys Ddb.

(** Every method has the shape
    [try { body } catch (error) { console.error(...); throw error; }]. *)
Definition logged {A} (body : M A) : M A :=
  try_catch body (fun error => throw error).

Definition slideIndex_order (a b : Item) : option Z :=
  Js.minus (a !! "slideIndex") (b !! "slideIndex").

Definition getPresentation (presentationId : string) : M (option Presentation) :=
  logged (
    tbl ← getTableName;
    metadataResult ← GetCommand tbl (createPK presentationId) (createSK METADATA None);
    match metadataResult with
    | None => mret None
    | Some metadata =>
        tbl ← getTableName;
        slidesResult ← QueryCommand tbl (createPK presentationId) "SLIDE#";
        let slideItems := Js.sort slideIndex_order slidesResult in
        mret (Some {|
          id := metadata !! "id";
          title := metadata !! "title";
          description := metadata !! "description";
          theme := metadata !! "theme";
          slides := (fun item : Item => item !! "slide") <$> slideItems
        |})
    end).

Definition getPresentationMetadata (presentationId : string) : M (option Item) :=
  logged (
    tbl ← getTableName;
    result ← GetCommand tbl (createPK presentationId) (createSK METADATA None);
    match result with
    | None => mret None
    | Some item =>
        mret (Some (
          set_attr "id" (item !! "id") (
          set_attr "title" (item !! "title") (
          set_attr "description" (item !! "description") (
          set_attr "userId" (item !! "userId") (
          set_attr "status" (item !! "status") (
          set_attr "createdAt" (item !! "createdAt") (
          set_attr "updatedAt" (item !! "updatedAt") (
          set_attr "theme" (item !! "theme") (
          set_attr "errorMessage" (item !! "errorMessage") ∅))))))))))
    end).

(** [{ ...metadata }] *)
Definition metadata_object (metadata : MetadataInput) : Item :=
  <["id" := VStr (m_id metadata)]> (
  <["title" := VStr (m_title metadata)]> (
  set_attr "description" (VStr <$> m_description metadata) (
  <["userId" := VStr (m_userId metadata)]> (
  <["status" := VStr (status_string (m_status metadata))]> (
  <["theme" := m_theme metadata]> (
  set_attr "errorMessage" (VStr <$> m_errorMessage metadata) ∅)))))).

Definition savePresentationMetadata (metadata : MetadataInput) : M unit :=
  logged (
    now ← Date_now;
    existing ← getPresentationMetadata (m_id metadata);
    let item : Item :=
      <["updatedAt" := VNum now]> (
      <["createdAt" := js_or (existing ≫= lookup "createdAt") (VNum now)]> (
      metadata_object metadata)) in
    tbl ← getTableName;
    PutCommand tbl (
      item ∪
      <["pk" := VStr (createPK (m_id metadata))]> (
      <["sk" := VStr (createSK METADATA None)]> (
      <["gsi1pk" := VStr (createGSI1PK (m_userId metadata))]> (
      <["gsi1sk" := VStr (createGSI1SK (m_id metadata))]> ∅))))).

Definition slide_item (presentationId : string) (slideIndex : Z)
    (slide : option Value) (now : Z) : Item :=
  <["slideIndex" := VNum slideIndex]> (
  set_attr "slide" slide (
  <["updatedAt" := VNum now]> ∅))
  ∪
  <["pk" := VStr (createPK presentationId)]> (
  <["sk" := VStr (createSK SLIDE (Some slideIndex))]> ∅).

Definition saveSlide (presentationId : string) (slideIndex : Z)
    (slide : option Value) : M unit :=
  logged (
    now ← Date_now;
    tbl ← getTableName;
    PutCommand tbl (slide_item presentationId slideIndex slide now)).

(** [slides.map((slide, index) => ({ PutRequest: { Item: ... } }))] *)
Definition writeRequests (presentationId : string)
    (slides : list (option Value)) (now : Z) : list WriteRequest :=
  imap (fun index slide =>
          PutRequest (
            <["pk" := VStr (createPK presentationId)]> (
            <["sk" := VStr (createSK SLIDE (Some (Z.of_nat index)))]> (
            <["slideIndex" := VNum (Z.of_nat index)]> (
            set_attr "slide" slide (
            <["updatedAt" := VNum now]> ∅))))))
       slides.

(** The body of the [for] loop at position [i]. *)
Definition saveSlides_batch (requests : list WriteRequest) (i : nat) : M unit :=
  let batch := Js.slice i (i + 25) requests in
  tbl ← getTableName;
  result ← BatchWriteCommand [(tbl, batch)];
  if (0 <? length result)%nat then
    _ ← sleep 1000;
    _ ← BatchWriteCommand result;
    mret tt
  else mret tt.

(** [for (let i = 0; i < writeRequests.length; i += 25) { ... }] *)
Equations? saveSlides_loop (requests : list WriteRequest) (i : nat) (w : World)
    : Outcome unit * World by wf (length requests - i)%nat lt :=
  saveSlides_loop requests i w with lt_dec i (length requests) => {
    | right _ => (Ok tt, w)
    | left _ =>
        match saveSlides_batch requests i w with
        | (Ok _, w') => saveSlides_loop requests (i + 25) w'
        | (Throw e, w') => (Throw e, w')
        end }.
Proof. lia. Qed.

Definition saveSlides (presentationId : string) (slides : list (option Value))
    : M unit :=
  logged (
    now ← Date_now;
    saveSlides_loop (writeRequests presentationId slides now) 0).

Definition updatePresentationStatus (presentationId : string)
    (status : PresentationStatus) (errorMessage : option string) : M unit :=
  logged (
    now ← Date_now;
    let updateExpression : list (string * Value) :=
      [("status", VStr (status_string status)); ("updatedAt", VNum now)] in
    let updateExpression :=
      match errorMessage with
      | Some e =>
          if truthy (Some (VStr e))
          then (updateExpression ++ [("errorMessage", VStr e)])%list
          else updateExpression
      | None => updateExpression
      end in
    tbl ← getTableName;
    UpdateCommand tbl (createPK presentationId) (createSK METADATA None)
                  updateExpression).

(** The [updates] argument of [updatePresentationMetadata]; the handler
    passes the fields of the parsed request body unchecked, so each is any
    value or [undefined]. *)
Record MetadataUpdates : Type := mkUpdates {
  u_title : option Value;
  u_description : option Value;
  u_theme : option Value
}.

(** [if (v !== undefined) { updateExpressions.push(name = v) }] *)
Definition push_if_defined (name : string) (v : option Value)
    (updateExpressions : list (string * Value)) : list (string * Value) :=
  match v with
  | Some x => (updateExpressions ++ [(name, x)])%list
  | None => updateExpressions
  end.

Definition updatePresentationMetadata (presentationId : string)
    (updates : MetadataUpdates) : M unit :=
  logged (
    now ← Date_now;
    let updateExpressions : list (string * Value) := [("updatedAt", VNum now)] in
    let updateExpressions := push_if_defined "title" (u_title updates) updateExpressions in
    let updateExpressions :=
      push_if_defined "description" (u_description updates) updateExpressions in
    let updateExpressions := push_if_defined "theme" (u_theme updates) updateExpressions in
    tbl ← getTableName;
    UpdateCommand tbl (createPK presentationId) (createSK METADATA None)
                  updateExpressions).

(** [(a, b) => b.createdAt - a.createdAt] *)
Definition createdAt_descending (a b : Item) : option Z :=
  Js.minus (b !! "createdAt") (a !! "createdAt").

Definition getUserPresentations (userId : string) : M (list Item) :=
  logged (
    tbl ← getTableName;
    result ← QueryIndexCommand tbl "GSI1" (createGSI1PK userId);
    if (length result =? 0)%nat then mret []
    else
      mret (Js.sort createdAt_descending
              ((fun item : Item =>
                  set_attr "id" (item !! "id") (
                  set_attr "title" (item !! "title") (
                  set_attr "description" (item !! "description") (
                  set_attr "userId" (item !! "userId") (
                  set_attr "status" (item !! "status") (
                  set_attr "createdAt" (item !! "createdAt") (
                  set_attr "updatedAt" (item !! "updatedAt") (
                  set_attr "theme" (item !! "theme") (
                  set_attr "errorMessage" (item !! "errorMessage") ∅)))))))))
               <$> result))).

(** [queryResult.Items.map((item) => ({ DeleteRequest: { Key: { pk: item.pk,
    sk: item.sk } } }))].  An item of the table always carries its key
    attributes as strings; [None] stands for a list with an item that does
    not, which the service would refuse. *)
Definition deleteRequests (items : list Item) : option (list WriteRequest) :=
  mapM (fun item => (fun k : string * string => DeleteRequest k.1 k.2) <$> item_key item)
       items.

(** [for (let i = 0; i < deleteRequests.length; i += 25) { ... }]: the
    answer of the batch write is not looked at. *)
Equations? deletePresentation_loop (requests : list WriteRequest) (i : nat) (w : World)
    : Outcome unit * World by wf (length requests - i)%nat lt :=
  deletePresentation_loop requests i w with lt_dec i (length requests) => {
    | right _ => (Ok tt, w)
    | left _ =>
        match (tbl ← getTableName;
               BatchWriteCommand [(tbl, Js.slice i (i + 25) requests)]) w with
        | (Ok _, w') => deletePresentation_loop requests (i + 25) w'
        | (Throw e, w') => (Throw e, w')
        end }.
Proof. lia. Qed.

Definition deletePresentation (presentationId : string) : M unit :=
  logged (
    tbl ← getTableName;
    queryResult ← QueryPartitionCommand tbl (createPK presentationId);
    if (length queryResult =? 0)%nat then mret tt
    else
      match deleteRequests queryResult with
      | Some requests => deletePresentation_loop requests 0
      | None => throw ValidationException
      end).

End PresentationRepository.

(** ** The queue consumer *)

(** The job message of [types/presentation.ts]. *)
Record GeneratePresentationMessage : Type := mkMessage {
  presentationId : string;
  userId : string;
  msg_title : string;
  msg_description : string;
  connectionId : option string
}.

Record SQSRecord : Type := mkRecord { body : string }.

Module Worker.
Import PresentationRepository.

(** [if (s)] on an optional string *)
Definition given (s : option string) : bool := truthy (VStr <$> s).

(** [generatePresentation] of [libs/openai.ts]: the call is recorded and the
    world's generation client answers. *)
Definition generatePresentation (title description : string) : M Presentation :=
  fun w =>
    let w1 := emit (EvGenerate title description) w in
    match openai w1 title description with
    | inl e => (Throw e, w1)
    | inr p => (Ok p, w1)
    end.

(** [apiClient.send(new PostToConnectionCommand(...))] *)
Definition PostToConnection (endpoint connectionId : string)
    (message : WebSocketMessage) : M unit := fun w =>
  let w1 := emit (EvPost endpoint connectionId message) w in
  match gateway w1 with
  | Some e :: rest => (Throw e, with_gateway rest w1)
  | None :: rest => (Ok tt, with_gateway rest w1)
  | [] => (Ok tt, w1)
  end.

Definition getWebSocketEndpoint : M string := fun w =>
  (Ok (env_or (WEBSOCKET_API_ENDPOINT w) ""), w).

Definition notifyWebSocket (connectionId : string) (message : WebSocketMessage)
    : M unit :=
  endpoint ← getWebSocketEndpoint;
  if String.eqb endpoint "" then mret tt
  else
    try_catch (PostToConnection endpoint connectionId message)
              (fun error => mret tt).

Definition notify_if_connected (connectionId : option string)
    (message : WebSocketMessage) : M unit :=
  match connectionId with
  | Some c => if given (Some c) then notifyWebSocket c message else mret tt
  | None => mret tt
  end.

(** [error instanceof Error ? error.message : "Unknown error"] *)
Definition errorMessage_of (error : Exn) : string :=
  match error with
  | JsError message => message
  | Thrown _ => "Unknown error"
  end.

Section ProcessMessage.
(** [JSON.parse(record.body)] followed by the destructuring of the
    message; both happen before the [try]. *)
Variable JSON_parse : string -> Exn + GeneratePresentationMessage.

Definition parse_body (record : SQSRecord) : M GeneratePresentationMessage :=
  match JSON_parse (body record) with
  | inl e => throw e
  | inr message => mret message
  end.

(** The [try] block of [processMessage]. *)
Definition generate_and_persist (message : GeneratePresentationMessage)
    : M unit :=
  presentation ← generatePresentation (msg_title message) (msg_description message);
  let presentation :=
    {| id := Some (VStr (presentationId message));
       title := title presentation;
       description := description presentation;
       theme := theme presentation;
       slides := slides presentation |} in
  _ ← saveSlides (presentationId message) (slides presentation);
  _ ← updatePresentationStatus (presentationId message) completed None;
  notify_if_connected (connectionId message)
    {| ws_type := presentation_completed;
       ws_presentationId := Some (presentationId message);
       ws_error := None |}.

(** The [catch] block of [processMessage]. *)
Definition record_failure (message : GeneratePresentationMessage)
    (error : Exn) : M unit :=
  let errorMessage := errorMessage_of error in
  _ ← updatePresentationStatus (presentationId message) failed (Some errorMessage);
  _ ← notify_if_connected (connectionId message)
        {| ws_type := presentation_failed;
           ws_presentationId := Some (presentationId message);
           ws_error := Some errorMessage |};
  throw error.

Definition processMessage (record : SQSRecord) : M unit :=
  message ← parse_body record;
  try_catch (generate_and_persist message) (record_failure message).

(** [for (const record of event.Records) { try { await processMessage(record) }
    catch (error) { console.error(...); throw error } }] *)
Fixpoint handler (Records : list SQSRecord) : M unit :=
  match Records with
  | [] => mret tt
  | record :: rest =>
      _ ← try_catch (processMessage record) (fun error => throw error);
      handler rest
  end.
End ProcessMessage.

End Worker.

(** ** Vocabulary of the properties *)

Module Props.
Import Keys Ddb.

Definition is_served (o : DdbOutcome) : bool :=
  match o with
  | Served _ => true
  | Rejected _ => false
  end.

(** The storage service rejects none of the coming commands. *)
Definition healthy (w : World) : Prop := forallb is_served (ddb w) = true.

(** The storage service serves the next command. *)
Definition accepts_next (w : World) : Prop :=
  is_served (fst (next_outcome (ddb w))) = true.

(** The positions the next batch write leaves unprocessed. *)
Definition next_skip (w : World) : list nat := next_outcome_skip (ddb w).

(** The world after one served command [ev] that leaves the table alone. *)
Definition after (ev : Event) (w : World) : World :=
  with_ddb (tail (ddb w)) (emit ev w).

(** The key of the metadata record of a presentation. *)
Definition metadata_key (presentationId : string) : string * string :=
  (createPK presentationId, "METADATA").

(** The slide records stored for a presentation: the items of its partition
    whose sort key starts with ["SLIDE#"]. *)
Definition slide_records (t : Table) (presentationId : string)
    : list ((string * string) * Item) :=
  filter (fun kv => kv.1.1 = createPK presentationId
                    /\ String.prefix "SLIDE#" kv.1.2 = true)
         (map_to_list t).

(** [Number.MAX_SAFE_INTEGER], 2^53 - 1 *)
Definition MAX_SAFE_INTEGER : Z := 9007199254740991.

(** The items that match a query fit its answer: the service leaves none
    of them for a later page. *)
Definition fits_page (w : World) (items : list Item) : Prop :=
  (length items <= page w items)%nat.

(** One answer holds the slide records of a presentation, every record of
    its partition, the records of an owner's index partition. *)
Definition slides_in_one_page (w : World) (presentationId : string) : Prop :=
  fits_page w (snd <$> query_items (table w) (createPK presentationId) "SLIDE#").

Definition partition_in_one_page (w : World) (presentationId : string) : Prop :=
  fits_page w (snd <$> query_items (table w) (createPK presentationId) "").

Definition listing_in_one_page (w : World) (userId : string) : Prop :=
  fits_page w (snd <$> index_items (table w) (createGSI1PK userId)).

(** The numeric [slideIndex] of an item, if it has one. *)
Definition index_of (item : Item) : option Z :=
  match item !! "slideIndex" with
  | Some (VNum n) => Some n
  | _ => None
  end.

Definition has_index (item : Item) : Prop := is_Some (index_of item).

(** [a] comes no later than [b] in ascending numeric [slideIndex]. *)
Definition index_le (a b : Item) : Prop :=
  exists x y, index_of a = Some x /\ index_of b = Some y /\ x <= y.

End Props.

Module StatusUpdate.
Import Keys Ddb.

(** The assignments [updatePresentationStatus] sends at time [now]. *)
Definition sets (status : PresentationStatus) (errorMessage : option string)
    (now : Z) : list (string * Value) :=
  ([("status", VStr (status_string status)); ("updatedAt", VNum now)]
   ++ match errorMessage with
      | Some e => if String.eqb e "" then [] else [("errorMessage", VStr e)]
      | None => []
      end)%list.

(** The item they leave at the key, from the item found there if any. *)
Definition result (status : PresentationStatus) (errorMessage : option string)
    (now : Z) (presentationId : string) (found : option Item) : Item :=
  apply_sets (sets status errorMessage now)
    (default (key_attrs (createPK presentationId) "METADATA") found).

End StatusUpdate.

Module Notification.

(** The world after the best-effort notification of [connectionId]: nothing
    happens without a connection id or without a configured endpoint;
    otherwise one message is posted and the gateway's outcome is consumed. *)
Definition notified (connectionId : option string) (message : WebSocketMessage)
    (w : World) : World :=
  match connectionId with
  | Some c =>
      if String.eqb c "" then w
      else
        let endpoint := env_or (WEBSOCKET_API_ENDPOINT w) "" in
        if String.eqb endpoint "" then w
        else with_gateway (tail (gateway w)) (emit (EvPost endpoint c message) w)
  | None => w
  end.

(** The commands the notification adds to the trace. *)
Definition posts (connectionId : option string) (message : WebSocketMessage)
    (w : World) : list Event :=
  match connectionId with
  | Some c =>
      if String.eqb c "" then []
      else
        let endpoint := env_or (WEBSOCKET_API_ENDPOINT w) "" in
        if String.eqb endpoint "" then []
        else [EvPost endpoint c message]
  | None => []
  end.

Definition failure_message (presentationId errorMessage : string)
    : WebSocketMessage :=
  {| ws_type := presentation_failed;
     ws_presentationId := Some presentationId;
     ws_error := Some errorMessage |}.

End Notification.

Module MetadataWrite.
Import Keys Ddb PresentationRepository.

(** The object [getPresentationMetadata] builds from a stored item. *)
Definition view (item : Item) : Item :=
  set_attr "id" (item !! "id") (
  set_attr "title" (item !! "title") (
  set_attr "description" (item !! "description") (
  set_attr "userId" (item !! "userId") (
  set_attr "status" (item !! "status") (
  set_attr "createdAt" (item !! "createdAt") (
  set_attr "updatedAt" (item !! "updatedAt") (
  set_attr "theme" (item !! "theme") (
  set_attr "errorMessage" (item !! "errorMessage") ∅)))))))).

(** The item [savePresentationMetadata] puts at time [now] when it found
    [found] at the key. *)
Definition written (metadata : MetadataInput) (now : Z) (found : option Item)
    : Item :=
  <["updatedAt" := VNum now]> (
  <["createdAt" := js_or (found ≫= lookup "createdAt") (VNum now)]> (
  metadata_object metadata))
  ∪
  <["pk" := VStr (createPK (m_id metadata))]> (
  <["sk" := VStr (createSK METADATA None)]> (
  <["gsi1pk" := VStr (createGSI1PK (m_userId metadata))]> (
  <["gsi1sk" := VStr (createGSI1SK (m_id metadata))]> ∅))).

End MetadataWrite.

Module BatchSpec.
Import Ddb.

(** Consecutive batches of at most 25 records, in order. *)
Equations? chunks (l : list WriteRequest) : list (list WriteRequest)
    by wf (length l) lt :=
  chunks [] := [];
  chunks (r :: l) := take 25 (r :: l) :: chunks (drop 25 (r :: l)).
Proof. rewrite length_drop. cbn [length]. lia. Qed.

(** What the specification has [saveSlides] issue for the batches, given the
    outcomes of the coming storage commands: each batch is written; when the
    service leaves some of its records unprocessed, one second passes and
    exactly those records are written once more, whatever the service then
    does with them. *)
Fixpoint issued (TableName : string) (batches : list (list WriteRequest))
    (outcomes : list DdbOutcome) : list Event :=
  match batches with
  | [] => []
  | batch :: rest =>
      let pending := unprocessed (next_outcome_skip outcomes) batch in
      match pending with
      | [] => EvBatchWrite [(TableName, batch)] :: issued TableName rest (tail outcomes)
      | _ :: _ =>
          EvBatchWrite [(TableName, batch)]
            :: EvSleep 1000
            :: EvBatchWrite [(TableName, pending)]
            :: issued TableName rest (tail (tail outcomes))
      end
  end.

End BatchSpec.

(** ** Sample data *)

Module Sample.
Import Keys Ddb PresentationRepository.

Definition theme : Value :=
  VMap [("logo", VStr "qodea"); ("colors", VStr "qodea")].

Definition metadata (createdAt : Z) (errorMessage : option string) : Item :=
  set_attr "errorMessage" (VStr <$> errorMessage) (
  <["id" := VStr "p1"]> (
  <["title" := VStr "Q4 Review"]> (
  <["description" := VStr "desc"]> (
  <["userId" := VStr "a@x.com"]> (
  <["status" := VStr "processing"]> (
  <["createdAt" := VNum createdAt]> (
  <["updatedAt" := VNum createdAt]> (
  <["theme" := theme]> (
  <["gsi1pk" := VStr "USER#a@x.com"]> (
  <["gsi1sk" := VStr "PRESENTATION#p1"]> (
  key_attrs "PRESENTATION#p1" "METADATA"))))))))))).

Definition slide (n : Z) : Value :=
  VMap [("type", VStr "content"); ("title", VStr (pretty n))].

(** A table holding the metadata of presentation [p1] and the slide records
    of the given slides. *)
Definition table_of (md : Item) (slides : list (Z * Value)) : Table :=
  foldr (fun s t =>
           <[("PRESENTATION#p1", createSK SLIDE (Some s.1))
             := slide_item "p1" s.1 (Some s.2) 1000]> t)
        (<[("PRESENTATION#p1", "METADATA") := md]> ∅)
        slides.

Definition input : MetadataInput :=
  {| m_id := "p1"; m_title := "Q4 Review"; m_description := Some "desc";
     m_userId := "a@x.com"; m_status := processing; m_theme := theme;
     m_errorMessage := None |}.

Definition no_generation (title description : string) : Exn + Presentation :=
  inl (JsError "No response from OpenAI").

Definition world (t : Table) (now : Z) (outcomes : list DdbOutcome) : World :=
  {| table := t; clock := now; ddb := outcomes; openai := no_generation;
     gateway := []; TABLE_NAME := None; WEBSOCKET_API_ENDPOINT := None;
     trace := []; page := length |}.

(** A world with a connected client whose gateway refuses the next post. *)
Definition world_with_gateway (t : Table) (now : Z) (outcomes : list DdbOutcome)
    : World :=
  {| table := t; clock := now; ddb := outcomes; openai := no_generation;
     gateway := [Some (JsError "GoneException")]; TABLE_NAME := None;
     WEBSOCKET_API_ENDPOINT := Some "https://ws.example.com";
     trace := []; page := length |}.

Definition message : GeneratePresentationMessage :=
  {| presentationId := "p1"; userId := "a@x.com"; msg_title := "Q4 Review";
     msg_description := "desc"; connectionId := Some "conn-1" |}.

Definition record : SQSRecord := {| body := "job for p1" |}.

Definition parse (body : string) : Exn + GeneratePresentationMessage :=
  inr message.

End Sample.

(** ** Vocabulary of the further properties *)

Module Store.
Import Keys Ddb.

(** The outcome of a call that raised [e] after issuing one command and
    without touching the table. *)
Definition rejected_with {A} (e : Exn) (w : World) (r : Outcome A * World) : Prop :=
  r.1 = Throw e /\ table r.2 = table w /\ exists ev, trace r.2 = (trace w ++ [ev])%list.

(** Every item is stored under the key its [pk] and [sk] attributes name, as
    in any DynamoDB table. *)
Definition keyed (t : Table) : Prop :=
  forall k item, t !! k = Some item -> item_key item = Some k.

(** The storage service serves every coming command and leaves no write
    request unprocessed. *)
Definition reliable (w : World) : Prop :=
  Forall (fun o => o = Served []) (ddb w).

(** The table holds exactly the deck [deck] for the presentation: position
    [j] is stored under the sort key of [j] with [slideIndex = j], and the
    partition has no other slide record. *)
Definition stores_deck (t : Table) (presentationId : string)
    (deck : list (option Value)) : Prop :=
  (forall (j : nat) (slide : option Value),
     deck !! j = Some slide ->
     exists item,
       t !! (createPK presentationId, createSK SLIDE (Some (Z.of_nat j))) = Some item
       /\ item !! "slideIndex" = Some (VNum (Z.of_nat j))
       /\ item !! "slide" = slide)
  /\ (forall (sk : string) (item : Item),
        t !! (createPK presentationId, sk) = Some item ->
        String.prefix "SLIDE#" sk = true ->
        exists j : nat,
          (j < length deck)%nat /\ sk = createSK SLIDE (Some (Z.of_nat j))).

(** The nine attribute names of [PresentationMetadata]. *)
Definition metadata_fields : list string :=
  ["id"; "title"; "description"; "userId"; "status"; "createdAt"; "updatedAt";
   "theme"; "errorMessage"].

(** The records of the index partition of an owner. *)
Definition index_partition (t : Table) (userId : string)
    : list ((string * string) * Item) :=
  filter (fun kv => fst <$> index_key kv.2 = Some (createGSI1PK userId))
         (map_to_list t).

(** [a] comes no later than [b] in descending numeric [createdAt]. *)
Definition createdAt_ge (a b : Item) : Prop :=
  exists x y, a !! "createdAt" = Some (VNum x)
              /\ b !! "createdAt" = Some (VNum y) /\ y <= x.

Definition has_createdAt (a : Item) : Prop :=
  exists x, a !! "createdAt" = Some (VNum x).

End Store.


Module Deletion.
Import Keys Ddb.

(** The keys of the records of a presentation's partition, metadata and
    slides, in ascending order of sort key. *)
Definition partition_keys (t : Table) (presentationId : string)
    : list (string * string) :=
  fst <$> query_items t (createPK presentationId) "".

(** The keys of the records the one query of [deletePresentation] answers
    with: those of the first page of the partition. *)
Definition answered_keys (w : World) (presentationId : string)
    : list (string * string) :=
  take (page w (snd <$> query_items (table w) (createPK presentationId) ""))
       (partition_keys (table w) presentationId).

Definition requests_of (keys : list (string * string)) : list WriteRequest :=
  (fun k => DeleteRequest k.1 k.2) <$> keys.

(** The write requests the service applies when batches are sent one after
    the other, each once, given the outcomes of the coming commands. *)
Fixpoint applied (batches : list (list WriteRequest))
    (outcomes : list DdbOutcome) : list WriteRequest :=
  match batches with
  | [] => []
  | batch :: rest =>
      (processed (next_outcome_skip outcomes) batch ++ applied rest (tail outcomes))%list
  end.

End Deletion.


Module DeckItems.
Import Keys Ddb.

(** The item stored for position [j] of a presentation's deck. *)
Definition deck_item (t : Table) (presentationId : string) (j : nat) : Item :=
  default ∅ (t !! (createPK presentationId, createSK SLIDE (Some (Z.of_nat j)))).

(** The item [saveSlides] builds for position [j]. *)
Definition request_item (presentationId : string) (j : nat)
    (slide : option Value) (now : Z) : Item :=
  <["pk" := VStr (createPK presentationId)]> (
  <["sk" := VStr (createSK SLIDE (Some (Z.of_nat j)))]> (
  <["slideIndex" := VNum (Z.of_nat j)]> (
  set_attr "slide" slide (
  <["updatedAt" := VNum now]> ∅)))).

End DeckItems.


(** ** [handlers/http/getPresentation.ts]: [GET /presentations/{id}] *)

Module GetPresentation.
Import PresentationRepository.

(** The functions of [libs/response] the handler returns through; a response
    is recorded as the function called and the argument passed to it. *)
Inductive Response : Type :=
| ok (body : Presentation)
| notOk400 (message : string)
| notOk404 (message : string)
| notOk500 (error : Exn).

Record APIGatewayProxyEventV2 := {
  pathParameters : option (gmap string string);
}.

(** [error instanceof Error ? error : new Error("Failed to get presentation")] *)
Definition as_Error (error : Exn) : Exn :=
  match error with
  | JsError _ => error
  | Thrown _ => JsError "Failed to get presentation"
  end.

Definition handler (event : APIGatewayProxyEventV2) : M Response :=
  try_catch (
    (* event.pathParameters?.id *)
    let presentationId := pathParameters event ≫= (fun p => p !! "id") in
    match presentationId with
    | Some pid =>
        if negb (truthy (Some (VStr pid))) then
          mret (notOk400 "Presentation ID is required")
        else
          presentation ← getPresentation pid;
          match presentation with
          | None => mret (notOk404 "Presentation not found")
          | Some p => mret (ok p)
          end
    | None => mret (notOk400 "Presentation ID is required")
    end)
    (fun error => mret (notOk500 (as_Error error))).

(** The path parameter [id] of a request. *)
Definition path_id (event : APIGatewayProxyEventV2) : option string :=
  pathParameters event ≫= (fun p => p !! "id").

End GetPresentation.


(** ** [libs/secrets.ts] *)

Module Secrets.

(** [keyof AppSecrets] *)
Inductive SecretKey := OPENAI_API_KEY | GOOGLE_CLIENT_ID | GOOGLE_CLIENT_SECRET.

Definition key_name (key : SecretKey) : string :=
  match key with
  | OPENAI_API_KEY => "OPENAI_API_KEY"
  | GOOGLE_CLIENT_ID => "GOOGLE_CLIENT_ID"
  | GOOGLE_CLIENT_SECRET => "GOOGLE_CLIENT_SECRET"
  end.

(** What the module runs in: its variable [cachedSecrets] ([null] when the
    module is loaded), [process.env], the secrets service (its answer to the
    [n]-th [GetSecretValueCommand], for a secret id: an exception, or the
    [SecretString] of the response if it has one) and the secret ids asked
    for so far. *)
Record State := {
  cachedSecrets : Value;
  env : gmap string string;
  secretsManager : nat -> string -> Exn + option string;
  requested : list string;
}.

Definition with_cachedSecrets (v : Value) (s : State) : State :=
  {| cachedSecrets := v; env := env s; secretsManager := secretsManager s;
     requested := requested s |}.

Definition with_requested (l : list string) (s : State) : State :=
  {| cachedSecrets := cachedSecrets s; env := env s;
     secretsManager := secretsManager s; requested := l |}.

Definition SM (A : Type) : Type := State -> Outcome A * State.

(** [secretsClient.send(new GetSecretValueCommand({ SecretId }))] *)
Definition GetSecretValueCommand (SecretId : string) : SM (option string) := fun s =>
  let s1 := with_requested (requested s ++ [SecretId]) s in
  match secretsManager s (length (requested s)) SecretId with
  | inl e => (Throw e, s1)
  | inr SecretString => (Ok SecretString, s1)
  end.

(** [o[key]] for one of the three key names: a [TypeError] on [null], the
    property of an object, [undefined] on any other value. *)
Fixpoint own_property (m : list (string * Value)) (key : string) : option Value :=
  match m with
  | [] => None
  | (k, v) :: rest => if String.eqb k key then Some v else own_property rest key
  end.

Definition TypeError_null (key : string) : Exn :=
  JsError ("Cannot read properties of null (reading '" +:+ key +:+ "')").

Definition get_property (o : Value) (key : string) : Exn + option Value :=
  match o with
  | VNull => inl (TypeError_null key)
  | VMap m => inr (own_property m key)
  | _ => inr None
  end.

Section Load.
(** [JSON.parse] *)
Variable JSON_parse : string -> Exn + Value.

Definition loadSecrets : SM Value := fun s =>
  if truthy (Some (cachedSecrets s)) then (Ok (cachedSecrets s), s)
  else
    let secretId := env s !! "SECRETS_ID" in
    match secretId with
    | None => (Ok (VMap []), s)
    | Some secretId =>
        if negb (truthy (Some (VStr secretId))) then (Ok (VMap []), s)
        else
          (* try { ... } catch (error) { return {} } *)
          match GetSecretValueCommand secretId s with
          | (Ok (Some SecretString), s1) =>
              if truthy (Some (VStr SecretString)) then
                match JSON_parse SecretString with
                | inr secrets => (Ok secrets, with_cachedSecrets secrets s1)
                | inl error => (Ok (VMap []), s1)
                end
              else (Ok (VMap []), s1)
          | (Ok None, s1) => (Ok (VMap []), s1)
          | (Throw error, s1) => (Ok (VMap []), s1)
          end
    end.

(** [secrets[key] || process.env[key]] *)
Definition getSecret (key : SecretKey) : SM (option Value) := fun s =>
  match loadSecrets s with
  | (Ok secrets, s1) =>
      match get_property secrets (key_name key) with
      | inl e => (Throw e, s1)
      | inr v =>
          (Ok (if truthy v then v else VStr <$> (env s1 !! key_name key)), s1)
      end
  | (Throw e, s1) => (Throw e, s1)
  end.

(** [!!clientId] *)
Definition isGoogleAuthConfigured : SM bool := fun s =>
  match getSecret GOOGLE_CLIENT_ID s with
  | (Ok clientId, s1) => (Ok (truthy clientId), s1)
  | (Throw e, s1) => (Throw e, s1)
  end.
End Load.

Definition clearSecretsCache (s : State) : State := with_cachedSecrets VNull s.

(** The module has a secret id to ask for. *)
Definition configured (s : State) (secretId : string) : Prop :=
  env s !! "SECRETS_ID" = Some secretId /\ secretId <> "".

(** The ways a load can fail to produce secrets. *)
Definition load_fails (JSON_parse : string -> Exn + Value) (s : State)
    (secretId : string) : Prop :=
  match secretsManager s (length (requested s)) secretId with
  | inl _ => True
  | inr None => True
  | inr (Some SecretString) =>
      SecretString = "" \/ exists e, JSON_parse SecretString = inl e
  end.

End Secrets.


Module SecretsSample.

(** A parser that knows two secret strings. *)
Definition parse (text : string) : Exn + Value :=
  if String.eqb text "secrets-object" then
    inr (VMap [("OPENAI_API_KEY", VStr "sk-1"); ("GOOGLE_CLIENT_ID", VStr "")])
  else if String.eqb text "null" then inr VNull
  else inl (JsError "Unexpected token").

(** A freshly loaded module with a secret id, whose service always answers
    [answer]; [GOOGLE_CLIENT_ID] is set in the environment when [client_id]
    is given. *)
Definition state (answer : Exn + option string) (client_id : option string)
    : Secrets.State :=
  {| Secrets.cachedSecrets := VNull;
     Secrets.env :=
       match client_id with
       | Some c => <["GOOGLE_CLIENT_ID" := c]> {[ "SECRETS_ID" := "prod/app" ]}
       | None => {[ "SECRETS_ID" := "prod/app" ]}
       end;
     Secrets.secretsManager := fun _ _ => answer;
     Secrets.requested := [] |}.

End SecretsSample.


Module SampleListing.
Import Ddb.

(** The metadata record of a second presentation [p2] of the same owner,
    created at [createdAt]. *)
Definition second (createdAt : Z) : Item :=
  <["id" := VStr "p2"]> (
  <["createdAt" := VNum createdAt]> (
  <["gsi1sk" := VStr "PRESENTATION#p2"]> (
  <["pk" := VStr "PRESENTATION#p2"]> (Sample.metadata 1000 None)))).

(** Presentation [p1], created at 1000 with one slide, and presentation
    [p2], created at 3000. *)
Definition two_presentations : Table :=
  <[("PRESENTATION#p2", "METADATA") := second 3000]> (
    Sample.table_of (Sample.metadata 1000 None) [(0, Sample.slide 0)]).

End SampleListing.


(** * Properties *)

Import Keys Ddb PresentationRepository Worker.

(** ** The monad *)

Lemma bind_ok {A B} (m : M A) (f : A -> M B) (w w' : World) (a : A) :
  m w = (Ok a, w') -> (m ≫= f) w = f a w'.
Proof. intros H. unfold mbind, M_bind. rewrite H. reflexivity. Qed.

Lemma logged_run {A} (m : M A) (w : World) : logged m w = m w.
Proof.
  unfold logged, try_catch, throw.
  destruct (m w) as [[a | e] w']; reflexivity.
Qed.

(** ** Key construction *)

Lemma slide_keys_agree_below_1000 :
  forallb slide_key_agrees (seq 0 1000) = true.
Proof. vm_compute. reflexivity. Qed.

Lemma createSK_slide_digits (i : Z) :
  0 <= i <= 999 -> createSK SLIDE (Some i) = spec_slide_key i.
Proof.
  intros Hi.
  pose proof slide_keys_agree_below_1000 as Hall.
  rewrite forallb_forall in Hall.
  specialize (Hall (Z.to_nat i)).
  unfold slide_key_agrees in Hall.
  rewrite Z2Nat.id in Hall by lia.
  apply String.eqb_eq, Hall, in_seq. lia.
Qed.

Example createSK_samples :
  createSK SLIDE (Some 0) = "SLIDE#000"
  /\ createSK SLIDE (Some 42) = "SLIDE#042"
  /\ createSK SLIDE (Some 999) = "SLIDE#999"
  /\ createSK SLIDE (Some 1000) = "SLIDE#1000"
  /\ createSK SLIDE None = "METADATA"
  /\ padStart "7" 3 "ab" = "ab7"
  /\ padStart "1234" 3 "0" = "1234".
Proof. repeat split; reflexivity. Qed.

(** C2.  For every presentation id, owner id and slide index [0 <= i <= 999]:
    the partition key is ["PRESENTATION#"] followed by the id, the metadata
    sort key is the literal ["METADATA"], the slide sort key is ["SLIDE#"]
    followed by the three decimal digits of [i] (hundreds, tens, units, so
    left-padded with zeros to exactly three characters), the secondary
    partition key is ["USER#"] followed by the owner id and the secondary sort
    key is ["PRESENTATION#"] followed by the id. *)
Theorem key_construction (presentationId ownerId : string) (i : Z) :
  0 <= i <= 999 ->
  createPK presentationId = "PRESENTATION#" +:+ presentationId
  /\ (forall slideIndex, createSK METADATA slideIndex = "METADATA")
  /\ createSK SLIDE (Some i) = spec_slide_key i
  /\ String.length (createSK SLIDE (Some i)) = 9%nat
  /\ createGSI1PK ownerId = "USER#" +:+ ownerId
  /\ createGSI1SK presentationId = "PRESENTATION#" +:+ presentationId.
Proof.
  intros Hi.
  split; [reflexivity |].
  split; [intros []; reflexivity |].
  split; [apply createSK_slide_digits, Hi |].
  split; [rewrite createSK_slide_digits by exact Hi; reflexivity |].
  split; reflexivity.
Qed.

Lemma key_construction_witness :
  0 <= 7 <= 999
  /\ createSK SLIDE (Some 7) = "SLIDE#007"
  /\ createPK "abc" = "PRESENTATION#abc"
  /\ createGSI1PK "a@x.com" = "USER#a@x.com".
Proof.
  assert (H : 0 <= 7 <= 999) by lia.
  destruct (key_construction "abc" "a@x.com" 7 H) as (Hpk & _ & Hsk & _ & Hg & _).
  split; [exact H |].
  split; [rewrite Hsk; reflexivity |].
  split; [rewrite Hpk; reflexivity | rewrite Hg; reflexivity].
Defined.

(** ** [saveSlides] with no slide *)

Lemma saveSlides_nil (presentationId : string) (w : World) :
  saveSlides presentationId [] w = (Ok tt, w).
Proof.
  unfold saveSlides. rewrite logged_run.
  erewrite bind_ok by reflexivity.
  cbn [writeRequests imap]. simp saveSlides_loop. reflexivity.
Qed.

(** C8.  For every presentation id, [saveSlides(id, [])] issues no storage
    command: the loop runs zero times, the call returns normally, nothing is
    added to the trace of issued commands, and every stored record (the
    metadata and all previously stored slide records) is unchanged. *)
Theorem saveSlides_nil_no_write (presentationId : string) (w : World) :
  exists w',
    saveSlides presentationId [] w = (Ok tt, w')
    /\ trace w' = trace w
    /\ table w' = table w
    /\ w' = w.
Proof. exists w. rewrite saveSlides_nil. repeat split. Qed.

Import Props.

(** ** Served commands *)

Lemma healthy_after (ev : Event) (w : World) : healthy w -> healthy (after ev w).
Proof.
  unfold healthy, after. simpl.
  destruct (ddb w) as [| o rest]; simpl; [reflexivity |].
  rewrite andb_true_iff. tauto.
Qed.

Lemma healthy_with_table (t : Table) (w : World) :
  healthy w -> healthy (with_table t w).
Proof. intros H. exact H. Qed.

Lemma healthy_next (w : World) :
  healthy w -> next_outcome (ddb (w)) = (Served (next_skip w), tail (ddb w)).
Proof.
  unfold healthy, next_skip.
  destruct (ddb w) as [| [skip | e] rest]; simpl; [reflexivity.. | discriminate].
Qed.

Lemma healthy_accepts (w : World) : healthy w -> accepts_next w.
Proof. intros H. unfold accepts_next. rewrite (healthy_next w H). reflexivity. Qed.

Lemma send_accepted {A} (ev : Event)
    (serve : list nat -> Table -> Outcome A * Table) (w : World) :
  accepts_next w ->
  send ev serve w =
    (let '(r, t) := serve (next_skip w) (table w) in
     (r, with_table t (after ev w))).
Proof.
  unfold accepts_next, send, next_skip, after.
  change (ddb (emit ev w)) with (ddb w).
  destruct (ddb w) as [| [skip | e] rest]; simpl; [reflexivity.. | discriminate].
Qed.

Lemma send_served {A} (ev : Event)
    (serve : list nat -> Table -> Outcome A * Table) (w : World) :
  healthy w ->
  send ev serve w =
    (let '(r, t) := serve (next_skip w) (table w) in
     (r, with_table t (after ev w))).
Proof. intros H. apply send_accepted, healthy_accepts, H. Qed.

Lemma GetCommand_served (tbl pk sk : string) (w : World) :
  healthy w ->
  GetCommand tbl pk sk w = (Ok (table w !! (pk, sk)), after (EvGet tbl pk sk) w).
Proof. intros H. unfold GetCommand. rewrite send_served by exact H. reflexivity. Qed.

Lemma QueryCommand_served (tbl pk skPrefix : string) (w : World) :
  healthy w ->
  QueryCommand tbl pk skPrefix w =
    (Ok (first_page w (snd <$> query_items (table w) pk skPrefix)),
     after (EvQuery tbl pk skPrefix) w).
Proof. intros H. unfold QueryCommand. rewrite send_served by exact H. reflexivity. Qed.

Lemma first_page_whole (w : World) (items : list Item) :
  fits_page w items -> first_page w items = items.
Proof. intros H. apply take_ge, H. Qed.

Lemma first_page_nil (w : World) : first_page w [] = [].
Proof. apply take_nil. Qed.

Lemma query_items_perm (t : Table) (presentationId : string) :
  query_items t (createPK presentationId) "SLIDE#" ≡ₚ slide_records t presentationId.
Proof. unfold query_items, slide_records. apply merge_sort_Permutation. Qed.

(** The slide records of a presentation are the items stored under its
    partition key and a sort key that starts with ["SLIDE#"]. *)
Lemma slide_records_spec (t : Table) (presentationId : string)
    (k : string * string) (item : Item) :
  (k, item) ∈ slide_records t presentationId
  <-> t !! k = Some item
      /\ k.1 = createPK presentationId
      /\ String.prefix "SLIDE#" k.2 = true.
Proof.
  unfold slide_records. rewrite list_elem_of_filter, elem_of_map_to_list.
  simpl. tauto.
Qed.

(** ** [Array.prototype.sort] *)

Section SortFacts.
Context {A : Type} (comparefn : A -> A -> option Z).

Lemma sort_insert_perm (x : A) (l : list A) :
  Js.sort_insert comparefn x l ≡ₚ x :: l.
Proof.
  induction l as [| y l IH]; simpl; [reflexivity |].
  destruct (Js.positive (comparefn x y)); [| reflexivity].
  rewrite IH. apply Permutation_swap.
Qed.

Lemma sort_perm (l : list A) : Js.sort comparefn l ≡ₚ l.
Proof.
  induction l as [| x l IH]; simpl; [reflexivity |].
  rewrite sort_insert_perm, IH. reflexivity.
Qed.

(** On a domain [P] where the comparator decides a total order [R], the
    result is sorted for [R]. *)
Context (P : A -> Prop) (R : A -> A -> Prop).
Hypothesis keep : forall x y, P x -> P y ->
  Js.positive (comparefn x y) = false -> R x y.
Hypothesis swap : forall x y, P x -> P y ->
  Js.positive (comparefn x y) = true -> R y x.

Lemma sort_insert_sorted (x : A) (l : list A) :
  P x -> Forall P l -> Sorted R l -> Sorted R (Js.sort_insert comparefn x l).
Proof.
  intros Hx HP HS.
  induction l as [| y l IH]; simpl.
  - repeat constructor.
  - apply Forall_cons in HP as [Hy HP].
    apply Sorted_inv in HS as [HS Hhd].
    destruct (Js.positive (comparefn x y)) eqn:Hc.
    + constructor; [apply IH; assumption |].
      destruct l as [| z l]; simpl.
      * constructor. apply swap; assumption.
      * destruct (Js.positive (comparefn x z)); constructor.
        -- apply HdRel_inv in Hhd. exact Hhd.
        -- apply swap; assumption.
    + constructor; [constructor; assumption |].
      constructor. apply keep; assumption.
Qed.

Lemma sort_sorted (l : list A) :
  Forall P l -> Sorted R (Js.sort comparefn l).
Proof.
  induction l as [| x l IH]; simpl; intros HP; [constructor |].
  apply Forall_cons in HP as [Hx HP].
  apply sort_insert_sorted; [exact Hx | | apply IH, HP].
  rewrite Forall_forall in HP |- *.
  intros y Hy. apply HP. rewrite <- (sort_perm l). exact Hy.
Qed.
End SortFacts.

(** ** [getPresentation] *)

Lemma getPresentation_served (presentationId : string) (w : World) :
  healthy w ->
  getPresentation presentationId w =
    let tbl := env_or (TABLE_NAME w) "presentations" in
    let w1 := after (EvGet tbl (createPK presentationId) "METADATA") w in
    match table w !! metadata_key presentationId with
    | None => (Ok None, w1)
    | Some metadata =>
        (Ok (Some {|
           id := metadata !! "id";
           title := metadata !! "title";
           description := metadata !! "description";
           theme := metadata !! "theme";
           slides := (fun item : Item => item !! "slide") <$>
                     Js.sort slideIndex_order
                       (first_page w
                          (snd <$> query_items (table w) (createPK presentationId)
                                     "SLIDE#"))
         |}),
         after (EvQuery tbl (createPK presentationId) "SLIDE#") w1)
    end.
Proof.
  intros H. unfold getPresentation. rewrite logged_run.
  erewrite bind_ok by reflexivity.
  erewrite bind_ok by (apply GetCommand_served; exact H).
  cbv zeta. unfold metadata_key. cbn [createSK].
  destruct (table w !! (createPK presentationId, "METADATA")) as [metadata |];
    [| reflexivity].
  erewrite bind_ok by reflexivity.
  erewrite bind_ok by (apply QueryCommand_served, healthy_after; exact H).
  reflexivity.
Qed.

Lemma index_order_keep (a b : Item) :
  has_index a -> has_index b ->
  Js.positive (slideIndex_order a b) = false -> index_le a b.
Proof.
  unfold has_index, index_of, slideIndex_order, index_le, index_of.
  intros [x Hx] [y Hy].
  destruct (a !! "slideIndex") as [[]|]; try discriminate.
  destruct (b !! "slideIndex") as [[]|]; try discriminate.
  simpl. intros Hc. do 2 eexists. repeat split. lia.
Qed.

Lemma index_order_swap (a b : Item) :
  has_index a -> has_index b ->
  Js.positive (slideIndex_order a b) = true -> index_le b a.
Proof.
  unfold has_index, index_of, slideIndex_order, index_le, index_of.
  intros [x Hx] [y Hy].
  destruct (a !! "slideIndex") as [[]|]; try discriminate.
  destruct (b !! "slideIndex") as [[]|]; try discriminate.
  simpl. intros Hc. do 2 eexists. repeat split. lia.
Qed.



(** The order is the numeric one: the record under [SLIDE#1000] sorts before
    the one under [SLIDE#999] by key, and after it in the answer. *)
Example getPresentation_orders_by_slideIndex :
  let w := Sample.world
             (Sample.table_of (Sample.metadata 1000 None)
                [(999, Sample.slide 999); (1000, Sample.slide 1000); (2, Sample.slide 2)])
             2000 [] in
  fst <$> query_items (table w) "PRESENTATION#p1" "SLIDE#"
    = [("PRESENTATION#p1", "SLIDE#002"); ("PRESENTATION#p1", "SLIDE#1000");
       ("PRESENTATION#p1", "SLIDE#999")]
  /\ slides <$> (match fst (getPresentation "p1" w) with
                 | Ok r => r
                 | Throw _ => None
                 end)
     = Some [Some (Sample.slide 2); Some (Sample.slide 999); Some (Sample.slide 1000)].
Proof. split; vm_compute; reflexivity. Qed.

(** Without the hypothesis on the answer, slides are left out: the query is
    sent once and what the service keeps for a later page is never asked
    for.  Here the answer stops after one item. *)
Example getPresentation_reads_first_page_only :
  let t := Sample.table_of (Sample.metadata 1000 None)
             [(0, Sample.slide 0); (1, Sample.slide 1)] in
  let w := {| table := t; clock := 2000; ddb := []; openai := Sample.no_generation;
              gateway := []; TABLE_NAME := None; WEBSOCKET_API_ENDPOINT := None;
              trace := []; page := fun _ => 1%nat |} in
  length (slide_records t "p1") = 2%nat
  /\ slides <$> (match fst (getPresentation "p1" w) with
                 | Ok r => r
                 | Throw _ => None
                 end)
     = Some [Some (Sample.slide 0)]
  /\ length (trace (snd (getPresentation "p1" w))) = 2%nat.
Proof. vm_compute. repeat split; reflexivity. Qed.

(** ** [saveSlides(id, [])] followed by [getPresentation(id)] *)

(** Against C1 as stated: a presentation with one stored slide record still
    has it after [saveSlides(id, [])], and the slide list read back is not
    empty. *)
Lemma saveSlides_nil_keeps_stored_slides :
  let w := Sample.world
             (Sample.table_of (Sample.metadata 1000 None) [(0, Sample.slide 0)])
             2000 [] in
  exists p w',
    (saveSlides "p1" [] ≫= fun _ => getPresentation "p1") w = (Ok (Some p), w')
    /\ slides p = [Some (Sample.slide 0)]
    /\ slides p <> [].
Proof.
  intros w.
  erewrite bind_ok by apply saveSlides_nil.
  rewrite getPresentation_served by reflexivity.
  do 2 eexists. split; [vm_compute; reflexivity |].
  split; [reflexivity | discriminate].
Qed.

(** C1, as the code has it.  While the storage service answers, the
    metadata record exists and the slide records of the id fit the one answer
    of the query, [saveSlides(id, [])] followed by [getPresentation(id)]
    returns what [getPresentation(id)] alone returns: the metadata record is
    still present and the slide list has one slide per slide record stored
    for the id before the call, so it is empty exactly when no slide record
    was stored. *)
Theorem saveSlides_nil_then_getPresentation
    (presentationId : string) (w : World) (metadata : Item) :
  healthy w ->
  slides_in_one_page w presentationId ->
  table w !! metadata_key presentationId = Some metadata ->
  (saveSlides presentationId [] ≫= fun _ => getPresentation presentationId) w
    = getPresentation presentationId w
  /\ exists p w',
       (saveSlides presentationId [] ≫= fun _ => getPresentation presentationId) w
         = (Ok (Some p), w')
       /\ table w' !! metadata_key presentationId = Some metadata
       /\ length (slides p) = length (slide_records (table w) presentationId)
       /\ (slides p = [] <-> slide_records (table w) presentationId = []).
Proof.
  intros H Hfit Hmd.
  erewrite bind_ok by apply saveSlides_nil.
  split; [reflexivity |].
  rewrite (getPresentation_served presentationId w H). cbv zeta. rewrite Hmd.
  rewrite (first_page_whole w _ Hfit).
  do 2 eexists. split; [reflexivity |]. split; [exact Hmd |].
  assert (Hlen : length (slides {|
             id := metadata !! "id"; title := metadata !! "title";
             description := metadata !! "description"; theme := metadata !! "theme";
             slides := (fun item : Item => item !! "slide") <$>
                       Js.sort slideIndex_order
                         (snd <$> query_items (table w) (createPK presentationId) "SLIDE#") |})
           = length (slide_records (table w) presentationId)).
  { cbn [slides]. rewrite length_fmap.
    rewrite (Permutation_length (sort_perm slideIndex_order _)).
    rewrite length_fmap. apply Permutation_length, query_items_perm. }
  split; [exact Hlen |].
  split; intros Hnil.
  - rewrite Hnil in Hlen. symmetry in Hlen. apply length_zero_iff_nil in Hlen. exact Hlen.
  - rewrite Hnil in Hlen. apply length_zero_iff_nil in Hlen. exact Hlen.
Qed.

Lemma saveSlides_nil_then_getPresentation_witness :
  let w := Sample.world
             (Sample.table_of (Sample.metadata 1000 None)
                [(0, Sample.slide 0); (1, Sample.slide 1)])
             2000 [] in
  healthy w
  /\ slides_in_one_page w "p1"
  /\ table w !! metadata_key "p1" = Some (Sample.metadata 1000 None)
  /\ (saveSlides "p1" [] ≫= fun _ => getPresentation "p1") w = getPresentation "p1" w
  /\ exists p w',
       (saveSlides "p1" [] ≫= fun _ => getPresentation "p1") w = (Ok (Some p), w')
       /\ length (slides p) = 2%nat.
Proof.
  intros w.
  assert (H : healthy w) by reflexivity.
  assert (Hfit : slides_in_one_page w "p1") by (apply Nat.le_refl).
  assert (Hmd : table w !! metadata_key "p1" = Some (Sample.metadata 1000 None))
    by (vm_compute; reflexivity).
  split; [exact H |]. split; [exact Hfit |]. split; [exact Hmd |].
  destruct (saveSlides_nil_then_getPresentation "p1" w _ H Hfit Hmd)
    as (Hsame & p & w' & Hrun & _ & Hlen & _).
  split; [exact Hsame |].
  exists p, w'. split; [exact Hrun |]. rewrite Hlen. vm_compute. reflexivity.
Defined.

(** ** [updatePresentationStatus] *)

Lemma updatePresentationStatus_accepted (presentationId : string)
    (status : PresentationStatus) (errorMessage : option string) (w : World) :
  accepts_next w ->
  updatePresentationStatus presentationId status errorMessage w =
    (Ok tt,
     with_table
       (<[metadata_key presentationId :=
            StatusUpdate.result status errorMessage (clock w) presentationId
              (table w !! metadata_key presentationId)]> (table w))
       (after (EvUpdate (env_or (TABLE_NAME w) "presentations")
                        (createPK presentationId) "METADATA"
                        (StatusUpdate.sets status errorMessage (clock w))) w)).
Proof.
  intros H. unfold updatePresentationStatus. rewrite logged_run.
  erewrite bind_ok by reflexivity. cbv zeta.
  erewrite bind_ok by reflexivity.
  unfold UpdateCommand. rewrite send_accepted by exact H.
  unfold StatusUpdate.result, StatusUpdate.sets, metadata_key. cbn [createSK].
  destruct errorMessage as [e |]; [| reflexivity].
  cbn [truthy]. destruct (String.eqb e ""); reflexivity.
Qed.

Lemma status_result_status status errorMessage now presentationId found :
  StatusUpdate.result status errorMessage now presentationId found !! "status"
    = Some (VStr (status_string status)).
Proof.
  unfold StatusUpdate.result, StatusUpdate.sets, apply_sets.
  destruct errorMessage as [e |]; [destruct (String.eqb e "") |]; simpl;
    repeat (rewrite lookup_insert_ne by discriminate);
    apply lookup_insert_eq.
Qed.

Lemma status_result_updatedAt status errorMessage now presentationId found :
  StatusUpdate.result status errorMessage now presentationId found !! "updatedAt"
    = Some (VNum now).
Proof.
  unfold StatusUpdate.result, StatusUpdate.sets, apply_sets.
  destruct errorMessage as [e |]; [destruct (String.eqb e "") |]; simpl;
    repeat (rewrite lookup_insert_ne by discriminate);
    apply lookup_insert_eq.
Qed.

Lemma status_result_errorMessage status errorMessage now presentationId old :
  StatusUpdate.result status errorMessage now presentationId (Some old) !! "errorMessage"
    = match errorMessage with
      | Some e => if String.eqb e "" then old !! "errorMessage" else Some (VStr e)
      | None => old !! "errorMessage"
      end.
Proof.
  unfold StatusUpdate.result, StatusUpdate.sets, apply_sets.
  destruct errorMessage as [e |]; [destruct (String.eqb e "") |]; simpl;
    repeat (rewrite lookup_insert_ne by discriminate);
    try reflexivity.
  apply lookup_insert_eq.
Qed.

Lemma status_result_other status errorMessage now presentationId old (a : string) :
  a <> "status" -> a <> "updatedAt" -> a <> "errorMessage" ->
  StatusUpdate.result status errorMessage now presentationId (Some old) !! a = old !! a.
Proof.
  intros H1 H2 H3.
  unfold StatusUpdate.result, StatusUpdate.sets, apply_sets.
  destruct errorMessage as [e |]; [destruct (String.eqb e "") |]; simpl;
    repeat (rewrite lookup_insert_ne by congruence);
    reflexivity.
Qed.

(** C7.  When the storage service serves the command and the metadata
    record exists,
    [updatePresentationStatus(id, status, errorMessage?)] sets [status] and
    [updatedAt] (to the current time) unconditionally; [errorMessage] changes
    only when an argument is provided, and is then that argument; every other
    attribute of the record ([title], [description], [theme], [userId],
    [createdAt], ...) and every other record is unchanged; in particular a
    transition to ["completed"] without a message keeps a previously stored
    [errorMessage]. *)
Theorem updatePresentationStatus_frame (presentationId : string)
    (status : PresentationStatus) (errorMessage : option string)
    (w : World) (old : Item) :
  accepts_next w ->
  table w !! metadata_key presentationId = Some old ->
  exists (w' : World) (new : Item),
    updatePresentationStatus presentationId status errorMessage w = (Ok tt, w')
    /\ table w' !! metadata_key presentationId = Some new
    /\ new !! "status" = Some (VStr (status_string status))
    /\ new !! "updatedAt" = Some (VNum (clock w))
    /\ (new !! "errorMessage" <> old !! "errorMessage" ->
        exists e, errorMessage = Some e /\ new !! "errorMessage" = Some (VStr e))
    /\ (errorMessage = None -> new !! "errorMessage" = old !! "errorMessage")
    /\ (forall a : string,
          a <> "status" -> a <> "updatedAt" -> a <> "errorMessage" ->
          new !! a = old !! a)
    /\ (forall k, k <> metadata_key presentationId -> table w' !! k = table w !! k).
Proof.
  intros H Hold.
  rewrite (updatePresentationStatus_accepted _ _ _ _ H), Hold.
  do 2 eexists. split; [reflexivity |].
  split; [apply lookup_insert_eq |].
  split; [apply status_result_status |].
  split; [apply status_result_updatedAt |].
  split; [| split; [| split]].
  - rewrite status_result_errorMessage.
    destruct errorMessage as [e |]; [| congruence].
    destruct (String.eqb e ""); [congruence |]. eauto.
  - intros ->. apply status_result_errorMessage.
  - apply status_result_other.
  - intros k Hk. cbn [table with_table]. apply lookup_insert_ne. congruence.
Qed.

Lemma updatePresentationStatus_frame_witness :
  let w := Sample.world (Sample.table_of (Sample.metadata 1000 (Some "boom")) [])
                        2000 [] in
  accepts_next w
  /\ table w !! metadata_key "p1" = Some (Sample.metadata 1000 (Some "boom"))
  /\ exists w' new,
       updatePresentationStatus "p1" completed None w = (Ok tt, w')
       /\ table w' !! metadata_key "p1" = Some new
       /\ new !! "status" = Some (VStr "completed")
       /\ new !! "errorMessage" = Some (VStr "boom").
Proof.
  intros w.
  assert (H : accepts_next w) by reflexivity.
  assert (Hold : table w !! metadata_key "p1" = Some (Sample.metadata 1000 (Some "boom")))
    by (vm_compute; reflexivity).
  split; [exact H |]. split; [exact Hold |].
  destruct (updatePresentationStatus_frame "p1" completed None w _ H Hold)
    as (w' & new & Hrun & Hnew & Hst & _ & _ & Hem & _).
  exists w', new. split; [exact Hrun |]. split; [exact Hnew |].
  split; [exact Hst |]. rewrite Hem by reflexivity. reflexivity.
Defined.

(** ** Notification *)

Lemma notifyWebSocket_run (c : string) (message : WebSocketMessage) (w : World) :
  notifyWebSocket c message w =
    (Ok tt,
     let endpoint := env_or (WEBSOCKET_API_ENDPOINT w) "" in
     if String.eqb endpoint "" then w
     else with_gateway (tail (gateway w)) (emit (EvPost endpoint c message) w)).
Proof.
  unfold notifyWebSocket.
  erewrite bind_ok by reflexivity. cbv zeta.
  destruct (String.eqb (env_or (WEBSOCKET_API_ENDPOINT w) "") ""); [reflexivity |].
  unfold try_catch, PostToConnection.
  destruct w as [t c0 d o g tn ep tr]. cbn.
  destruct g as [| [e |] rest]; reflexivity.
Qed.

Lemma notify_if_connected_run (connectionId : option string)
    (message : WebSocketMessage) (w : World) :
  notify_if_connected connectionId message w
    = (Ok tt, Notification.notified connectionId message w).
Proof.
  unfold notify_if_connected, Notification.notified, given.
  destruct connectionId as [c |]; [| reflexivity].
  cbn [fmap option_fmap option_map truthy].
  destruct (String.eqb c ""); [reflexivity |].
  cbn [negb]. apply notifyWebSocket_run.
Qed.

Lemma notified_table connectionId message w :
  table (Notification.notified connectionId message w) = table w.
Proof.
  unfold Notification.notified.
  destruct connectionId as [c |]; [| reflexivity].
  destruct (String.eqb c ""); [reflexivity |]. cbv zeta.
  destruct (String.eqb _ ""); reflexivity.
Qed.

(** ** The [catch] block of the worker *)

Lemma record_failure_accepted (message : GeneratePresentationMessage)
    (error : Exn) (w : World) :
  accepts_next w ->
  record_failure message error w =
    (Throw error,
     Notification.notified (connectionId message)
       (Notification.failure_message (presentationId message) (errorMessage_of error))
       (with_table
          (<[metadata_key (presentationId message) :=
               StatusUpdate.result failed (Some (errorMessage_of error)) (clock w)
                 (presentationId message)
                 (table w !! metadata_key (presentationId message))]> (table w))
          (after (EvUpdate (env_or (TABLE_NAME w) "presentations")
                           (createPK (presentationId message)) "METADATA"
                           (StatusUpdate.sets failed (Some (errorMessage_of error))
                                              (clock w))) w))).
Proof.
  intros H. unfold record_failure. cbv zeta.
  erewrite bind_ok by (apply updatePresentationStatus_accepted; exact H).
  erewrite bind_ok by apply notify_if_connected_run.
  reflexivity.
Qed.

(** C10.  When the storage service serves the command and the metadata
    record exists,
    [updatePresentationStatus(id, status, "")] sets the status and leaves the
    stored [errorMessage] as it was: the empty message is treated as absent.
    So the worker's failure branch, run for an exception whose message is the
    empty string, records the status ["failed"] and keeps the previous
    [errorMessage]. *)
Theorem updatePresentationStatus_empty_message (pid : string)
    (status : PresentationStatus) (w : World) (old : Item) :
  accepts_next w ->
  table w !! metadata_key pid = Some old ->
  (exists (w' : World) (new : Item),
     updatePresentationStatus pid status (Some "") w = (Ok tt, w')
     /\ table w' !! metadata_key pid = Some new
     /\ new !! "status" = Some (VStr (status_string status))
     /\ new !! "errorMessage" = old !! "errorMessage")
  /\ (forall message : GeneratePresentationMessage,
        presentationId message = pid ->
        exists (w' : World) (new : Item),
          record_failure message (JsError "") w = (Throw (JsError ""), w')
          /\ table w' !! metadata_key pid = Some new
          /\ new !! "status" = Some (VStr "failed")
          /\ new !! "errorMessage" = old !! "errorMessage").
Proof.
  intros H Hold. split.
  - rewrite (updatePresentationStatus_accepted _ _ _ _ H), Hold.
    do 2 eexists. split; [reflexivity |].
    split; [apply lookup_insert_eq |].
    split; [apply status_result_status |].
    apply (status_result_errorMessage status (Some "")).
  - intros message <-.
    rewrite (record_failure_accepted _ _ _ H), Hold.
    do 2 eexists. split; [reflexivity |].
    rewrite notified_table.
    split; [apply lookup_insert_eq |].
    split; [apply (status_result_status failed) |].
    apply (status_result_errorMessage failed (Some "")).
Qed.

Lemma updatePresentationStatus_empty_message_witness :
  let w := Sample.world (Sample.table_of (Sample.metadata 1000 (Some "boom")) [])
                        2000 [] in
  accepts_next w
  /\ table w !! metadata_key "p1" = Some (Sample.metadata 1000 (Some "boom"))
  /\ exists w' new,
       updatePresentationStatus "p1" failed (Some "") w = (Ok tt, w')
       /\ table w' !! metadata_key "p1" = Some new
       /\ new !! "status" = Some (VStr "failed")
       /\ new !! "errorMessage" = Some (VStr "boom").
Proof.
  intros w.
  assert (H : accepts_next w) by reflexivity.
  assert (Hold : table w !! metadata_key "p1" = Some (Sample.metadata 1000 (Some "boom")))
    by (vm_compute; reflexivity).
  split; [exact H |]. split; [exact Hold |].
  destruct (proj1 (updatePresentationStatus_empty_message "p1" failed w _ H Hold))
    as (w' & new & Hrun & Hnew & Hst & Hem).
  exists w', new. split; [exact Hrun |]. split; [exact Hnew |].
  split; [exact Hst |]. rewrite Hem. reflexivity.
Defined.

(** ** [savePresentationMetadata] *)

Lemma lookup_set_attr_ne (k a : string) (v : option Value) (o : Item) :
  k <> a -> set_attr k v o !! a = o !! a.
Proof. intros Hne. destruct v; simpl; [apply lookup_insert_ne, Hne | reflexivity]. Qed.

Lemma lookup_set_attr_eq (k : string) (v : option Value) (o : Item) :
  o !! k = None -> set_attr k v o !! k = v.
Proof. intros Ho. destruct v; simpl; [apply lookup_insert_eq | exact Ho]. Qed.

Ltac attr_ne :=
  repeat first
    [ rewrite lookup_insert_ne by discriminate
    | rewrite lookup_set_attr_ne by discriminate ].

Lemma view_createdAt (item : Item) :
  MetadataWrite.view item !! "createdAt" = item !! "createdAt".
Proof.
  unfold MetadataWrite.view. attr_ne.
  apply lookup_set_attr_eq. attr_ne. apply lookup_empty.
Qed.

Lemma getPresentationMetadata_served (presentationId : string) (w : World) :
  healthy w ->
  getPresentationMetadata presentationId w =
    (Ok (MetadataWrite.view <$> table w !! metadata_key presentationId),
     after (EvGet (env_or (TABLE_NAME w) "presentations")
                  (createPK presentationId) "METADATA") w).
Proof.
  intros H. unfold getPresentationMetadata. rewrite logged_run.
  erewrite bind_ok by reflexivity.
  erewrite bind_ok by (apply GetCommand_served; exact H).
  unfold metadata_key. cbn [createSK].
  destruct (table w !! (createPK presentationId, "METADATA")); reflexivity.
Qed.

Lemma metadata_object_no_key (metadata : MetadataInput) (a : string) :
  a = "pk" \/ a = "sk" \/ a = "createdAt" \/ a = "updatedAt" ->
  metadata_object metadata !! a = None.
Proof.
  unfold metadata_object.
  intros [-> | [-> | [-> | ->]]]; attr_ne; apply lookup_empty.
Qed.

Lemma written_key (metadata : MetadataInput) (now : Z) (found : option Item) :
  item_key (MetadataWrite.written metadata now found)
    = Some (metadata_key (m_id metadata)).
Proof.
  unfold item_key, MetadataWrite.written.
  rewrite !lookup_union_r
    by (attr_ne; apply metadata_object_no_key; tauto).
  attr_ne. rewrite lookup_insert_eq. attr_ne. rewrite lookup_insert_eq.
  reflexivity.
Qed.

Lemma written_createdAt (metadata : MetadataInput) (now : Z) (found : option Item) :
  MetadataWrite.written metadata now found !! "createdAt"
    = Some (js_or (found ≫= lookup "createdAt") (VNum now)).
Proof.
  unfold MetadataWrite.written.
  apply lookup_union_Some_l. attr_ne. apply lookup_insert_eq.
Qed.

Lemma written_updatedAt (metadata : MetadataInput) (now : Z) (found : option Item) :
  MetadataWrite.written metadata now found !! "updatedAt" = Some (VNum now).
Proof.
  unfold MetadataWrite.written.
  apply lookup_union_Some_l. apply lookup_insert_eq.
Qed.

Lemma savePresentationMetadata_served (metadata : MetadataInput) (w : World) :
  healthy w ->
  let found := table w !! metadata_key (m_id metadata) in
  let tbl := env_or (TABLE_NAME w) "presentations" in
  let item := MetadataWrite.written metadata (clock w) (MetadataWrite.view <$> found) in
  savePresentationMetadata metadata w =
    (Ok tt,
     with_table (<[metadata_key (m_id metadata) := item]> (table w))
       (after (EvPut tbl item)
          (after (EvGet tbl (createPK (m_id metadata)) "METADATA") w))).
Proof.
  intros H. cbv zeta.
  unfold savePresentationMetadata. rewrite logged_run.
  erewrite bind_ok by reflexivity.
  erewrite bind_ok by (apply getPresentationMetadata_served; exact H).
  cbv zeta.
  erewrite bind_ok by reflexivity.
  unfold PutCommand. rewrite send_served by (apply healthy_after; exact H).
  fold (MetadataWrite.written metadata (clock w)
          (MetadataWrite.view <$> table w !! metadata_key (m_id metadata))).
  rewrite written_key. reflexivity.
Qed.

Lemma found_createdAt (found : option Item) :
  (MetadataWrite.view <$> found) ≫= lookup "createdAt" = found ≫= lookup "createdAt".
Proof. destruct found as [item |]; [apply view_createdAt | reflexivity]. Qed.

(** C9.  While the storage service answers and a metadata record exists,
    [savePresentationMetadata] writes [createdAt] as
    [existing?.createdAt || now] and [updatedAt] as [now]: a stored non-zero
    [createdAt] is preserved, and a stored [createdAt] equal to 0 is
    replaced with the current time. *)
Theorem savePresentationMetadata_createdAt_or_now
    (metadata : MetadataInput) (w : World) (old : Item) :
  healthy w ->
  table w !! metadata_key (m_id metadata) = Some old ->
  exists (w' : World) (new : Item),
    savePresentationMetadata metadata w = (Ok tt, w')
    /\ table w' !! metadata_key (m_id metadata) = Some new
    /\ new !! "createdAt" = Some (js_or (old !! "createdAt") (VNum (clock w)))
    /\ new !! "updatedAt" = Some (VNum (clock w))
    /\ (forall c, c <> 0 -> old !! "createdAt" = Some (VNum c) ->
        new !! "createdAt" = Some (VNum c))
    /\ (old !! "createdAt" = Some (VNum 0) ->
        new !! "createdAt" = Some (VNum (clock w))).
Proof.
  intros H Hold.
  rewrite (savePresentationMetadata_served metadata w H). cbv zeta.
  do 2 eexists. split; [reflexivity |].
  split; [apply lookup_insert_eq |].
  rewrite written_createdAt, written_updatedAt, found_createdAt, Hold.
  cbn [mbind option_bind].
  split; [reflexivity |]. split; [reflexivity |]. split.
  - intros c Hc ->. unfold js_or. cbn [truthy].
    destruct (Z.eqb_spec c 0) as [-> | _]; [contradiction | reflexivity].
  - intros ->. reflexivity.
Qed.

Lemma savePresentationMetadata_createdAt_or_now_witness :
  let w := Sample.world (Sample.table_of (Sample.metadata 1000 None) []) 2000 [] in
  healthy w
  /\ table w !! metadata_key (m_id Sample.input) = Some (Sample.metadata 1000 None)
  /\ exists w' new,
       savePresentationMetadata Sample.input w = (Ok tt, w')
       /\ table w' !! metadata_key "p1" = Some new
       /\ new !! "createdAt" = Some (VNum 1000)
       /\ new !! "updatedAt" = Some (VNum 2000).
Proof.
  intros w.
  assert (H : healthy w) by reflexivity.
  assert (Hold : table w !! metadata_key (m_id Sample.input)
                 = Some (Sample.metadata 1000 None)) by (vm_compute; reflexivity).
  split; [exact H |]. split; [exact Hold |].
  destruct (savePresentationMetadata_createdAt_or_now Sample.input w _ H Hold)
    as (w' & new & Hrun & Hnew & _ & Hup & Hkeep & _).
  exists w', new. split; [exact Hrun |]. split; [exact Hnew |].
  split; [| exact Hup].
  apply (Hkeep 1000); [discriminate | vm_compute; reflexivity].
Defined.

Lemma js_or_truthy (a : option Value) (b : Value) :
  truthy (Some b) = true -> truthy (Some (js_or a b)) = true.
Proof.
  intros Hb. unfold js_or. destruct (truthy a) eqn:Ha; [| exact Hb].
  destruct a as [x |]; [exact Ha | discriminate].
Qed.

Lemma js_or_keeps (v b : Value) :
  truthy (Some v) = true -> js_or (Some v) b = v.
Proof. intros Hv. unfold js_or. rewrite Hv. reflexivity. Qed.

(** C4.  While the storage service answers and the clock does not read 0
    (the epoch instant itself), two calls of [savePresentationMetadata] with
    the same value leave [createdAt] as the first call stamped it, the
    current time of the first call when the id was new, and the second call
    sets [updatedAt] to its own current time.  More generally a stored
    [createdAt] that is a number other than 0, which is what a call of this
    function stores, or any other truthy value, is preserved by a save, and
    [updatedAt] is always the current time. *)
Theorem savePresentationMetadata_twice
    (metadata : MetadataInput) (w : World) (later : Z) :
  healthy w ->
  clock w <> 0 ->
  exists (w1 w2 : World) (first second : Item),
    savePresentationMetadata metadata w = (Ok tt, w1)
    /\ table w1 !! metadata_key (m_id metadata) = Some first
    /\ savePresentationMetadata metadata (with_clock later w1) = (Ok tt, w2)
    /\ table w2 !! metadata_key (m_id metadata) = Some second
    /\ second !! "createdAt" = first !! "createdAt"
    /\ first !! "updatedAt" = Some (VNum (clock w))
    /\ second !! "updatedAt" = Some (VNum later)
    /\ (table w !! metadata_key (m_id metadata) = None ->
        first !! "createdAt" = Some (VNum (clock w)))
    /\ (forall old c,
          table w !! metadata_key (m_id metadata) = Some old ->
          old !! "createdAt" = Some (VNum c) -> c <> 0 ->
          first !! "createdAt" = Some (VNum c))
    /\ (forall old,
          table w !! metadata_key (m_id metadata) = Some old ->
          truthy (old !! "createdAt") = true ->
          first !! "createdAt" = old !! "createdAt").
Proof.
  intros H Hclock.
  rewrite (savePresentationMetadata_served metadata w H). cbv zeta.
  set (found := table w !! metadata_key (m_id metadata)).
  set (first := MetadataWrite.written metadata (clock w) (MetadataWrite.view <$> found)).
  match goal with
  | |- context [(Ok tt, ?x)] => set (w1 := x)
  end.
  assert (H1 : healthy (with_clock later w1)).
  { unfold w1. apply healthy_with_table. do 2 apply healthy_after. exact H. }
  assert (Hfirst : table w1 !! metadata_key (m_id metadata) = Some first)
    by (unfold w1; cbn [table with_table]; apply lookup_insert_eq).
  assert (Hc1 : first !! "createdAt"
                = Some (js_or (found ≫= lookup "createdAt") (VNum (clock w))))
    by (unfold first; rewrite written_createdAt, found_createdAt; reflexivity).
  assert (Htruthy : truthy (first !! "createdAt") = true).
  { rewrite Hc1. apply js_or_truthy. cbn [truthy].
    destruct (Z.eqb_spec (clock w) 0) as [E | _]; [contradiction | reflexivity]. }
  exists w1. eexists. exists first. eexists.
  split; [reflexivity |]. split; [exact Hfirst |].
  split; [apply (savePresentationMetadata_served metadata (with_clock later w1) H1) |].
  cbv zeta. cbn [table with_table with_clock clock].
  change (table w1) with (table w1). rewrite Hfirst.
  split; [apply lookup_insert_eq |].
  split; [| split; [| split; [| split; [| split]]]].
  - rewrite written_createdAt, found_createdAt. cbn [mbind option_bind].
    rewrite Hc1 in Htruthy |- *. f_equal. apply js_or_keeps, Htruthy.
  - unfold first. apply written_updatedAt.
  - apply written_updatedAt.
  - intros Hnone. rewrite Hc1. subst found. rewrite Hnone. reflexivity.
  - intros old c Hold Hc Hne. rewrite Hc1. subst found. rewrite Hold.
    cbn [mbind option_bind]. rewrite Hc. f_equal. apply js_or_keeps.
    cbn [truthy]. destruct (Z.eqb_spec c 0) as [E | _]; [contradiction | reflexivity].
  - intros old Hold Ht. rewrite Hc1. subst found. rewrite Hold.
    cbn [mbind option_bind].
    destruct (old !! "createdAt") as [v |]; [| discriminate].
    f_equal. apply js_or_keeps, Ht.
Qed.

Lemma savePresentationMetadata_twice_witness :
  let w := Sample.world ∅ 1000 [] in
  exists (w1 w2 : World) (second : Item),
    savePresentationMetadata Sample.input w = (Ok tt, w1)
    /\ savePresentationMetadata Sample.input (with_clock 2000 w1) = (Ok tt, w2)
    /\ table w2 !! metadata_key "p1" = Some second
    /\ second !! "createdAt" = Some (VNum 1000)
    /\ second !! "updatedAt" = Some (VNum 2000).
Proof.
  intros w.
  destruct (savePresentationMetadata_twice Sample.input w 2000)
    as (w1 & w2 & first & second & Hrun1 & _ & Hrun2 & Hsecond & Hsame & _ & Hup
        & Hnew & _ & _).
  - reflexivity.
  - discriminate.
  - exists w1, w2, second. split; [exact Hrun1 |]. split; [exact Hrun2 |].
    split; [exact Hsecond |]. split; [| exact Hup].
    rewrite Hsame. apply Hnew. reflexivity.
Defined.

(** The clock hypothesis is what keeps the stamp: [existing?.createdAt || now]
    takes a stored 0 for a missing value, so a record stored with
    [createdAt = 0] gets the current time at the next save. *)
Example savePresentationMetadata_createdAt_zero_replaced :
  let w := Sample.world (Sample.table_of (Sample.metadata 0 None) [])
                        1700000000000 [] in
  let r := savePresentationMetadata Sample.input w in
  (table w !! metadata_key "p1") ≫= lookup "createdAt" = Some (VNum 0)
  /\ fst r = Ok tt
  /\ (table (snd r) !! metadata_key "p1") ≫= lookup "createdAt"
       = Some (VNum 1700000000000)
  /\ (table (snd r) !! metadata_key "p1") ≫= lookup "updatedAt"
       = Some (VNum 1700000000000).
Proof. vm_compute. repeat split; reflexivity. Qed.

(** ** [saveSlides]: batches and the single retry *)

Import BatchSpec.

Lemma chunks_concat (l : list WriteRequest) : concat (chunks l) = l.
Proof.
  funelim (chunks l); [reflexivity |].
  cbn [concat]. change (drop 25 (r :: l)) with (drop 24 l).
  match goal with IH : concat _ = drop _ _ |- _ => rewrite IH end.
  exact (take_drop 25 (r :: l)).
Qed.

Lemma chunks_sizes (l : list WriteRequest) :
  Forall (fun b => (0 < length b <= 25)%nat) (chunks l).
Proof.
  funelim (chunks l); constructor; [| assumption].
  rewrite length_take. cbn [length]. lia.
Qed.

Lemma chunks_drop_lt (requests : list WriteRequest) (i : nat) :
  (i < length requests)%nat ->
  chunks (drop i requests)
    = take 25 (drop i requests) :: chunks (drop (i + 25) requests).
Proof.
  intros Hi.
  destruct (drop i requests) as [| r l] eqn:E.
  - apply (f_equal length) in E. rewrite length_drop in E. simpl in E. lia.
  - simp chunks. rewrite <- E, drop_drop. reflexivity.
Qed.

Lemma chunks_drop_ge (requests : list WriteRequest) (i : nat) :
  (length requests <= i)%nat -> chunks (drop i requests) = [].
Proof. intros Hi. rewrite drop_ge by exact Hi. reflexivity. Qed.

Lemma unprocessed_elem (skip : list nat) (batch : list WriteRequest) (r : WriteRequest) :
  r ∈ unprocessed skip batch -> r ∈ batch.
Proof.
  unfold unprocessed. intros H.
  apply list_elem_of_fmap in H as ([k r'] & -> & H).
  apply list_elem_of_filter in H as [_ H].
  apply list_elem_of_lookup in H as [j H].
  rewrite list_lookup_imap in H.
  destruct (batch !! j) as [x |] eqn:E; simpl in H; [| discriminate].
  injection H as _ <-. simpl. eapply list_elem_of_lookup_2, E.
Qed.

Lemma unprocessed_length (skip : list nat) (batch : list WriteRequest) :
  (length (unprocessed skip batch) <= length batch)%nat.
Proof.
  unfold unprocessed. rewrite length_fmap.
  etransitivity; [apply length_filter |]. rewrite length_imap. reflexivity.
Qed.

Lemma unprocessed_ok (skip : list nat) (batch : list WriteRequest) :
  forallb request_ok batch = true ->
  forallb request_ok (unprocessed skip batch) = true.
Proof.
  rewrite !forallb_forall. intros H r Hr.
  apply H. apply list_elem_of_In, (unprocessed_elem skip), list_elem_of_In, Hr.
Qed.

Lemma batch_ok_single (tbl : string) (batch : list WriteRequest) :
  batch <> [] -> (length batch <= 25)%nat -> forallb request_ok batch = true ->
  batch_ok [(tbl, batch)] = true.
Proof.
  intros Hne Hlen Hok. unfold batch_ok. cbn [forallb fmap list_fmap concat snd].
  rewrite app_nil_r, Hok.
  rewrite bool_decide_eq_false_2 by discriminate.
  rewrite bool_decide_eq_false_2 by exact Hne.
  cbn [negb andb]. apply Nat.leb_le, Hlen.
Qed.

Lemma BatchWriteCommand_served (tbl : string) (batch : list WriteRequest) (w : World) :
  healthy w ->
  batch <> [] -> (length batch <= 25)%nat -> forallb request_ok batch = true ->
  exists t,
    BatchWriteCommand [(tbl, batch)] w =
      (Ok (match unprocessed (next_skip w) batch with
           | [] => []
           | pending => [(tbl, pending)]
           end),
       with_table t (after (EvBatchWrite [(tbl, batch)]) w)).
Proof.
  intros H Hne Hlen Hok. unfold BatchWriteCommand.
  rewrite send_served by exact H.
  rewrite batch_ok_single by assumption.
  eexists. f_equal. f_equal.
  unfold UnprocessedItems. cbn [fmap list_fmap fst snd].
  destruct (unprocessed (next_skip w) batch) eqn:E; cbn; reflexivity.
Qed.

Lemma forallb_ok_Forall (l : list WriteRequest) :
  forallb request_ok l = true <-> Forall (fun r => request_ok r = true) l.
Proof.
  rewrite forallb_forall, Forall_forall.
  split; intros H r Hr; apply H; apply list_elem_of_In; exact Hr.
Qed.

Lemma saveSlides_batch_served (requests : list WriteRequest) (i : nat) (w : World) :
  healthy w ->
  (i < length requests)%nat ->
  Forall (fun r => request_ok r = true) requests ->
  exists w',
    saveSlides_batch requests i w = (Ok tt, w')
    /\ healthy w'
    /\ TABLE_NAME w' = TABLE_NAME w
    /\ forall rest,
         (trace w ++ issued (env_or (TABLE_NAME w) "presentations")
                       (take 25 (drop i requests) :: rest) (ddb w))%list
         = (trace w' ++ issued (env_or (TABLE_NAME w) "presentations") rest (ddb w'))%list.
Proof.
  intros H Hi Hok. unfold saveSlides_batch, Js.slice.
  replace (i + 25 - i)%nat with 25%nat by lia.
  set (batch := take 25 (drop i requests)).
  set (tbl := env_or (TABLE_NAME w) "presentations").
  assert (Hne : batch <> []).
  { intros E. apply (f_equal length) in E. unfold batch in E.
    rewrite length_take, length_drop in E. cbn [length] in E. lia. }
  assert (Hlen : (length batch <= 25)%nat).
  { unfold batch. rewrite length_take. lia. }
  assert (Hb : Forall (fun r => request_ok r = true) batch).
  { apply Forall_take, Forall_drop, Hok. }
  cbv zeta.
  erewrite bind_ok by reflexivity. fold tbl.
  destruct (BatchWriteCommand_served tbl batch w H Hne Hlen
              (proj2 (forallb_ok_Forall batch) Hb)) as [t Hrun].
  erewrite bind_ok by exact Hrun.
  set (w1 := with_table t (after (EvBatchWrite [(tbl, batch)]) w)).
  assert (H1 : healthy w1) by (apply healthy_with_table, healthy_after, H).
  cbn [issued]. fold (next_skip w).
  destruct (unprocessed (next_skip w) batch) as [| r pending] eqn:E.
  - cbn [length Nat.ltb Nat.leb].
    exists w1. split; [reflexivity |]. split; [exact H1 |]. split; [reflexivity |].
    intros rest. cbn. rewrite <- app_assoc. reflexivity.
  - cbn [length Nat.ltb Nat.leb].
    erewrite bind_ok by reflexivity.
    set (w2 := with_clock (clock w1 + 1000) (emit (EvSleep 1000) w1)).
    assert (H2 : healthy w2) by exact H1.
    assert (Hp : Forall (fun x => request_ok x = true) (r :: pending)).
    { rewrite <- E. apply Forall_forall. intros x Hx.
      rewrite Forall_forall in Hb. apply Hb, (unprocessed_elem (next_skip w)), Hx. }
    assert (Hplen : (length (r :: pending) <= 25)%nat).
    { rewrite <- E. etransitivity; [apply unprocessed_length | exact Hlen]. }
    destruct (BatchWriteCommand_served tbl (r :: pending) w2 H2 ltac:(discriminate)
                Hplen (proj2 (forallb_ok_Forall _) Hp)) as [t' Hretry].
    erewrite bind_ok by exact Hretry.
    eexists. split; [reflexivity |].
    split; [apply healthy_with_table, healthy_after, H2 |].
    split; [reflexivity |].
    intros rest. cbn. rewrite <- !app_assoc. reflexivity.
Qed.

Lemma saveSlides_loop_served (requests : list WriteRequest) :
  Forall (fun r => request_ok r = true) requests ->
  forall (n i : nat) (w : World),
    (length requests - i)%nat = n ->
    healthy w ->
    exists w',
      saveSlides_loop requests i w = (Ok tt, w')
      /\ trace w' = (trace w ++ issued (env_or (TABLE_NAME w) "presentations")
                                  (chunks (drop i requests)) (ddb w))%list.
Proof.
  intros Hok n.
  induction n as [n IH] using lt_wf_ind.
  intros i w Hn H.
  simp saveSlides_loop.
  destruct (lt_dec i (length requests)) as [Hi | Hi]; simp saveSlides_loop.
  - destruct (saveSlides_batch_served requests i w H Hi Hok)
      as (w1 & Hrun & H1 & Htbl & Htrace).
    rewrite Hrun.
    destruct (IH (length requests - (i + 25))%nat ltac:(lia) (i + 25)%nat w1
                 eq_refl H1) as (w' & Hloop & Htr).
    exists w'. split; [exact Hloop |].
    rewrite Htr, Htbl. rewrite <- (Htrace (chunks (drop (i + 25) requests))).
    rewrite (chunks_drop_lt requests i Hi). reflexivity.
  - exists w. split; [reflexivity |].
    rewrite chunks_drop_ge by lia. cbn [issued]. rewrite app_nil_r. reflexivity.
Qed.

Lemma writeRequests_ok (presentationId : string) (slides : list (option Value)) (now : Z) :
  Forall (fun r => request_ok r = true) (writeRequests presentationId slides now).
Proof.
  apply Forall_forall. intros r Hr.
  apply list_elem_of_lookup in Hr as [i Hr].
  unfold writeRequests in Hr. rewrite list_lookup_imap in Hr.
  destruct (slides !! i) as [slide |]; simpl in Hr; [| discriminate].
  injection Hr as <-. unfold request_ok, item_key.
  rewrite lookup_insert_eq, lookup_insert_ne by discriminate.
  rewrite lookup_insert_eq. apply bool_decide_eq_true_2. eauto.
Qed.

Lemma writeRequests_lookup (presentationId : string) (slides : list (option Value))
    (now : Z) (i : nat) (slide : option Value) :
  slides !! i = Some slide ->
  exists item : Item,
    writeRequests presentationId slides now !! i = Some (PutRequest item)
    /\ item !! "slideIndex" = Some (VNum (Z.of_nat i))
    /\ item !! "slide" = slide
    /\ item !! "pk" = Some (VStr (createPK presentationId))
    /\ item !! "sk" = Some (VStr (createSK SLIDE (Some (Z.of_nat i))))
    /\ item !! "updatedAt" = Some (VNum now).
Proof.
  intros Hs. unfold writeRequests. rewrite list_lookup_imap, Hs. simpl.
  eexists. split; [reflexivity |].
  split; [attr_ne; apply lookup_insert_eq |].
  split; [attr_ne; apply lookup_set_attr_eq; attr_ne; apply lookup_empty |].
  split; [apply lookup_insert_eq |].
  split; [attr_ne; apply lookup_insert_eq |].
  attr_ne. apply lookup_insert_eq.
Qed.

(** C3.  While the storage service rejects no command, for every
    presentation id and slide array: [saveSlides] builds one put request per
    array position, whose [slideIndex] is the position and whose sort key is
    that of the position; the requests are cut, in position order, into
    consecutive batches of between 1 and 25 records; the commands issued are,
    batch after batch, the batch write and, when the service leaves records
    of it unprocessed, a 1000 ms pause followed by one batch write of exactly
    those records; and the call returns normally whatever the service leaves
    unprocessed, the retry included. *)
Theorem saveSlides_batches (presentationId : string)
    (slides : list (option Value)) (w : World) :
  healthy w ->
  let requests := writeRequests presentationId slides (clock w) in
  let tbl := env_or (TABLE_NAME w) "presentations" in
  length requests = length slides
  /\ (forall (i : nat) (slide : option Value),
        slides !! i = Some slide ->
        exists item : Item,
          requests !! i = Some (PutRequest item)
          /\ item !! "slideIndex" = Some (VNum (Z.of_nat i))
          /\ item !! "slide" = slide
          /\ item !! "pk" = Some (VStr (createPK presentationId))
          /\ item !! "sk" = Some (VStr (createSK SLIDE (Some (Z.of_nat i)))))
  /\ concat (chunks requests) = requests
  /\ Forall (fun batch => (0 < length batch <= 25)%nat) (chunks requests)
  /\ exists w',
       saveSlides presentationId slides w = (Ok tt, w')
       /\ trace w' = (trace w ++ issued tbl (chunks requests) (ddb w))%list.
Proof.
  intros H requests tbl.
  split; [apply length_imap |].
  split.
  { intros i slide Hs.
    destruct (writeRequests_lookup presentationId slides (clock w) i slide Hs)
      as (item & ? & ? & ? & ? & ? & _).
    exists item. auto. }
  split; [apply chunks_concat |].
  split; [apply chunks_sizes |].
  unfold saveSlides. rewrite logged_run.
  erewrite bind_ok by reflexivity.
  destruct (saveSlides_loop_served requests
              (writeRequests_ok presentationId slides (clock w))
              _ 0%nat w eq_refl H) as (w' & Hrun & Htr).
  exists w'. split; [exact Hrun | exact Htr].
Qed.

(** Two slides; the service leaves the second record unprocessed, and leaves
    it unprocessed again at the retry: the call still returns normally, three
    commands were issued, and the second slide is not in the table. *)
Lemma saveSlides_batches_witness :
  let slides := [Some (Sample.slide 0); Some (Sample.slide 1)] in
  let w := Sample.world ∅ 2000 [Served [1%nat]; Served [0%nat]] in
  let requests := writeRequests "p1" slides 2000 in
  healthy w
  /\ exists w',
       saveSlides "p1" slides w = (Ok tt, w')
       /\ trace w' = [EvBatchWrite [("presentations", requests)];
                      EvSleep 1000;
                      EvBatchWrite [("presentations", drop 1 requests)]]
       /\ is_Some (table w' !! ("PRESENTATION#p1", "SLIDE#000"))
       /\ table w' !! ("PRESENTATION#p1", "SLIDE#001") = None.
Proof.
  intros slides w requests.
  assert (H : healthy w) by reflexivity.
  split; [exact H |].
  destruct (saveSlides_batches "p1" slides w H) as (_ & _ & _ & _ & w' & Hrun & Htr).
  exists w'. split; [exact Hrun |].
  split; [rewrite Htr; vm_compute; reflexivity |].
  assert (Hw : w' = snd (saveSlides "p1" slides w)) by (rewrite Hrun; reflexivity).
  rewrite Hw. split; [| vm_compute; reflexivity].
  vm_compute. eexists. reflexivity.
Defined.

(** ** The worker's failure path *)

Lemma notified_trace connectionId message w :
  trace (Notification.notified connectionId message w)
    = (trace w ++ Notification.posts connectionId message w)%list.
Proof.
  unfold Notification.notified, Notification.posts.
  destruct connectionId as [c |]; [| symmetry; apply app_nil_r].
  destruct (String.eqb c ""); [symmetry; apply app_nil_r |]. cbv zeta.
  destruct (String.eqb _ ""); [symmetry; apply app_nil_r | reflexivity].
Qed.

Lemma status_result_errorMessage_set status (e : string) now presentationId found :
  e <> "" ->
  StatusUpdate.result status (Some e) now presentationId found !! "errorMessage"
    = Some (VStr e).
Proof.
  intros He. unfold StatusUpdate.result, StatusUpdate.sets, apply_sets.
  destruct (String.eqb_spec e "") as [-> | _]; [contradiction |].
  simpl. apply lookup_insert_eq.
Qed.

Lemma processMessage_parsed (JSON_parse : string -> Exn + GeneratePresentationMessage)
    (record : SQSRecord) (message : GeneratePresentationMessage) (w : World) :
  JSON_parse (body record) = inr message ->
  processMessage JSON_parse record w
    = try_catch (generate_and_persist message) (record_failure message) w.
Proof.
  intros Hp. unfold processMessage, parse_body. rewrite Hp.
  erewrite bind_ok by reflexivity. reflexivity.
Qed.

(** Against C5 as stated: the generation fails and the storage service
    rejects the status update that follows; the status stays ["processing"],
    no [errorMessage] is stored, and the exception that leaves the worker is
    the storage service's, not the original one. *)
Lemma processMessage_status_update_rejected :
  let w := Sample.world (Sample.table_of (Sample.metadata 1000 None) []) 2000
             [Rejected (JsError "ProvisionedThroughputExceededException")] in
  let r := processMessage Sample.parse Sample.record w in
  fst (generate_and_persist Sample.message w)
    = Throw (JsError "No response from OpenAI")
  /\ fst r = Throw (JsError "ProvisionedThroughputExceededException")
  /\ fst r <> Throw (JsError "No response from OpenAI")
  /\ (table (snd r) !! metadata_key "p1") ≫= lookup "status"
       = Some (VStr "processing")
  /\ (table (snd r) !! metadata_key "p1") ≫= lookup "errorMessage" = None.
Proof.
  vm_compute. repeat split; try reflexivity. discriminate.
Qed.

(** C5, as the code has it.  When the [try] block of a job (generation,
    slide persistence, the ["completed"] update) raises an exception and the
    storage service serves the status update that follows, the worker sets
    the status to ["failed"], stores as [errorMessage] the exception's message
    (["Unknown error"] when the thrown value is not an [Error]) provided it is
    not empty, attempts the notification when a connection id came with the
    job and an endpoint is configured, and re-raises the original exception.
    The notification never raises: a failure of the post is discarded and
    leaves the table alone. *)
Theorem processMessage_failure
    (JSON_parse : string -> Exn + GeneratePresentationMessage)
    (record : SQSRecord) (message : GeneratePresentationMessage)
    (error : Exn) (w w1 : World) :
  JSON_parse (body record) = inr message ->
  generate_and_persist message w = (Throw error, w1) ->
  accepts_next w1 ->
  errorMessage_of error <> "" ->
  (exists (w2 : World) (new : Item),
     processMessage JSON_parse record w = (Throw error, w2)
     /\ table w2 !! metadata_key (presentationId message) = Some new
     /\ new !! "status" = Some (VStr "failed")
     /\ new !! "errorMessage" = Some (VStr (errorMessage_of error))
     /\ exists update,
          trace w2 =
            (trace w1 ++ update ::
               Notification.posts (connectionId message)
                 (Notification.failure_message (presentationId message)
                                               (errorMessage_of error)) w1)%list
          /\ update = EvUpdate (env_or (TABLE_NAME w1) "presentations")
                        (createPK (presentationId message)) "METADATA"
                        [("status", VStr "failed"); ("updatedAt", VNum (clock w1));
                         ("errorMessage", VStr (errorMessage_of error))])
  /\ (forall c m w0, exists w0',
        notifyWebSocket c m w0 = (Ok tt, w0') /\ table w0' = table w0).
Proof.
  intros Hp Hrun H1 Hmsg. split.
  - rewrite (processMessage_parsed _ _ _ _ Hp).
    unfold try_catch. rewrite Hrun.
    rewrite (record_failure_accepted _ _ _ H1).
    do 2 eexists. split; [reflexivity |].
    rewrite notified_table.
    split; [apply lookup_insert_eq |].
    split; [apply (status_result_status failed) |].
    split; [apply status_result_errorMessage_set, Hmsg |].
    eexists. split.
    + rewrite notified_trace. cbn [trace with_table after with_ddb emit].
      rewrite <- app_assoc. reflexivity.
    + unfold StatusUpdate.sets.
      destruct (String.eqb_spec (errorMessage_of error) "") as [E | _];
        [contradiction | reflexivity].
  - intros c m w0. rewrite notifyWebSocket_run. eexists. split; [reflexivity |].
    cbv zeta. destruct (String.eqb _ ""); reflexivity.
Qed.

Lemma processMessage_failure_witness :
  let w := Sample.world_with_gateway
             (Sample.table_of (Sample.metadata 1000 None) []) 2000 [] in
  let error := JsError "No response from OpenAI" in
  exists w2 new,
    processMessage Sample.parse Sample.record w = (Throw error, w2)
    /\ table w2 !! metadata_key "p1" = Some new
    /\ new !! "status" = Some (VStr "failed")
    /\ new !! "errorMessage" = Some (VStr "No response from OpenAI")
    /\ gateway w2 = [].
Proof.
  intros w error.
  destruct (processMessage_failure Sample.parse Sample.record Sample.message error
              w (snd (generate_and_persist Sample.message w)))
    as [(w2 & new & Hrun & Hnew & Hst & Hem & _) _].
  - reflexivity.
  - vm_compute. reflexivity.
  - reflexivity.
  - discriminate.
  - exists w2, new. split; [exact Hrun |]. split; [exact Hnew |].
    split; [exact Hst |]. split; [exact Hem |].
    assert (Hw : w2 = snd (processMessage Sample.parse Sample.record w))
      by (rewrite Hrun; reflexivity).
    rewrite Hw. vm_compute. reflexivity.
Defined.

(** * Further properties of the store and of the worker *)

(** ** Slide sort keys: no collision, and their order *)

Lemma pretty_N_go_length (x : N) (s : string) :
  (String.length s <= String.length (pretty_N_go x s))%nat.
Proof.
  revert s. induction (N.lt_wf_0 x) as [x _ IH]. intros s.
  destruct (N.eq_dec x 0) as [-> | Hx]; [rewrite pretty_N_go_0; lia |].
  rewrite pretty_N_go_step by lia.
  etransitivity; [| apply IH, N.div_lt; lia]. simpl. lia.
Qed.

Lemma pretty_long (i : Z) :
  1000 <= i -> (4 <= String.length (pretty i))%nat.
Proof.
  intros Hi. destruct i as [| p | p]; try lia.
  unfold pretty, pretty_Z, pretty, pretty_positive, pretty, pretty_N.
  destruct (decide (N.pos p = 0%N)) as [E | _]; [discriminate |].
  assert (Hp : (1000 <= N.pos p)%N) by lia.
  assert (H1 : (100 <= N.pos p / 10)%N) by (apply N.div_le_lower_bound; lia).
  assert (H2 : (10 <= N.pos p / 10 / 10)%N) by (apply N.div_le_lower_bound; lia).
  assert (H3 : (1 <= N.pos p / 10 / 10 / 10)%N) by (apply N.div_le_lower_bound; lia).
  rewrite (pretty_N_go_step (N.pos p)) by lia.
  rewrite (pretty_N_go_step (N.pos p / 10)) by lia.
  rewrite (pretty_N_go_step (N.pos p / 10 / 10)) by lia.
  rewrite (pretty_N_go_step (N.pos p / 10 / 10 / 10)) by lia.
  etransitivity; [| apply pretty_N_go_length]. simpl. lia.
Qed.

Lemma string_length_app (s1 s2 : string) :
  String.length (s1 +:+ s2) = (String.length s1 + String.length s2)%nat.
Proof. induction s1 as [| c s1 IH]; simpl; [reflexivity | rewrite IH; reflexivity]. Qed.

Lemma createSK_slide_long (i : Z) :
  1000 <= i -> createSK SLIDE (Some i) = "SLIDE#" +:+ pretty i.
Proof.
  intros Hi. cbn [createSK]. unfold padStart, String_of_number.
  pose proof (pretty_long i Hi) as Hlen.
  destruct (Nat.leb_spec 3 (String.length (pretty i))); [reflexivity | lia].
Qed.

Lemma digit_char_inj (a b : Z) :
  0 <= a <= 9 -> 0 <= b <= 9 -> digit_char a = digit_char b -> a = b.
Proof.
  intros Ha Hb E. unfold digit_char in E.
  apply (f_equal Ascii.nat_of_ascii) in E.
  rewrite !Ascii.nat_ascii_embedding in E by lia. lia.
Qed.

Lemma spec_slide_key_inj (i j : Z) :
  0 <= i <= 999 -> 0 <= j <= 999 -> spec_slide_key i = spec_slide_key j -> i = j.
Proof.
  intros Hi Hj E. unfold spec_slide_key in E. cbn [String.append] in E.
  injection E as E2 E1 E0.
  apply digit_char_inj in E2;
    [| split; [apply Z.div_pos; lia
              | apply Z.lt_succ_r, Z.div_lt_upper_bound; lia]..].
  pose proof (Z.mod_pos_bound (i / 10) 10 ltac:(lia)).
  pose proof (Z.mod_pos_bound (j / 10) 10 ltac:(lia)).
  pose proof (Z.mod_pos_bound i 10 ltac:(lia)).
  pose proof (Z.mod_pos_bound j 10 ltac:(lia)).
  apply digit_char_inj in E1; [| lia..].
  apply digit_char_inj in E0; [| lia..].
  rewrite (Z.div_mod i 10), (Z.div_mod j 10) by lia.
  rewrite (Z.div_mod (i / 10) 10), (Z.div_mod (j / 10) 10) by lia.
  rewrite !Z.div_div by lia. change (10 * 10) with 100. lia.
Qed.

Lemma createSK_slide_inj (i j : Z) :
  0 <= i -> 0 <= j ->
  createSK SLIDE (Some i) = createSK SLIDE (Some j) -> i = j.
Proof.
  intros Hi Hj E.
  destruct (Z_lt_le_dec i 1000) as [Hi' | Hi'], (Z_lt_le_dec j 1000) as [Hj' | Hj'].
  - rewrite !createSK_slide_digits in E by lia.
    apply spec_slide_key_inj in E; lia.
  - apply (f_equal String.length) in E.
    rewrite createSK_slide_digits, createSK_slide_long in E by lia.
    pose proof (pretty_long j Hj').
    change (String.length (spec_slide_key i)) with 9%nat in E.
    rewrite string_length_app in E. simpl in E. lia.
  - apply (f_equal String.length) in E.
    rewrite createSK_slide_long, createSK_slide_digits in E by lia.
    pose proof (pretty_long i Hi').
    change (String.length (spec_slide_key j)) with 9%nat in E.
    rewrite string_length_app in E. simpl in E. lia.
  - rewrite !createSK_slide_long in E by lia.
    apply (inj (String.append "SLIDE#")) in E.
    apply (inj pretty) in E. exact E.
Qed.

(** X1.  Two different slide positions that are non-negative safe integers
    of JavaScript (at most 2^53 - 1, where [String(n)] prints every digit)
    never share a sort key, below and above 999 alike. *)
Theorem createSK_slide_no_collision (i j : Z) :
  0 <= i <= MAX_SAFE_INTEGER -> 0 <= j <= MAX_SAFE_INTEGER -> i <> j ->
  createSK SLIDE (Some i) <> createSK SLIDE (Some j).
Proof. intros Hi Hj Hne E. apply Hne, createSK_slide_inj; tauto. Qed.

Lemma createSK_slide_no_collision_witness :
  createSK SLIDE (Some 7) <> createSK SLIDE (Some 1007).
Proof. apply createSK_slide_no_collision; unfold MAX_SAFE_INTEGER; lia. Defined.

Lemma string_ltb_trans (a b c : string) :
  String.ltb a b = true -> String.ltb b c = true -> String.ltb a c = true.
Proof.
  unfold String.ltb. intros Hab Hbc.
  destruct (String.compare a b) eqn:Eab; try discriminate.
  destruct (String.compare b c) eqn:Ebc; try discriminate.
  assert (Hle : String.le a c).
  { transitivity b; unfold String.le, String.leb; [rewrite Eab | rewrite Ebc];
      exact I. }
  unfold String.le, String.leb in Hle.
  destruct (String.compare a c) eqn:Eac; [| reflexivity | destruct Hle].
  apply String.compare_eq_iff in Eac. subst c.
  rewrite String.compare_antisym, Eab in Ebc. discriminate.
Qed.

Lemma slide_keys_adjacent :
  forallb (fun n => String.ltb (createSK SLIDE (Some (Z.of_nat n)))
                               (createSK SLIDE (Some (Z.of_nat (S n)))))
          (seq 0 999) = true.
Proof. vm_compute. reflexivity. Qed.

Lemma slide_keys_step (n : nat) :
  (n < 999)%nat ->
  String.ltb (createSK SLIDE (Some (Z.of_nat n)))
             (createSK SLIDE (Some (Z.of_nat (S n)))) = true.
Proof.
  intros Hn. pose proof slide_keys_adjacent as H.
  rewrite forallb_forall in H. apply H, in_seq. lia.
Qed.

Lemma slide_keys_increasing (n d : nat) :
  (n + S d <= 999)%nat ->
  String.ltb (createSK SLIDE (Some (Z.of_nat n)))
             (createSK SLIDE (Some (Z.of_nat (n + S d)))) = true.
Proof.
  induction d as [| d IH]; intros H.
  - replace (n + 1)%nat with (S n) by lia. apply slide_keys_step. lia.
  - eapply string_ltb_trans; [apply IH; lia |].
    replace (n + S (S d))%nat with (S (n + S d)) by lia.
    apply slide_keys_step. lia.
Qed.

(** X2.  Up to position 999 the sort keys of the slides are ordered as the
    positions are (so a query returns the records of such a deck in position
    order); the padding stops there: the key of position 1000 sorts before
    the key of position 999. *)
Theorem createSK_slide_order (i j : Z) :
  0 <= i -> i < j -> j <= 999 ->
  String.ltb (createSK SLIDE (Some i)) (createSK SLIDE (Some j)) = true
  /\ String.ltb (createSK SLIDE (Some 1000)) (createSK SLIDE (Some 999)) = true.
Proof.
  intros Hi Hij Hj. split; [| reflexivity].
  pose proof (slide_keys_increasing (Z.to_nat i) (Z.to_nat (j - i - 1))) as H.
  replace (Z.to_nat i + S (Z.to_nat (j - i - 1)))%nat with (Z.to_nat j) in H by lia.
  rewrite !Z2Nat.id in H by lia. apply H. lia.
Qed.

Lemma createSK_slide_order_witness :
  String.ltb (createSK SLIDE (Some 9)) (createSK SLIDE (Some 10)) = true.
Proof. apply (createSK_slide_order 9 10); lia. Defined.

Import Store.

(** ** [updatePresentationMetadata] *)

Lemma apply_sets_snoc (l : list (string * Value)) (k : string) (v : Value) (item : Item) :
  apply_sets (l ++ [(k, v)]) item = <[k := v]> (apply_sets l item).
Proof. unfold apply_sets. rewrite foldl_app. reflexivity. Qed.

Lemma apply_sets_push (name : string) (v : option Value)
    (l : list (string * Value)) (item : Item) :
  apply_sets (push_if_defined name v l) item = set_attr name v (apply_sets l item).
Proof. destruct v; simpl; [apply apply_sets_snoc | reflexivity]. Qed.

Lemma updatePresentationMetadata_accepted (presentationId : string)
    (updates : MetadataUpdates) (w : World) :
  accepts_next w ->
  exists ev,
    updatePresentationMetadata presentationId updates w =
      (Ok tt,
       with_table
         (<[metadata_key presentationId :=
              set_attr "theme" (u_theme updates) (
              set_attr "description" (u_description updates) (
              set_attr "title" (u_title updates) (
              <["updatedAt" := VNum (clock w)]>
                (default (key_attrs (createPK presentationId) "METADATA")
                         (table w !! metadata_key presentationId)))))]> (table w))
         (after ev w)).
Proof.
  intros H. unfold updatePresentationMetadata. rewrite logged_run.
  erewrite bind_ok by reflexivity. cbv zeta.
  erewrite bind_ok by reflexivity.
  unfold UpdateCommand. rewrite send_accepted by exact H.
  eexists. cbn [createSK]. rewrite !apply_sets_push. reflexivity.
Qed.

Lemma set_attr_lookup (k a : string) (v : option Value) (o : Item) :
  set_attr k v o !! a
    = if decide (k = a) then match v with Some x => Some x | None => o !! a end
      else o !! a.
Proof.
  destruct v; simpl; [| destruct (decide (k = a)); reflexivity].
  rewrite lookup_insert. destruct (decide (k = a)); reflexivity.
Qed.

Lemma metadata_update_lookup (t d th : option Value) (now : Z) (old : Item) (a : string) :
  set_attr "theme" th (
    set_attr "description" d (
      set_attr "title" t (<["updatedAt" := VNum now]> old))) !! a
  = if decide (a = "theme") then from_option Some (old !! "theme") th
    else if decide (a = "description") then from_option Some (old !! "description") d
    else if decide (a = "title") then from_option Some (old !! "title") t
    else if decide (a = "updatedAt") then Some (VNum now)
    else old !! a.
Proof.
  rewrite !set_attr_lookup, lookup_insert.
  repeat case_decide; subst; try congruence; try discriminate;
    destruct th, d, t; reflexivity.
Qed.

(** X3.  When the storage service serves the command and the metadata record
    exists, [updatePresentationMetadata] stamps [updatedAt] with the current
    time, writes each of [title], [description] and [theme] exactly when it is
    given (an empty title is written), and leaves every other attribute of the
    record ([status], [createdAt], [userId], [errorMessage], the keys) and
    every other record as they were. *)
Theorem updatePresentationMetadata_frame (presentationId : string)
    (updates : MetadataUpdates) (w : World) (old : Item) :
  accepts_next w ->
  table w !! metadata_key presentationId = Some old ->
  exists (w' : World) (new : Item),
    updatePresentationMetadata presentationId updates w = (Ok tt, w')
    /\ table w' !! metadata_key presentationId = Some new
    /\ new !! "updatedAt" = Some (VNum (clock w))
    /\ new !! "title" = from_option Some (old !! "title") (u_title updates)
    /\ new !! "description"
         = from_option Some (old !! "description") (u_description updates)
    /\ new !! "theme" = from_option Some (old !! "theme") (u_theme updates)
    /\ (forall a : string,
          a <> "updatedAt" -> a <> "title" -> a <> "description" -> a <> "theme" ->
          new !! a = old !! a)
    /\ (forall k, k <> metadata_key presentationId -> table w' !! k = table w !! k).
Proof.
  intros H Hold.
  destruct (updatePresentationMetadata_accepted presentationId updates w H) as [ev Hrun].
  rewrite Hrun, Hold. cbn [default].
  do 2 eexists. split; [reflexivity |].
  split; [apply lookup_insert_eq |].
  rewrite !metadata_update_lookup.
  repeat (split; [reflexivity |]).
  split.
  - intros a H1 H2 H3 H4. rewrite metadata_update_lookup.
    repeat case_decide; first [congruence | reflexivity].
  - intros k Hk. cbn [table with_table]. apply lookup_insert_ne. congruence.
Qed.

Lemma updatePresentationMetadata_frame_witness :
  let w := Sample.world (Sample.table_of (Sample.metadata 1000 (Some "boom")) [])
                        2000 [] in
  let updates := {| u_title := Some (VStr ""); u_description := None; u_theme := None |} in
  exists w' new,
    updatePresentationMetadata "p1" updates w = (Ok tt, w')
    /\ table w' !! metadata_key "p1" = Some new
    /\ new !! "title" = Some (VStr "")
    /\ new !! "description" = Some (VStr "desc")
    /\ new !! "status" = Some (VStr "processing").
Proof.
  intros w updates.
  destruct (updatePresentationMetadata_frame "p1" updates w
              (Sample.metadata 1000 (Some "boom")))
    as (w' & new & Hrun & Hnew & _ & Ht & Hd & _ & Hother & _).
  - reflexivity.
  - vm_compute. reflexivity.
  - exists w', new. split; [exact Hrun |]. split; [exact Hnew |].
    split; [rewrite Ht; reflexivity |].
    split; [rewrite Hd; vm_compute; reflexivity |].
    rewrite Hother by discriminate. vm_compute. reflexivity.
Defined.

(** ** A partial update of a missing record creates it *)

Lemma status_result_absent status errorMessage now presentationId (a : string) :
  a <> "status" -> a <> "updatedAt" -> a <> "errorMessage" ->
  StatusUpdate.result status errorMessage now presentationId None !! a
    = key_attrs (createPK presentationId) "METADATA" !! a.
Proof.
  intros H1 H2 H3.
  unfold StatusUpdate.result, StatusUpdate.sets, apply_sets.
  destruct errorMessage as [e |]; [destruct (String.eqb e "") |]; simpl;
    repeat (rewrite lookup_insert_ne by congruence);
    reflexivity.
Qed.

(** X4.  [updatePresentationStatus] on a presentation that has no metadata
    record creates one: it holds the key attributes, [status], [updatedAt] and
    the error message if one was written, and nothing else.  From then on
    [getPresentation] no longer answers "not found" for the id: it returns a
    presentation whose [id], [title], [description] and [theme] are
    undefined. *)
Theorem updatePresentationStatus_creates_record (pid : string)
    (status : PresentationStatus) (errorMessage : option string) (w : World) :
  healthy w ->
  table w !! metadata_key pid = None ->
  exists (w' : World) (new : Item),
    updatePresentationStatus pid status errorMessage w = (Ok tt, w')
    /\ table w' !! metadata_key pid = Some new
    /\ new !! "status" = Some (VStr (status_string status))
    /\ new !! "pk" = Some (VStr (createPK pid))
    /\ new !! "sk" = Some (VStr "METADATA")
    /\ (forall a : string,
          a <> "pk" -> a <> "sk" -> a <> "status" -> a <> "updatedAt" ->
          a <> "errorMessage" -> new !! a = None)
    /\ exists (p : Presentation) (w'' : World),
         getPresentation pid w' = (Ok (Some p), w'')
         /\ id p = None /\ title p = None /\ description p = None /\ theme p = None.
Proof.
  intros H Habsent.
  rewrite (updatePresentationStatus_accepted _ _ _ _ (healthy_accepts w H)), Habsent.
  set (new := StatusUpdate.result status errorMessage (clock w) pid None).
  assert (Hnone : forall a : string,
             a <> "pk" -> a <> "sk" -> a <> "status" -> a <> "updatedAt" ->
             a <> "errorMessage" -> new !! a = None).
  { intros a H1 H2 H3 H4 H5. unfold new.
    rewrite status_result_absent by assumption.
    unfold key_attrs. rewrite !lookup_insert_ne by congruence. apply lookup_empty. }
  do 2 eexists. split; [reflexivity |].
  split; [apply lookup_insert_eq |].
  split; [apply status_result_status |].
  split; [unfold new; rewrite status_result_absent by discriminate; reflexivity |].
  split; [unfold new; rewrite status_result_absent by discriminate; reflexivity |].
  split; [exact Hnone |].
  rewrite getPresentation_served
    by (apply healthy_with_table, healthy_after, H).
  cbv zeta. cbn [table with_table]. rewrite lookup_insert_eq.
  do 2 eexists. split; [reflexivity |].
  cbn [id title description theme].
  repeat split; apply Hnone; discriminate.
Qed.

Lemma updatePresentationStatus_creates_record_witness :
  let w := Sample.world ∅ 2000 [] in
  exists w' p w'',
    updatePresentationStatus "gone" completed None w = (Ok tt, w')
    /\ getPresentation "gone" w = (Ok None, after (EvGet "presentations" "PRESENTATION#gone" "METADATA") w)
    /\ getPresentation "gone" w' = (Ok (Some p), w'')
    /\ title p = None.
Proof.
  intros w.
  destruct (updatePresentationStatus_creates_record "gone" completed None w)
    as (w' & new & Hrun & _ & _ & _ & _ & _ & p & w'' & Hget & _ & Ht & _).
  - reflexivity.
  - vm_compute. reflexivity.
  - exists w', p, w''. split; [exact Hrun |].
    split; [vm_compute; reflexivity |]. split; [exact Hget | exact Ht].
Defined.

(** ** Storage errors *)

Lemma bind_throw {A B} (m : M A) (f : A -> M B) (w w' : World) (e : Exn) :
  m w = (Throw e, w') -> (m ≫= f) w = (Throw e, w').
Proof. intros H. unfold mbind, M_bind. rewrite H. reflexivity. Qed.

Lemma send_rejected {A} (ev : Event)
    (serve : list nat -> Table -> Outcome A * Table)
    (w : World) (e : Exn) (rest : list DdbOutcome) :
  ddb w = Rejected e :: rest ->
  send ev serve w = (Throw e, with_ddb rest (emit ev w)).
Proof.
  intros H. unfold send. change (ddb (emit ev w)) with (ddb w). rewrite H.
  reflexivity.
Qed.

Lemma rejected_with_send {A} (ev : Event) (w : World) (e : Exn)
    (rest : list DdbOutcome) :
  rejected_with (A := A) e w (Throw e, with_ddb rest (emit ev w)).
Proof. split; [reflexivity |]. split; [reflexivity |]. exists ev. reflexivity. Qed.

(** X5.  When the storage service rejects the first command of a repository
    call, the call raises that very exception, has issued that one command
    only, and leaves the table untouched: no operation retries, swallows or
    wraps a storage error, and [savePresentationMetadata] writes nothing once
    its lookup has failed. *)
Theorem storage_rejection_propagates (w : World) (e : Exn) (rest : list DdbOutcome)
    (pid userId : string) (metadata : MetadataInput) (updates : MetadataUpdates)
    (status : PresentationStatus) (errorMessage : option string)
    (slideIndex : Z) (slide : option Value) (slides : list (option Value)) :
  ddb w = Rejected e :: rest ->
  rejected_with e w (getPresentation pid w)
  /\ rejected_with e w (getPresentationMetadata pid w)
  /\ rejected_with e w (savePresentationMetadata metadata w)
  /\ rejected_with e w (saveSlide pid slideIndex slide w)
  /\ rejected_with e w (saveSlides pid (slide :: slides) w)
  /\ rejected_with e w (updatePresentationStatus pid status errorMessage w)
  /\ rejected_with e w (updatePresentationMetadata pid updates w)
  /\ rejected_with e w (getUserPresentations userId w)
  /\ rejected_with e w (deletePresentation pid w).
Proof.
  intros H.
  repeat split_and.
  - unfold getPresentation. rewrite logged_run.
    erewrite bind_ok by reflexivity.
    erewrite bind_throw by (apply send_rejected, H). apply rejected_with_send.
  - unfold getPresentationMetadata. rewrite logged_run.
    erewrite bind_ok by reflexivity.
    erewrite bind_throw by (apply send_rejected, H). apply rejected_with_send.
  - unfold savePresentationMetadata. rewrite logged_run.
    erewrite bind_ok by reflexivity.
    erewrite bind_throw; [apply rejected_with_send |].
    unfold getPresentationMetadata. rewrite logged_run.
    erewrite bind_ok by reflexivity.
    erewrite bind_throw by (apply send_rejected, H). reflexivity.
  - unfold saveSlide. rewrite logged_run.
    erewrite bind_ok by reflexivity. erewrite bind_ok by reflexivity.
    unfold PutCommand. rewrite (send_rejected _ _ _ _ _ H). apply rejected_with_send.
  - unfold saveSlides. rewrite logged_run.
    erewrite bind_ok by reflexivity.
    simp saveSlides_loop.
    destruct (lt_dec 0 (length (writeRequests pid (slide :: slides) (clock w))))
      as [Hlt | Hn]; [| exfalso; apply Hn; unfold writeRequests; rewrite length_imap;
                      cbn [length]; lia].
    simp saveSlides_loop. unfold saveSlides_batch. cbv zeta.
    erewrite bind_ok by reflexivity.
    erewrite bind_throw by (apply send_rejected, H). apply rejected_with_send.
  - unfold updatePresentationStatus. rewrite logged_run.
    erewrite bind_ok by reflexivity. cbv zeta. erewrite bind_ok by reflexivity.
    unfold UpdateCommand. rewrite (send_rejected _ _ _ _ _ H). apply rejected_with_send.
  - unfold updatePresentationMetadata. rewrite logged_run.
    erewrite bind_ok by reflexivity. cbv zeta. erewrite bind_ok by reflexivity.
    unfold UpdateCommand. rewrite (send_rejected _ _ _ _ _ H). apply rejected_with_send.
  - unfold getUserPresentations. rewrite logged_run.
    erewrite bind_ok by reflexivity.
    erewrite bind_throw by (apply send_rejected, H). apply rejected_with_send.
  - unfold deletePresentation. rewrite logged_run.
    erewrite bind_ok by reflexivity.
    erewrite bind_throw by (apply send_rejected, H). apply rejected_with_send.
Qed.

Lemma storage_rejection_propagates_witness :
  let e := JsError "ProvisionedThroughputExceededException" in
  let w := Sample.world (Sample.table_of (Sample.metadata 1000 None) []) 2000
                        [Rejected e] in
  rejected_with e w (savePresentationMetadata Sample.input w)
  /\ rejected_with e w (deletePresentation "p1" w).
Proof.
  intros e w.
  destruct (storage_rejection_propagates w e [] "p1" "a@x.com" Sample.input
              {| u_title := None; u_description := None; u_theme := None |}
              failed None 0 None [] eq_refl)
    as (_ & _ & Hsave & _ & _ & _ & _ & _ & Hdel).
  split; [exact Hsave | exact Hdel].
Defined.

Lemma BatchWriteCommand_accepted (tbl : string) (batch : list WriteRequest) (w : World) :
  accepts_next w ->
  batch <> [] -> (length batch <= 25)%nat ->
  Forall (fun r => request_ok r = true) batch ->
  BatchWriteCommand [(tbl, batch)] w =
    (Ok (match unprocessed (next_skip w) batch with
         | [] => []
         | pending => [(tbl, pending)]
         end),
     with_table (foldl apply_request (table w) (processed (next_skip w) batch))
                (after (EvBatchWrite [(tbl, batch)]) w)).
Proof.
  intros H Hne Hlen Hok. unfold BatchWriteCommand.
  rewrite send_accepted by exact H.
  rewrite batch_ok_single by (try apply forallb_ok_Forall; assumption).
  cbn [fmap list_fmap concat snd]. rewrite app_nil_r.
  f_equal. f_equal.
  unfold UnprocessedItems. cbn [fmap list_fmap fst snd].
  destruct (unprocessed (next_skip w) batch) eqn:E; cbn; reflexivity.
Qed.

Lemma slice_all {A} (l : list A) (n : nat) :
  (length l <= n)%nat -> Js.slice 0 (0 + n) l = l.
Proof.
  intros H. unfold Js.slice. rewrite drop_0, Nat.add_0_l, Nat.sub_0_r.
  apply take_ge, H.
Qed.

Lemma GetCommand_accepted (tbl pk sk : string) (w : World) :
  accepts_next w ->
  GetCommand tbl pk sk w = (Ok (table w !! (pk, sk)), after (EvGet tbl pk sk) w).
Proof. intros H. unfold GetCommand. rewrite send_accepted by exact H. reflexivity. Qed.

Lemma getPresentationMetadata_accepted (presentationId : string) (w : World) :
  accepts_next w ->
  getPresentationMetadata presentationId w =
    (Ok (MetadataWrite.view <$> table w !! metadata_key presentationId),
     after (EvGet (env_or (TABLE_NAME w) "presentations")
                  (createPK presentationId) "METADATA") w).
Proof.
  intros H. unfold getPresentationMetadata. rewrite logged_run.
  erewrite bind_ok by reflexivity.
  erewrite bind_ok by (apply GetCommand_accepted; exact H).
  unfold metadata_key. cbn [createSK].
  destruct (table w !! (createPK presentationId, "METADATA")); reflexivity.
Qed.

(** X6.  A rejection later in a call is raised by the call as well.  When
    the storage service serves the first command and rejects the second:
    [getPresentation] of an existing presentation raises the exception of the
    slide query instead of returning the metadata with no slides;
    [savePresentationMetadata] raises the exception of the put and the table
    is unchanged; and [saveSlides] of 1 to 25 slides, some of which the first
    attempt left unprocessed, raises the exception of its retry. *)
Theorem later_rejection_propagates (w : World) (skip : list nat) (e : Exn)
    (rest : list DdbOutcome) (pid : string) (stored : Item)
    (metadata : MetadataInput) (slides : list (option Value)) :
  ddb w = Served skip :: Rejected e :: rest ->
  table w !! metadata_key pid = Some stored ->
  (0 < length slides <= 25)%nat ->
  unprocessed skip (writeRequests pid slides (clock w)) <> [] ->
  (getPresentation pid w).1 = Throw e
  /\ ((savePresentationMetadata metadata w).1 = Throw e
      /\ table (savePresentationMetadata metadata w).2 = table w)
  /\ (saveSlides pid slides w).1 = Throw e.
Proof.
  intros Hd Hstored Hlen Hun.
  assert (Hacc : accepts_next w) by (unfold accepts_next; rewrite Hd; reflexivity).
  assert (Hskip : next_skip w = skip) by (unfold next_skip; rewrite Hd; reflexivity).
  split; [| split].
  - unfold getPresentation. rewrite logged_run.
    erewrite bind_ok by reflexivity.
    erewrite bind_ok by (apply GetCommand_accepted; exact Hacc).
    cbn [createSK]. fold (metadata_key pid). rewrite Hstored.
    erewrite bind_ok by reflexivity.
    erewrite bind_throw; [reflexivity |].
    apply send_rejected. cbn. rewrite Hd. reflexivity.
  - unfold savePresentationMetadata. rewrite logged_run.
    erewrite bind_ok by reflexivity.
    erewrite bind_ok by (apply getPresentationMetadata_accepted; exact Hacc).
    cbv zeta. erewrite bind_ok by reflexivity.
    unfold PutCommand. erewrite send_rejected by (cbn; rewrite Hd; reflexivity).
    split; reflexivity.
  - unfold saveSlides. rewrite logged_run.
    erewrite bind_ok by reflexivity.
    set (requests := writeRequests pid slides (clock w)) in *.
    assert (Hrl : length requests = length slides) by apply length_imap.
    simp saveSlides_loop.
    destruct (lt_dec 0 (length requests)) as [Hlt | Hn]; [| lia].
    simp saveSlides_loop. unfold saveSlides_batch. cbv zeta.
    rewrite slice_all by lia.
    erewrite bind_ok by reflexivity.
    erewrite bind_ok.
    2:{ apply BatchWriteCommand_accepted; [exact Hacc | | lia | apply writeRequests_ok].
        intros E. rewrite E in Hrl. cbn in Hrl. lia. }
    rewrite Hskip.
    destruct (unprocessed skip requests) as [| r pending] eqn:E; [contradiction |].
    cbn [length Nat.ltb Nat.leb].
    erewrite bind_ok by reflexivity.
    erewrite bind_throw; [reflexivity |].
    apply send_rejected. cbn. rewrite Hd. reflexivity.
Qed.

Lemma later_rejection_propagates_witness :
  let e := JsError "InternalServerError" in
  let w := Sample.world (Sample.table_of (Sample.metadata 1000 None) []) 2000
                        [Served [0%nat]; Rejected e] in
  (getPresentation "p1" w).1 = Throw e
  /\ (saveSlides "p1" [Some (Sample.slide 0)] w).1 = Throw e.
Proof.
  intros e w.
  destruct (later_rejection_propagates w [0%nat] e [] "p1"
              (Sample.metadata 1000 None) Sample.input [Some (Sample.slide 0)])
    as (Hget & _ & Hsave).
  - reflexivity.
  - vm_compute. reflexivity.
  - cbn [length]. lia.
  - vm_compute. discriminate.
  - split; [exact Hget | exact Hsave].
Defined.

(** ** Reading metadata back *)

Lemma fields_lookup (item : Item) (names : list string) (a : string) :
  foldr (fun k o => set_attr k (item !! k) o) ∅ names !! a
    = if decide (a ∈ names) then item !! a else None.
Proof.
  induction names as [| k names IH]; cbn [foldr].
  - rewrite lookup_empty, decide_False by apply not_elem_of_nil. reflexivity.
  - rewrite set_attr_lookup, IH.
    destruct (decide (k = a)) as [E | Hne].
    + subst k. rewrite (decide_True (P := a ∈ a :: names)) by left.
      destruct (item !! a) eqn:E; [reflexivity |].
      destruct (decide (a ∈ names)); reflexivity.
    + destruct (decide (a ∈ names)) as [Hin | Hnin].
      * rewrite (decide_True (P := a ∈ k :: names)) by (right; exact Hin). reflexivity.
      * rewrite (decide_False (P := a ∈ k :: names)); [reflexivity |].
        rewrite elem_of_cons. intros [E | E]; [congruence | contradiction].
Qed.

Lemma view_lookup (item : Item) (a : string) :
  MetadataWrite.view item !! a
    = if decide (a ∈ metadata_fields) then item !! a else None.
Proof. exact (fields_lookup item metadata_fields a). Qed.

(** X7.  When the storage service serves the command,
    [getPresentationMetadata] answers "not found" ([null]) for an id without
    metadata record and otherwise an object with the nine metadata
    attributes of the stored record, each as stored, and nothing else: the
    key and index attributes ([pk], [sk], [gsi1pk], [gsi1sk]) are never part
    of the answer.  The table is not changed. *)
Theorem getPresentationMetadata_fields (pid : string) (w : World) :
  accepts_next w ->
  exists w',
    table w' = table w
    /\ match table w !! metadata_key pid with
       | None => getPresentationMetadata pid w = (Ok None, w')
       | Some item =>
           exists o : Item,
             getPresentationMetadata pid w = (Ok (Some o), w')
             /\ (forall a : string, a ∈ metadata_fields -> o !! a = item !! a)
             /\ (forall a : string, a ∉ metadata_fields -> o !! a = None)
       end.
Proof.
  intros H. rewrite (getPresentationMetadata_accepted pid w H).
  exists (after (EvGet (env_or (TABLE_NAME w) "presentations")
                       (createPK pid) "METADATA") w).
  split; [reflexivity |].
  destruct (table w !! metadata_key pid) as [item |]; [| reflexivity].
  eexists. split; [reflexivity |].
  split; intros a Ha; rewrite view_lookup; case_decide; tauto.
Qed.

Lemma getPresentationMetadata_fields_witness :
  let w := Sample.world (Sample.table_of (Sample.metadata 1000 None) []) 2000 [] in
  exists w' o,
    getPresentationMetadata "p1" w = (Ok (Some o), w')
    /\ o !! "title" = Some (VStr "Q4 Review")
    /\ o !! "gsi1pk" = None.
Proof.
  intros w.
  destruct (getPresentationMetadata_fields "p1" w) as (w' & _ & Hcase);
    [reflexivity |].
  assert (Hold : table w !! metadata_key "p1" = Some (Sample.metadata 1000 None))
    by (vm_compute; reflexivity).
  rewrite Hold in Hcase. destruct Hcase as (o & Hrun & Hin & Hout).
  exists w', o. split; [exact Hrun |]. split.
  - rewrite Hin by (unfold metadata_fields; rewrite !elem_of_cons; tauto).
    vm_compute. reflexivity.
  - apply Hout. unfold metadata_fields.
    rewrite !elem_of_cons, elem_of_nil. intuition discriminate.
Defined.

(** ** [savePresentationMetadata] and what is read back *)

Lemma written_field (metadata : MetadataInput) (now : Z) (found : option Item)
    (a : string) :
  a ∈ metadata_fields ->
  MetadataWrite.written metadata now found !! a
    = (<["updatedAt" := VNum now]> (
       <["createdAt" := js_or (found ≫= lookup "createdAt") (VNum now)]> (
       metadata_object metadata))) !! a.
Proof.
  intros Ha. unfold MetadataWrite.written. apply lookup_union_l.
  unfold metadata_fields in Ha. rewrite !elem_of_cons, elem_of_nil in Ha.
  destruct Ha as [-> | [-> | [-> | [-> | [-> | [-> | [-> | [-> | [-> | []]]]]]]]]];
    attr_ne; apply lookup_empty.
Qed.

Lemma written_index_key (metadata : MetadataInput) (now : Z) (found : option Item) :
  index_key (MetadataWrite.written metadata now found)
    = Some (createGSI1PK (m_userId metadata), createGSI1SK (m_id metadata)).
Proof.
  unfold index_key, MetadataWrite.written.
  rewrite !lookup_union_r
    by (attr_ne; unfold metadata_object; attr_ne; apply lookup_empty).
  attr_ne. rewrite lookup_insert_eq. attr_ne. rewrite lookup_insert_eq.
  reflexivity.
Qed.

(** X8.  While the storage service answers, [savePresentationMetadata]
    followed by [getPresentationMetadata] of the same id returns what was
    saved: [id], [title], [userId], [status] and [theme] of the input,
    [description] and [errorMessage] only if the input has them (the record is
    replaced as a whole, so a stored [errorMessage] does not survive a save
    without one), [updatedAt] the time of the save and [createdAt] the stored
    one or that time.  The record is filed in the owner's index partition
    under the presentation's index key, and every other record of the table
    is unchanged. *)
Theorem savePresentationMetadata_then_read (metadata : MetadataInput) (w : World) :
  healthy w ->
  exists (w' w'' : World) (item o : Item),
    savePresentationMetadata metadata w = (Ok tt, w')
    /\ table w' !! metadata_key (m_id metadata) = Some item
    /\ getPresentationMetadata (m_id metadata) w' = (Ok (Some o), w'')
    /\ o !! "id" = Some (VStr (m_id metadata))
    /\ o !! "title" = Some (VStr (m_title metadata))
    /\ o !! "description" = VStr <$> m_description metadata
    /\ o !! "userId" = Some (VStr (m_userId metadata))
    /\ o !! "status" = Some (VStr (status_string (m_status metadata)))
    /\ o !! "theme" = Some (m_theme metadata)
    /\ o !! "errorMessage" = VStr <$> m_errorMessage metadata
    /\ o !! "updatedAt" = Some (VNum (clock w))
    /\ o !! "createdAt"
         = Some (js_or ((table w !! metadata_key (m_id metadata)) ≫= lookup "createdAt")
                       (VNum (clock w)))
    /\ index_key item
         = Some (createGSI1PK (m_userId metadata), createGSI1SK (m_id metadata))
    /\ (forall k, k <> metadata_key (m_id metadata) -> table w' !! k = table w !! k).
Proof.
  intros H.
  rewrite (savePresentationMetadata_served metadata w H). cbv zeta.
  set (found := table w !! metadata_key (m_id metadata)).
  set (item := MetadataWrite.written metadata (clock w) (MetadataWrite.view <$> found)).
  match goal with
  | |- context [(Ok tt, ?x)] => set (w1 := x)
  end.
  exists w1,
    (after (EvGet (env_or (TABLE_NAME w1) "presentations")
                  (createPK (m_id metadata)) "METADATA") w1),
    item, (MetadataWrite.view item).
  split; [reflexivity |].
  split; [apply lookup_insert_eq |].
  split.
  { rewrite getPresentationMetadata_served
      by (apply healthy_with_table; do 2 apply healthy_after; exact H).
    unfold w1 at 1. cbn [table with_table]. rewrite lookup_insert_eq. reflexivity. }
  assert (Hf : forall a, a ∈ metadata_fields ->
            MetadataWrite.view item !! a
            = (<["updatedAt" := VNum (clock w)]> (
               <["createdAt" := js_or (found ≫= lookup "createdAt") (VNum (clock w))]> (
               metadata_object metadata))) !! a).
  { intros a Ha. rewrite view_lookup. case_decide; [| tauto].
    unfold item. rewrite written_field by exact Ha. rewrite found_createdAt.
    reflexivity. }
  unfold metadata_object.
  repeat (split;
    [ rewrite Hf by (unfold metadata_fields; set_solver);
      unfold metadata_object; attr_ne;
      first [ apply lookup_insert_eq
            | apply lookup_set_attr_eq; attr_ne; apply lookup_empty ] |]).
  split; [apply written_index_key |].
  intros k Hk. apply lookup_insert_ne. congruence.
Qed.

Lemma savePresentationMetadata_then_read_witness :
  let w := Sample.world (Sample.table_of (Sample.metadata 1000 (Some "boom")) [])
                        2000 [] in
  exists w' w'' o,
    savePresentationMetadata Sample.input w = (Ok tt, w')
    /\ getPresentationMetadata "p1" w' = (Ok (Some o), w'')
    /\ o !! "errorMessage" = None
    /\ o !! "createdAt" = Some (VNum 1000).
Proof.
  intros w.
  destruct (savePresentationMetadata_then_read Sample.input w)
    as (w' & w'' & item & o & Hsave & _ & Hget & _ & _ & _ & _ & _ & _ & Herr & _ & Hc & _);
    [reflexivity |].
  exists w', w'', o. split; [exact Hsave |]. split; [exact Hget |].
  split; [exact Herr |]. rewrite Hc. vm_compute. reflexivity.
Defined.

(** ** [getUserPresentations] *)

Lemma index_items_perm (t : Table) (userId : string) :
  index_items t (createGSI1PK userId) ≡ₚ index_partition t userId.
Proof. unfold index_items, index_partition. apply merge_sort_Permutation. Qed.

(** The index partition of an owner: the records whose [gsi1pk] is the
    owner's index key and whose [gsi1sk] is a string. *)
Lemma index_partition_spec (t : Table) (userId : string)
    (k : string * string) (item : Item) :
  (k, item) ∈ index_partition t userId
  <-> t !! k = Some item
      /\ item !! "gsi1pk" = Some (VStr (createGSI1PK userId))
      /\ exists rk, item !! "gsi1sk" = Some (VStr rk).
Proof.
  unfold index_partition. rewrite list_elem_of_filter, elem_of_map_to_list.
  cbn [snd]. unfold index_key.
  split.
  - intros [Hk Ht]. split; [exact Ht |].
    destruct (item !! "gsi1pk") as [[| | | hk | |] |]; try discriminate.
    destruct (item !! "gsi1sk") as [[| | | rk | |] |]; try discriminate.
    cbn in Hk. injection Hk as ->. eauto.
  - intros (Ht & -> & rk & ->). split; [reflexivity | exact Ht].
Qed.

Lemma getUserPresentations_accepted (userId : string) (w : World) :
  accepts_next w ->
  getUserPresentations userId w =
    (Ok (Js.sort createdAt_descending
           (MetadataWrite.view <$>
              first_page w (snd <$> index_items (table w) (createGSI1PK userId)))),
     after (EvQuery (env_or (TABLE_NAME w) "presentations" +:+ "/index/" +:+ "GSI1")
                    (createGSI1PK userId) "") w).
Proof.
  intros H. unfold getUserPresentations. rewrite logged_run.
  erewrite bind_ok by reflexivity.
  unfold QueryIndexCommand.
  erewrite bind_ok by (rewrite send_accepted by exact H; reflexivity).
  destruct (first_page w (snd <$> index_items (table w) (createGSI1PK userId)));
    reflexivity.
Qed.

Lemma createdAt_keep (a b : Item) :
  has_createdAt a -> has_createdAt b ->
  Js.positive (createdAt_descending a b) = false -> createdAt_ge a b.
Proof.
  unfold has_createdAt, createdAt_descending, createdAt_ge.
  intros [x Hx] [y Hy]. rewrite Hx, Hy. simpl. intros Hc.
  exists x, y. repeat split. lia.
Qed.

Lemma createdAt_swap (a b : Item) :
  has_createdAt a -> has_createdAt b ->
  Js.positive (createdAt_descending a b) = true -> createdAt_ge b a.
Proof.
  unfold has_createdAt, createdAt_descending, createdAt_ge.
  intros [x Hx] [y Hy]. rewrite Hx, Hy. simpl. intros Hc.
  exists y, x. repeat split. lia.
Qed.

(** X9.  When the storage service serves the query, [getUserPresentations]
    returns metadata objects of records of the owner's index partition (the
    records whose [gsi1pk] is ["USER#"] followed by the owner), none twice,
    each reduced to the nine metadata attributes, so a slide record or a
    record of another owner is never listed; when the partition fits the one
    answer of the query, every record of it is listed; when every listed
    [createdAt] is a number the list is in descending order of [createdAt].
    The table is not changed. *)
Theorem getUserPresentations_listing (userId : string) (w : World) :
  accepts_next w ->
  exists (l : list Item) (w' : World),
    getUserPresentations userId w = (Ok l, w')
    /\ table w' = table w
    /\ l ⊆+ (fun kv => MetadataWrite.view kv.2) <$> index_partition (table w) userId
    /\ (listing_in_one_page w userId ->
        l ≡ₚ (fun kv => MetadataWrite.view kv.2) <$> index_partition (table w) userId)
    /\ (forall o, o ∈ l ->
        exists k item,
          table w !! k = Some item
          /\ item !! "gsi1pk" = Some (VStr (createGSI1PK userId))
          /\ o = MetadataWrite.view item)
    /\ (Forall has_createdAt l -> Sorted createdAt_ge l).
Proof.
  intros H. rewrite (getUserPresentations_accepted userId w H).
  set (all := snd <$> index_items (table w) (createGSI1PK userId)).
  set (items := MetadataWrite.view <$> first_page w all).
  assert (Hall : MetadataWrite.view <$> all
                 ≡ₚ (fun kv => MetadataWrite.view kv.2) <$> index_partition (table w) userId).
  { unfold all. rewrite <- list_fmap_compose.
    apply fmap_Permutation, index_items_perm. }
  assert (Hsub : Js.sort createdAt_descending items
                 ⊆+ (fun kv => MetadataWrite.view kv.2) <$> index_partition (table w) userId).
  { rewrite sort_perm, <- Hall. unfold items.
    apply fmap_submseteq, sublist_submseteq, sublist_take. }
  eexists (Js.sort createdAt_descending items), _.
  split; [reflexivity |]. split; [reflexivity |]. split; [exact Hsub |].
  split; [| split].
  - intros Hfit. rewrite sort_perm. unfold items.
    rewrite (first_page_whole w all Hfit). exact Hall.
  - intros o Ho. apply (elem_of_submseteq _ _ _ Ho) in Hsub.
    apply list_elem_of_fmap in Hsub as ([k item] & -> & Hin).
    apply index_partition_spec in Hin as (Ht & Hpk & _).
    exists k, item. auto.
  - intros Hidx.
    apply (sort_sorted createdAt_descending has_createdAt createdAt_ge
             createdAt_keep createdAt_swap).
    rewrite Forall_forall in Hidx |- *.
    intros y Hy. apply Hidx. rewrite (sort_perm createdAt_descending items). exact Hy.
Qed.

Lemma getUserPresentations_listing_witness :
  let w := Sample.world SampleListing.two_presentations 4000 [] in
  exists l w',
    getUserPresentations "a@x.com" w = (Ok l, w')
    /\ l ≡ₚ (fun kv => MetadataWrite.view kv.2) <$> index_partition (table w) "a@x.com"
    /\ Sorted createdAt_ge l
    /\ (fun o : Item => o !! "id") <$> l = [Some (VStr "p2"); Some (VStr "p1")]
    /\ (getUserPresentations "b@x.com" w).1 = Ok [].
Proof.
  intros w.
  destruct (getUserPresentations_listing "a@x.com" w)
    as (l & w' & Hrun & _ & _ & Hperm & _ & Hsorted); [reflexivity |].
  assert (E : (getUserPresentations "a@x.com" w).1
              = Ok [MetadataWrite.view (SampleListing.second 3000);
                    MetadataWrite.view (Sample.metadata 1000 None)])
    by (vm_compute; reflexivity).
  rewrite Hrun in E. cbn [fst] in E. injection E as E.
  exists l, w'. split; [exact Hrun |].
  split; [apply Hperm, Nat.le_refl |]. split; [| split].
  - apply Hsorted. rewrite E.
    repeat constructor; eexists; vm_compute; reflexivity.
  - rewrite E. vm_compute. reflexivity.
  - vm_compute. reflexivity.
Defined.

Lemma written_index_attrs (metadata : MetadataInput) (now : Z) (found : option Item) :
  MetadataWrite.written metadata now found !! "gsi1pk"
    = Some (VStr (createGSI1PK (m_userId metadata)))
  /\ MetadataWrite.written metadata now found !! "gsi1sk"
     = Some (VStr (createGSI1SK (m_id metadata))).
Proof.
  unfold MetadataWrite.written.
  rewrite !lookup_union_r
    by (attr_ne; unfold metadata_object; attr_ne; apply lookup_empty).
  split; attr_ne; apply lookup_insert_eq.
Qed.

(** X10.  While the storage service answers (the index being up to date),
    a presentation saved with [savePresentationMetadata] is listed by
    [getUserPresentations] of its owner, with the [id], [title] and [status]
    that were saved, provided the owner's index partition, the saved record
    included, fits the one answer of the query. *)
Theorem savePresentationMetadata_then_listed (metadata : MetadataInput) (w : World) :
  healthy w ->
  exists w' : World,
    savePresentationMetadata metadata w = (Ok tt, w')
    /\ (listing_in_one_page w' (m_userId metadata) ->
        exists (w'' : World) (l : list Item) (o : Item),
          getUserPresentations (m_userId metadata) w' = (Ok l, w'')
          /\ o ∈ l
          /\ o !! "id" = Some (VStr (m_id metadata))
          /\ o !! "title" = Some (VStr (m_title metadata))
          /\ o !! "status" = Some (VStr (status_string (m_status metadata)))).
Proof.
  intros H.
  rewrite (savePresentationMetadata_served metadata w H). cbv zeta.
  set (found := table w !! metadata_key (m_id metadata)).
  set (item := MetadataWrite.written metadata (clock w) (MetadataWrite.view <$> found)).
  match goal with
  | |- context [(Ok tt, ?x)] => set (w1 := x)
  end.
  assert (H1 : accepts_next w1).
  { apply healthy_accepts, healthy_with_table. do 2 apply healthy_after. exact H. }
  exists w1. split; [reflexivity |]. intros Hfit.
  eexists _, _, (MetadataWrite.view item).
  split; [apply (getUserPresentations_accepted _ _ H1) |].
  split.
  - rewrite sort_perm, (first_page_whole w1 _ Hfit), <- list_fmap_compose.
    rewrite (fmap_Permutation _ _ _ (index_items_perm (table w1) (m_userId metadata))).
    apply list_elem_of_fmap. exists (metadata_key (m_id metadata), item).
    split; [reflexivity |].
    apply index_partition_spec.
    split; [unfold w1; cbn [table with_table]; apply lookup_insert_eq |].
    destruct (written_index_attrs metadata (clock w) (MetadataWrite.view <$> found))
      as [Hpk Hsk].
    split; [exact Hpk | eauto].
  - assert (Hf : forall a, a ∈ metadata_fields ->
              MetadataWrite.view item !! a
              = (<["updatedAt" := VNum (clock w)]> (
                 <["createdAt" := js_or ((MetadataWrite.view <$> found) ≫= lookup "createdAt")
                                        (VNum (clock w))]> (
                 metadata_object metadata))) !! a).
    { intros a Ha. rewrite view_lookup. case_decide; [| tauto].
      unfold item. apply written_field, Ha. }
    repeat split;
      (rewrite Hf by (unfold metadata_fields; rewrite !elem_of_cons; tauto));
      unfold metadata_object; attr_ne; apply lookup_insert_eq.
Qed.

Lemma savePresentationMetadata_then_listed_witness :
  let w := Sample.world SampleListing.two_presentations 5000 [] in
  exists w' w'' l o,
    savePresentationMetadata Sample.input w = (Ok tt, w')
    /\ listing_in_one_page w' "a@x.com"
    /\ getUserPresentations "a@x.com" w' = (Ok l, w'')
    /\ length l = 2%nat
    /\ o ∈ l
    /\ o !! "id" = Some (VStr "p1").
Proof.
  intros w.
  destruct (savePresentationMetadata_then_listed Sample.input w)
    as (w' & Hsave & Hlisted); [reflexivity |].
  assert (Hw' : w' = (savePresentationMetadata Sample.input w).2)
    by (rewrite Hsave; reflexivity).
  assert (Hfit : listing_in_one_page w' "a@x.com")
    by (rewrite Hw'; apply Nat.le_refl).
  destruct (Hlisted Hfit) as (w'' & l & o & Hlist & Hin & Hid & _).
  change (getUserPresentations "a@x.com" w' = (Ok l, w'')) in Hlist.
  exists w', w'', l, o. split; [exact Hsave |]. split; [exact Hfit |].
  split; [exact Hlist |]. split; [| split; [exact Hin | exact Hid]].
  assert (E : length <$> (match (getUserPresentations "a@x.com"
                                   (savePresentationMetadata Sample.input w).2).1 with
                          | Ok r => Some r
                          | Throw _ => None
                          end) = Some 2%nat)
    by (vm_compute; reflexivity).
  rewrite <- Hw', Hlist in E. cbn in E. injection E as E. exact E.
Defined.

Import Deletion.

(** ** [deletePresentation] *)

Lemma prefix_empty (s : string) : String.prefix "" s = true.
Proof. destruct s; reflexivity. Qed.

Lemma query_partition_elem (t : Table) (pk : string)
    (k : string * string) (item : Item) :
  (k, item) ∈ query_items t pk "" <-> t !! k = Some item /\ k.1 = pk.
Proof.
  unfold query_items. rewrite merge_sort_Permutation.
  rewrite list_elem_of_filter, elem_of_map_to_list. cbn [fst snd].
  rewrite prefix_empty. tauto.
Qed.

Lemma query_partition_NoDup (t : Table) (pk : string) :
  NoDup (fst <$> query_items t pk "").
Proof.
  unfold query_items. rewrite merge_sort_Permutation.
  apply NoDup_fmap_fst.
  - intros k y1 y2 H1 H2.
    apply list_elem_of_filter in H1 as [_ H1]. apply list_elem_of_filter in H2 as [_ H2].
    apply elem_of_map_to_list in H1. apply elem_of_map_to_list in H2. congruence.
  - apply NoDup_filter, NoDup_map_to_list.
Qed.

Lemma first_page_answered (w : World) (pid : string) :
  first_page w (snd <$> query_items (table w) (createPK pid) "")
  = snd <$> take (page w (snd <$> query_items (table w) (createPK pid) ""))
                 (query_items (table w) (createPK pid) "").
Proof. unfold first_page. symmetry. apply fmap_take. Qed.

Lemma answered_keys_fst (w : World) (pid : string) :
  answered_keys w pid
  = fst <$> take (page w (snd <$> query_items (table w) (createPK pid) ""))
                 (query_items (table w) (createPK pid) "").
Proof. unfold answered_keys, partition_keys. symmetry. apply fmap_take. Qed.

Lemma answered_keys_whole (w : World) (pid : string) :
  partition_in_one_page w pid -> answered_keys w pid = partition_keys (table w) pid.
Proof.
  intros Hfit. unfold answered_keys. apply take_ge.
  unfold partition_in_one_page, fits_page in Hfit. unfold partition_keys.
  rewrite length_fmap in Hfit. rewrite length_fmap. exact Hfit.
Qed.

Lemma answered_keys_NoDup (w : World) (pid : string) : NoDup (answered_keys w pid).
Proof.
  unfold answered_keys, partition_keys.
  apply (sublist_NoDup _ (fst <$> query_items (table w) (createPK pid) ""));
    [apply query_partition_NoDup | apply sublist_take].
Qed.

Lemma deleteRequests_keyed (w : World) (pid : string) :
  keyed (table w) ->
  deleteRequests (first_page w (snd <$> query_items (table w) (createPK pid) ""))
    = Some (requests_of (answered_keys w pid)).
Proof.
  intros Hk. rewrite first_page_answered, answered_keys_fst.
  unfold deleteRequests, requests_of.
  apply mapM_Some_2.
  rewrite <- list_fmap_compose. apply Forall2_fmap, Forall_Forall2_diag, Forall_forall.
  intros [k item] Hin. cbn.
  apply elem_of_take in Hin as (i & Hin & _).
  apply list_elem_of_lookup_2, query_partition_elem in Hin as [Ht _].
  rewrite (Hk k item Ht). reflexivity.
Qed.

Lemma requests_of_ok (keys : list (string * string)) :
  Forall (fun r => request_ok r = true) (requests_of keys).
Proof. unfold requests_of. apply Forall_fmap, Forall_true. reflexivity. Qed.

Lemma deletePresentation_loop_served (requests : list WriteRequest) :
  Forall (fun r => request_ok r = true) requests ->
  forall (n i : nat) (w : World),
    (length requests - i)%nat = n ->
    healthy w ->
    exists w',
      deletePresentation_loop requests i w = (Ok tt, w')
      /\ trace w' = (trace w ++
                     ((fun b => EvBatchWrite [(env_or (TABLE_NAME w) "presentations", b)])
                        <$> chunks (drop i requests)))%list
      /\ table w' = foldl apply_request (table w)
                          (applied (chunks (drop i requests)) (ddb w))
      /\ healthy w'.
Proof.
  intros Hok n.
  induction n as [n IH] using lt_wf_ind.
  intros i w Hn H.
  simp deletePresentation_loop.
  destruct (lt_dec i (length requests)) as [Hi | Hi]; simp deletePresentation_loop.
  - unfold Js.slice. replace (i + 25 - i)%nat with 25%nat by lia.
    set (batch := take 25 (drop i requests)).
    assert (Hne : batch <> []).
    { intros E. apply (f_equal length) in E. unfold batch in E.
      rewrite length_take, length_drop in E. cbn [length] in E. lia. }
    assert (Hlen : (length batch <= 25)%nat) by (unfold batch; rewrite length_take; lia).
    assert (Hb : Forall (fun r => request_ok r = true) batch)
      by (apply Forall_take, Forall_drop, Hok).
    erewrite bind_ok by reflexivity.
    rewrite (BatchWriteCommand_accepted _ batch w (healthy_accepts w H) Hne Hlen Hb).
    match goal with
    | |- context [deletePresentation_loop _ _ ?x] => set (w1 := x)
    end.
    assert (H1 : healthy w1) by (apply healthy_with_table, healthy_after, H).
    destruct (IH (length requests - (i + 25))%nat ltac:(lia) (i + 25)%nat w1 eq_refl H1)
      as (w' & Hloop & Htr & Htab & Hh).
    exists w'. split; [exact Hloop |].
    rewrite (chunks_drop_lt requests i Hi). fold batch.
    split; [| split; [| exact Hh]].
    + rewrite Htr. unfold w1. cbn. rewrite <- app_assoc. reflexivity.
    + rewrite Htab. unfold w1. cbn [applied table with_table after with_ddb ddb emit].
      rewrite foldl_app. reflexivity.
  - exists w. split; [reflexivity |].
    rewrite chunks_drop_ge by lia. cbn. rewrite app_nil_r. repeat split. exact H.
Qed.

Lemma deletePresentation_served (pid : string) (w : World) :
  healthy w ->
  keyed (table w) ->
  let tbl := env_or (TABLE_NAME w) "presentations" in
  let requests := requests_of (answered_keys w pid) in
  exists w',
    deletePresentation pid w = (Ok tt, w')
    /\ trace w' = (trace w ++ EvQuery tbl (createPK pid) ""
                     :: ((fun b => EvBatchWrite [(tbl, b)]) <$> chunks requests))%list
    /\ table w' = foldl apply_request (table w)
                        (applied (chunks requests) (tail (ddb w)))
    /\ healthy w'.
Proof.
  intros H Hk tbl requests.
  unfold deletePresentation. rewrite logged_run.
  erewrite bind_ok by reflexivity.
  unfold QueryPartitionCommand.
  erewrite bind_ok by (apply QueryCommand_served, H). fold tbl.
  set (w1 := after (EvQuery tbl (createPK pid) "") w).
  assert (H1 : healthy w1) by (apply healthy_after, H).
  destruct (Nat.eqb_spec
              (length (first_page w (snd <$> query_items (table w) (createPK pid) "")))
              0)
    as [E | E].
  - assert (Hreq : requests = []).
    { unfold requests, requests_of. rewrite answered_keys_fst.
      rewrite first_page_answered, length_fmap in E.
      apply length_zero_iff_nil in E. rewrite E. reflexivity. }
    exists w1. split; [reflexivity |]. rewrite Hreq. simp chunks.
    split; [reflexivity |]. split; [reflexivity | exact H1].
  - rewrite (deleteRequests_keyed w pid Hk). fold requests.
    destruct (deletePresentation_loop_served requests (requests_of_ok _) _ 0%nat w1
                eq_refl H1) as (w' & Hloop & Htr & Htab & Hh).
    exists w'. split; [exact Hloop |]. rewrite drop_0 in Htr, Htab.
    split; [| split; [exact Htab | exact Hh]].
    rewrite Htr. unfold w1. cbn. rewrite <- app_assoc. reflexivity.
Qed.

Lemma processed_nil (requests : list WriteRequest) : processed [] requests = requests.
Proof.
  unfold processed.
  assert (Hall : forall l : list (nat * WriteRequest),
             filter (fun ir => ir.1 ∉ []) l = l).
  { induction l as [| x l IH]; [reflexivity |].
    rewrite filter_cons_True by apply not_elem_of_nil. rewrite IH. reflexivity. }
  rewrite Hall, fmap_imap.
  rewrite (imap_ext _ (const Datatypes.id)) by reflexivity.
  rewrite imap_const. apply list_fmap_id.
Qed.

Lemma reliable_healthy (w : World) : reliable w -> healthy w.
Proof.
  unfold reliable, healthy. induction 1 as [| o l -> _ IH]; [reflexivity | exact IH].
Qed.

Lemma applied_reliable (batches : list (list WriteRequest)) (outcomes : list DdbOutcome) :
  Forall (fun o => o = Served []) outcomes ->
  applied batches outcomes = concat batches.
Proof.
  revert outcomes. induction batches as [| b rest IH]; intros outcomes H; [reflexivity |].
  cbn [applied concat].
  assert (Hs : next_outcome_skip outcomes = []) by (destruct H as [| ? ? ->]; reflexivity).
  rewrite Hs, processed_nil. f_equal. apply IH.
  destruct H; [constructor | assumption].
Qed.

Lemma foldl_delete_lookup (keys : list (string * string)) (t : Table)
    (k : string * string) :
  foldl apply_request t (requests_of keys) !! k
    = if decide (k ∈ keys) then None else t !! k.
Proof.
  revert t. induction keys as [| k0 keys IH]; intros t.
  - cbn. rewrite decide_False by apply not_elem_of_nil. reflexivity.
  - cbn [requests_of fmap list_fmap foldl apply_request fst snd].
    fold (requests_of keys). rewrite IH.
    destruct k0 as [pk0 sk0].
    destruct (decide (k ∈ keys)) as [Hin | Hnin].
    + rewrite decide_True by (right; exact Hin). reflexivity.
    + destruct (decide (k = (pk0, sk0))) as [-> | Hne].
      * rewrite decide_True by left. apply lookup_delete_eq.
      * rewrite decide_False by (rewrite elem_of_cons; tauto).
        apply lookup_delete_ne. intros E. apply Hne. symmetry. exact E.
Qed.

(** X11.  While the storage service serves every command and leaves no
    delete unprocessed, and the records of the presentation fit the one
    answer of the query, [deletePresentation] removes every record stored
    under the presentation's partition key, the metadata and all slides,
    leaves the records of every other partition as they were, and
    [getPresentation] of the id then answers "not found". *)
Theorem deletePresentation_removes (pid : string) (w : World) :
  reliable w ->
  keyed (table w) ->
  partition_in_one_page w pid ->
  exists w',
    deletePresentation pid w = (Ok tt, w')
    /\ (forall sk, table w' !! (createPK pid, sk) = None)
    /\ (forall k : string * string, k.1 <> createPK pid -> table w' !! k = table w !! k)
    /\ exists w'', getPresentation pid w' = (Ok None, w'').
Proof.
  intros Hr Hk Hfit.
  destruct (deletePresentation_served pid w (reliable_healthy w Hr) Hk)
    as (w' & Hrun & _ & Htab & Hh).
  rewrite applied_reliable, chunks_concat, (answered_keys_whole w pid Hfit) in Htab.
  2:{ unfold reliable in Hr. destruct Hr; [constructor | assumption]. }
  assert (Hgone : forall sk, table w' !! (createPK pid, sk) = None).
  { intros sk. rewrite Htab, foldl_delete_lookup. case_decide as Hin; [reflexivity |].
    destruct (table w !! (createPK pid, sk)) as [item |] eqn:E; [| reflexivity].
    exfalso. apply Hin. unfold partition_keys.
    apply list_elem_of_fmap. exists ((createPK pid, sk), item).
    split; [reflexivity |]. apply query_partition_elem. auto. }
  exists w'. split; [exact Hrun |]. split; [exact Hgone |]. split.
  - intros k Hne. rewrite Htab, foldl_delete_lookup. case_decide as Hin; [| reflexivity].
    exfalso. unfold partition_keys in Hin.
    apply list_elem_of_fmap in Hin as ([k' item] & -> & Hin).
    apply query_partition_elem in Hin as [_ Hpk]. contradiction.
  - rewrite (getPresentation_served pid w' Hh). cbv zeta.
    unfold metadata_key. rewrite Hgone. eexists. reflexivity.
Qed.

Lemma keyed_decide (t : Table) :
  bool_decide (map_Forall (fun k item => item_key item = Some k) t) = true -> keyed t.
Proof. intros H. apply bool_decide_eq_true_1 in H. exact H. Qed.

Lemma deletePresentation_removes_witness :
  let w := Sample.world
             (Sample.table_of (Sample.metadata 1000 None)
                [(0, Sample.slide 0); (1, Sample.slide 1)])
             2000 [] in
  exists w' w'',
    deletePresentation "p1" w = (Ok tt, w')
    /\ table w' !! metadata_key "p1" = None
    /\ getPresentation "p1" w' = (Ok None, w'').
Proof.
  intros w.
  destruct (deletePresentation_removes "p1" w) as (w' & Hrun & Hgone & _ & w'' & Hget).
  - constructor.
  - apply keyed_decide. vm_compute. reflexivity.
  - apply Nat.le_refl.
  - exists w', w''. split; [exact Hrun |]. split; [apply Hgone | exact Hget].
Defined.

(** X12.  [deletePresentation] of an id that has no record at all is a
    silent no-op: when the storage service serves the query, the call returns
    normally after that one query, issues no write, and the table is
    unchanged. *)
Theorem deletePresentation_absent (pid : string) (w : World) :
  accepts_next w ->
  (forall sk, table w !! (createPK pid, sk) = None) ->
  exists w',
    deletePresentation pid w = (Ok tt, w')
    /\ table w' = table w
    /\ trace w' = (trace w ++ [EvQuery (env_or (TABLE_NAME w) "presentations")
                                     (createPK pid) ""])%list.
Proof.
  intros H Hnone.
  assert (Hq : query_items (table w) (createPK pid) "" = []).
  { destruct (query_items (table w) (createPK pid) "") as [| [[pk sk] item] l] eqn:E;
      [reflexivity |].
    assert (Hin : ((pk, sk), item) ∈ query_items (table w) (createPK pid) "")
      by (rewrite E; left).
    apply query_partition_elem in Hin as [Ht Hpk]. cbn in Hpk. subst pk.
    rewrite Hnone in Ht. discriminate. }
  unfold deletePresentation. rewrite logged_run.
  erewrite bind_ok by reflexivity.
  unfold QueryPartitionCommand, QueryCommand.
  erewrite bind_ok by (rewrite send_accepted by exact H; reflexivity).
  rewrite Hq. cbn [fmap list_fmap]. rewrite first_page_nil. cbn [length Nat.eqb].
  eexists. split; [reflexivity |]. split; reflexivity.
Qed.

Lemma deletePresentation_absent_witness :
  let w := Sample.world (Sample.table_of (Sample.metadata 1000 None) []) 2000 [] in
  exists w', deletePresentation "nobody" w = (Ok tt, w') /\ table w' = table w.
Proof.
  intros w.
  destruct (deletePresentation_absent "nobody" w) as (w' & Hrun & Htab & _).
  - reflexivity.
  - intros sk. unfold w, Sample.world, Sample.table_of. cbn [table foldr].
    rewrite lookup_insert_ne by (intros E; vm_compute in E; discriminate).
    apply lookup_empty.
  - exists w'. split; [exact Hrun | exact Htab].
Defined.

Lemma processed_elem (skip : list nat) (requests : list WriteRequest) (r : WriteRequest) :
  (r ∈ processed skip requests) <-> (exists j, (j ∉ skip) /\ requests !! j = Some r).
Proof.
  unfold processed. rewrite list_elem_of_fmap. split.
  - intros ([j r'] & -> & Hin).
    apply list_elem_of_filter in Hin as [Hj Hin].
    apply list_elem_of_lookup in Hin as [i Hin].
    rewrite list_lookup_imap in Hin.
    destruct (requests !! i) as [x |] eqn:E; simpl in Hin; [| discriminate].
    injection Hin as <- <-. exists i. auto.
  - intros (j & Hj & Hr). exists (j, r). split; [reflexivity |].
    apply list_elem_of_filter. split; [exact Hj |].
    apply list_elem_of_lookup. exists j. rewrite list_lookup_imap, Hr. reflexivity.
Qed.

Lemma foldl_deletes_lookup (requests : list WriteRequest) (t : Table)
    (pk sk : string) :
  Forall (fun r => exists k', r = DeleteRequest k'.1 k'.2) requests ->
  (DeleteRequest pk sk ∈ requests -> foldl apply_request t requests !! (pk, sk) = None)
  /\ (DeleteRequest pk sk ∉ requests ->
      foldl apply_request t requests !! (pk, sk) = t !! (pk, sk)).
Proof.
  intros Hall. revert t. induction Hall as [| r l [[pk' sk'] ->] _ IH]; intros t.
  - split; [intros Hin; apply elem_of_nil in Hin; contradiction | reflexivity].
  - cbn [foldl apply_request fst snd]. destruct (IH (delete (pk', sk') t)) as [IH1 IH2].
    assert (Hcl : DeleteRequest pk sk ∈ l \/ DeleteRequest pk sk ∉ l).
    { clear. induction l as [| r l [IH | IH]]; [right; apply not_elem_of_nil | |].
      - left. right. exact IH.
      - destruct r as [item | pk0 sk0];
          [right; rewrite elem_of_cons; intros [E | E]; [discriminate | contradiction] |].
        destruct (decide ((pk0, sk0) = (pk, sk))) as [E | E].
        + left. injection E as -> ->. left.
        + right. rewrite elem_of_cons. intros [E' | E']; [| contradiction].
          injection E' as <- <-. contradiction. }
    split.
    + intros Hin. destruct Hcl as [Hl | Hl]; [apply IH1, Hl |].
      rewrite IH2 by exact Hl.
      apply elem_of_cons in Hin as [E | Hin]; [| contradiction].
      injection E as -> ->. apply lookup_delete_eq.
    + intros Hnin. rewrite elem_of_cons in Hnin.
      rewrite IH2 by tauto. apply lookup_delete_ne.
      intros E. apply Hnin. left. injection E as -> ->. reflexivity.
Qed.

Lemma chunks_short (requests : list WriteRequest) :
  requests <> [] -> (length requests <= 25)%nat -> chunks requests = [requests].
Proof.
  intros Hne Hlen. destruct requests as [| r l]; [contradiction |].
  simp chunks. rewrite take_ge, drop_ge by exact Hlen. simp chunks. reflexivity.
Qed.

(** X13.  [deletePresentation] never retries and never continues its
    query.  While the storage service rejects no command and whatever it
    leaves unprocessed, the call returns normally after one query and one
    batch write per batch of at most 25 of the keys the query answered with,
    with no pause and no second write.  When the answer holds at most 25
    records, those whose deletes the service left unprocessed are still in
    the table afterwards, and the others are gone. *)
Theorem deletePresentation_no_retry (pid : string) (w : World) :
  healthy w ->
  keyed (table w) ->
  let tbl := env_or (TABLE_NAME w) "presentations" in
  let keys := answered_keys w pid in
  let skip := next_outcome_skip (tail (ddb w)) in
  exists w',
    deletePresentation pid w = (Ok tt, w')
    /\ trace w' = (trace w ++ EvQuery tbl (createPK pid) ""
                     :: ((fun b => EvBatchWrite [(tbl, b)])
                           <$> chunks (requests_of keys)))%list
    /\ ((length keys <= 25)%nat ->
        forall (j : nat) (k : string * string),
          keys !! j = Some k ->
          table w' !! k = if decide (j ∈ skip) then table w !! k else None).
Proof.
  intros H Hk tbl keys skip.
  destruct (deletePresentation_served pid w H Hk) as (w' & Hrun & Htr & Htab & _).
  exists w'. split; [exact Hrun |]. split; [exact Htr |].
  intros Hlen j k Hj. fold keys in Htab.
  assert (Hne : requests_of keys <> []).
  { intros E. apply (f_equal length) in E. unfold requests_of in E.
    rewrite length_fmap in E. apply lookup_lt_Some in Hj. cbn in E. lia. }
  rewrite chunks_short in Htab
    by (try exact Hne; unfold requests_of; rewrite length_fmap; exact Hlen).
  cbn [applied] in Htab. rewrite app_nil_r in Htab. fold skip in Htab.
  rewrite Htab.
  destruct k as [pk sk].
  destruct (foldl_deletes_lookup (processed skip (requests_of keys)) (table w) pk sk)
    as [Hdel Hkeep].
  { apply Forall_forall. intros r Hr. apply processed_elem in Hr as (i & _ & Hr).
    unfold requests_of in Hr. rewrite list_lookup_fmap in Hr.
    destruct (keys !! i) as [k' |]; [| discriminate]. injection Hr as <-. eauto. }
  assert (Hnd : NoDup keys) by apply answered_keys_NoDup.
  destruct (decide (j ∈ skip)) as [Hin | Hnin].
  - apply Hkeep.
    intros Hp. apply processed_elem in Hp as (i & Hi & Hr).
    unfold requests_of in Hr. rewrite list_lookup_fmap in Hr.
    destruct (keys !! i) as [k' |] eqn:E; [| discriminate].
    injection Hr as E1 E2.
    assert (k' = (pk, sk)) by (destruct k'; cbn in *; congruence). subst k'.
    assert (i = j) by (eapply NoDup_lookup; eassumption). subst i. contradiction.
  - apply Hdel.
    apply processed_elem. exists j. split; [exact Hnin |].
    unfold requests_of. rewrite list_lookup_fmap, Hj. reflexivity.
Qed.

Lemma deletePresentation_no_retry_witness :
  let w := Sample.world
             (Sample.table_of (Sample.metadata 1000 None)
                [(0, Sample.slide 0); (1, Sample.slide 1)])
             2000 [Served []; Served [1%nat]] in
  exists w',
    deletePresentation "p1" w = (Ok tt, w')
    /\ length (trace w') = 2%nat
    /\ table w' !! metadata_key "p1" = None
    /\ is_Some (table w' !! ("PRESENTATION#p1", "SLIDE#000")).
Proof.
  intros w.
  destruct (deletePresentation_no_retry "p1" w) as (w' & Hrun & Htr & Hleft).
  - reflexivity.
  - apply keyed_decide. vm_compute. reflexivity.
  - exists w'. split; [exact Hrun |].
    split; [rewrite Htr; vm_compute; reflexivity |].
    assert (Hlen : (length (partition_keys (table w) "p1") <= 25)%nat)
      by (vm_compute; lia).
    split.
    + rewrite (Hleft Hlen 0%nat (metadata_key "p1")) by (vm_compute; reflexivity).
      vm_compute. reflexivity.
    + rewrite (Hleft Hlen 1%nat ("PRESENTATION#p1", "SLIDE#000"))
        by (vm_compute; reflexivity).
      vm_compute. eexists. reflexivity.
Defined.

(** ** Stored decks *)

Lemma slide_key_prefix (i : Z) : String.prefix "SLIDE#" (createSK SLIDE (Some i)) = true.
Proof.
  cbn [createSK]. generalize (padStart (String_of_number i) 3 "0"). intros s.
  simpl. destruct s; reflexivity.
Qed.

Lemma slide_key_inj_nat (i j : nat) :
  createSK SLIDE (Some (Z.of_nat i)) = createSK SLIDE (Some (Z.of_nat j)) -> i = j.
Proof. intros E. apply createSK_slide_inj in E; lia. Qed.

#[local] Instance index_le_trans : Transitive index_le.
Proof.
  intros a b c (x & y & Hx & Hy & Hxy) (y' & z & Hy' & Hz & Hyz).
  exists x, z. rewrite Hy in Hy'. injection Hy' as <-.
  split; [exact Hx |]. split; [exact Hz | lia].
Qed.

Lemma Sorted_fmap_seq {A} (R : A -> A -> Prop) (f : nat -> A) (a n : nat) :
  (forall j, (a <= j)%nat -> (S j < a + n)%nat -> R (f j) (f (S j))) ->
  Sorted R (f <$> seq a n).
Proof.
  revert a. induction n as [| n IH]; intros a H; [constructor |].
  cbn [seq fmap list_fmap]. constructor.
  - apply IH. intros j H1 H2. apply H; lia.
  - destruct n as [| n]; cbn; constructor. apply H; lia.
Qed.

Section Deck.
Context (t : Table) (pid : string) (deck : list (option Value)).
Hypothesis Hdeck : stores_deck t pid deck.

#[local] Abbreviation deck_item := (DeckItems.deck_item t pid).

Lemma deck_item_spec (j : nat) (slide : option Value) :
  deck !! j = Some slide ->
  t !! (createPK pid, createSK SLIDE (Some (Z.of_nat j))) = Some (deck_item j)
  /\ index_of (deck_item j) = Some (Z.of_nat j)
  /\ deck_item j !! "slide" = slide.
Proof.
  intros Hj. destruct Hdeck as [H1 _].
  destruct (H1 j slide Hj) as (item & Ht & Hi & Hs).
  unfold DeckItems.deck_item, index_of. rewrite Ht. cbn. rewrite Hi. auto.
Qed.

Lemma deck_records_perm :
  slide_records t pid
  ≡ₚ (fun j => ((createPK pid, createSK SLIDE (Some (Z.of_nat j))), deck_item j))
       <$> seq 0 (length deck).
Proof.
  apply NoDup_Permutation.
  - apply NoDup_filter, NoDup_map_to_list.
  - apply NoDup_fmap_2_strong; [| apply NoDup_seq].
    intros i j _ _ E.
    apply (f_equal (fun x : (string * string) * Item => x.1.2)) in E.
    apply slide_key_inj_nat. exact E.
  - intros [k item]. rewrite slide_records_spec, list_elem_of_fmap. split.
    + intros (Ht & Hpk & Hpre). destruct k as [pk sk]. cbn in Hpk, Hpre. subst pk.
      destruct Hdeck as [_ H2]. destruct (H2 sk item Ht Hpre) as (j & Hj & ->).
      exists j. split; [| apply elem_of_seq; lia].
      unfold DeckItems.deck_item. rewrite Ht. reflexivity.
    + intros (j & E & Hj). apply elem_of_seq in Hj.
      destruct (lookup_lt_is_Some_2 deck j ltac:(lia)) as [slide Hs].
      destruct (deck_item_spec j slide Hs) as (Ht & _ & _).
      pose proof (f_equal fst E) as Ek. pose proof (f_equal snd E) as Ei.
      cbn [fst snd] in Ek, Ei. subst k item.
      split; [exact Ht |]. split; [reflexivity |].
      apply slide_key_prefix.
Qed.

Lemma deck_sorted_items (items : list Item) :
  items ≡ₚ snd <$> slide_records t pid ->
  Js.sort slideIndex_order items = deck_item <$> seq 0 (length deck).
Proof.
  intros Hperm.
  assert (Hall : items ≡ₚ deck_item <$> seq 0 (length deck)).
  { rewrite Hperm, deck_records_perm, <- list_fmap_compose. reflexivity. }
  assert (Hidx : forall x, x ∈ deck_item <$> seq 0 (length deck) ->
                 exists j, x = deck_item j /\ index_of x = Some (Z.of_nat j)).
  { intros x Hx. apply list_elem_of_fmap in Hx as (j & -> & Hj).
    apply elem_of_seq in Hj.
    destruct (lookup_lt_is_Some_2 deck j ltac:(lia)) as [slide Hs].
    destruct (deck_item_spec j slide Hs) as (_ & Hi & _). eauto. }
  apply (Sorted_unique_strong index_le).
  - intros x1 x2 H1 H2 (a & b & Ha & Hb & Hab) (b' & a' & Hb' & Ha' & Hba).
    rewrite sort_perm, Hall in H1.
    destruct (Hidx x1 H1) as (j1 & -> & E1). destruct (Hidx x2 H2) as (j2 & -> & E2).
    rewrite Ha in E1, Ha'. rewrite Hb in E2, Hb'.
    injection E1 as ->. injection E2 as ->. injection Ha' as <-. injection Hb' as <-.
    f_equal. lia.
  - apply (sort_sorted slideIndex_order has_index index_le
             index_order_keep index_order_swap).
    apply Forall_forall. intros x Hx. rewrite Hall in Hx.
    destruct (Hidx x Hx) as (j & _ & E). unfold has_index. rewrite E. eauto.
  - apply Sorted_fmap_seq. intros j _ Hj.
    destruct (lookup_lt_is_Some_2 deck j ltac:(lia)) as [s1 Hs1].
    destruct (lookup_lt_is_Some_2 deck (S j) ltac:(lia)) as [s2 Hs2].
    destruct (deck_item_spec j s1 Hs1) as (_ & Hi1 & _).
    destruct (deck_item_spec (S j) s2 Hs2) as (_ & Hi2 & _).
    exists (Z.of_nat j), (Z.of_nat (S j)). split; [exact Hi1 |]. split; [exact Hi2 | lia].
  - rewrite sort_perm. exact Hall.
Qed.

Lemma deck_slides :
  (fun item : Item => item !! "slide") <$> (deck_item <$> seq 0 (length deck)) = deck.
Proof.
  apply list_eq. intros j. rewrite !list_lookup_fmap.
  destruct (decide (j < length deck)%nat) as [Hlt | Hge].
  - rewrite lookup_seq_lt by exact Hlt. cbn.
    destruct (lookup_lt_is_Some_2 deck j Hlt) as [slide Hs].
    destruct (deck_item_spec j slide Hs) as (_ & _ & Hsl).
    rewrite Hs, Hsl. reflexivity.
  - rewrite lookup_seq_ge by lia. cbn. symmetry. apply lookup_ge_None. lia.
Qed.
End Deck.

(** X14.  While the storage service answers, for a presentation whose
    metadata record exists and whose slide records are exactly those of a
    deck (position [j] stored under the sort key of [j] with
    [slideIndex = j]) and fit the one answer of the query, [getPresentation]
    returns the slides of the deck, in position order, nothing missing and
    nothing added, also for a deck of more than 1000 slides, whose sort keys
    are no longer in position order. *)
Theorem getPresentation_deck (pid : string) (w : World)
    (metadata : Item) (deck : list (option Value)) :
  healthy w ->
  slides_in_one_page w pid ->
  table w !! metadata_key pid = Some metadata ->
  stores_deck (table w) pid deck ->
  exists (p : Presentation) (w' : World),
    getPresentation pid w = (Ok (Some p), w')
    /\ slides p = deck
    /\ id p = metadata !! "id"
    /\ title p = metadata !! "title".
Proof.
  intros H Hfit Hmd Hdeck.
  rewrite (getPresentation_served pid w H). cbv zeta. rewrite Hmd.
  rewrite (first_page_whole w _ Hfit).
  do 2 eexists. split; [reflexivity |]. cbn [slides id title].
  split; [| split; reflexivity].
  rewrite (deck_sorted_items (table w) pid deck Hdeck).
  - apply deck_slides, Hdeck.
  - apply fmap_Permutation, query_items_perm.
Qed.

(** ** [saveSlides] on a stored deck *)

Import DeckItems.

Lemma unprocessed_nil (requests : list WriteRequest) : unprocessed [] requests = [].
Proof.
  unfold unprocessed.
  assert (Hnone : forall l : list (nat * WriteRequest),
             filter (fun ir => ir.1 ∈ []) l = []).
  { induction l as [| x l IH]; [reflexivity |].
    rewrite filter_cons_False by apply not_elem_of_nil. exact IH. }
  rewrite Hnone. reflexivity.
Qed.

Lemma reliable_next (w : World) : reliable w -> next_skip w = [].
Proof.
  unfold reliable, next_skip. intros H. destruct H as [| o l ->]; reflexivity.
Qed.

Lemma reliable_after (ev : Event) (t : Table) (w : World) :
  reliable w -> reliable (with_table t (after ev w)).
Proof.
  unfold reliable. cbn. intros H. destruct H; [constructor | assumption].
Qed.

Lemma saveSlides_loop_reliable (requests : list WriteRequest) :
  Forall (fun r => request_ok r = true) requests ->
  forall (n i : nat) (w : World),
    (length requests - i)%nat = n ->
    reliable w ->
    exists w',
      saveSlides_loop requests i w = (Ok tt, w')
      /\ table w' = foldl apply_request (table w) (drop i requests)
      /\ reliable w'.
Proof.
  intros Hok n.
  induction n as [n IH] using lt_wf_ind.
  intros i w Hn H.
  simp saveSlides_loop.
  destruct (lt_dec i (length requests)) as [Hi | Hi]; simp saveSlides_loop.
  - unfold saveSlides_batch, Js.slice. cbv zeta.
    replace (i + 25 - i)%nat with 25%nat by lia.
    set (batch := take 25 (drop i requests)).
    assert (Hne : batch <> []).
    { intros E. apply (f_equal length) in E. unfold batch in E.
      rewrite length_take, length_drop in E. cbn [length] in E. lia. }
    assert (Hlen : (length batch <= 25)%nat) by (unfold batch; rewrite length_take; lia).
    assert (Hb : Forall (fun r => request_ok r = true) batch)
      by (apply Forall_take, Forall_drop, Hok).
    erewrite bind_ok by reflexivity.
    erewrite bind_ok
      by (apply BatchWriteCommand_accepted;
          [apply healthy_accepts, reliable_healthy, H | exact Hne | exact Hlen | exact Hb]).
    rewrite (reliable_next w H), unprocessed_nil, processed_nil.
    cbn [length Nat.ltb Nat.leb].
    unfold mret, M_ret.
    match goal with
    | |- context [saveSlides_loop _ _ ?x] => set (w1 := x)
    end.
    destruct (IH (length requests - (i + 25))%nat ltac:(lia) (i + 25)%nat w1 eq_refl
                 (reliable_after _ _ w H)) as (w' & Hloop & Htab & Hr).
    exists w'. split; [exact Hloop |]. split; [| exact Hr].
    rewrite Htab. unfold w1. cbn [table with_table].
    transitivity (foldl apply_request (table w)
                    (take 25 (drop i requests) ++ drop 25 (drop i requests))%list);
      [| rewrite take_drop; reflexivity].
    rewrite foldl_app, drop_drop. reflexivity.
  - exists w. split; [reflexivity |]. rewrite drop_ge by lia. split; [reflexivity | exact H].
Qed.

Lemma writeRequests_snoc (pid : string) (slides : list (option Value))
    (slide : option Value) (now : Z) :
  writeRequests pid (slides ++ [slide]) now
    = (writeRequests pid slides now
       ++ [PutRequest (request_item pid (length slides) slide now)])%list.
Proof.
  unfold writeRequests. rewrite imap_app. cbn [imap]. rewrite Nat.add_0_r. reflexivity.
Qed.

Lemma request_item_key (pid : string) (j : nat) (slide : option Value) (now : Z) :
  item_key (request_item pid j slide now)
    = Some (createPK pid, createSK SLIDE (Some (Z.of_nat j))).
Proof.
  unfold item_key, request_item.
  rewrite lookup_insert_eq, lookup_insert_ne by discriminate.
  rewrite lookup_insert_eq. reflexivity.
Qed.

Lemma foldl_puts_lookup (pid : string) (now : Z) (slides : list (option Value))
    (t : Table) :
  (forall j slide,
     slides !! j = Some slide ->
     foldl apply_request t (writeRequests pid slides now)
       !! (createPK pid, createSK SLIDE (Some (Z.of_nat j)))
     = Some (request_item pid j slide now))
  /\ (forall k,
        (forall j, (j < length slides)%nat ->
                   k <> (createPK pid, createSK SLIDE (Some (Z.of_nat j)))) ->
        foldl apply_request t (writeRequests pid slides now) !! k = t !! k).
Proof.
  induction slides as [| s slides [IHa IHb]] using rev_ind.
  - split; [intros j slide Hj; discriminate | reflexivity].
  - rewrite writeRequests_snoc, foldl_app. cbn [foldl apply_request].
    rewrite request_item_key. split.
    + intros j slide Hj.
      destruct (decide (j = length slides)) as [-> | Hne].
      * rewrite lookup_app_r, Nat.sub_diag in Hj by lia. injection Hj as <-.
        apply lookup_insert_eq.
      * assert (Hlt : (j < length slides)%nat).
        { apply lookup_lt_Some in Hj. rewrite length_app in Hj. cbn in Hj. lia. }
        rewrite lookup_app_l in Hj by exact Hlt.
        rewrite lookup_insert_ne; [apply IHa, Hj |].
        intros E. apply (f_equal snd) in E. cbn [snd] in E.
        apply slide_key_inj_nat in E. lia.
    + intros k Hk. rewrite length_app in Hk. cbn [length] in Hk.
      rewrite lookup_insert_ne by (apply not_eq_sym, Hk; lia).
      apply IHb. intros j Hj. apply Hk. lia.
Qed.

Lemma saveSlides_reliable (pid : string) (slides : list (option Value)) (w : World) :
  reliable w ->
  exists w',
    saveSlides pid slides w = (Ok tt, w')
    /\ table w' = foldl apply_request (table w) (writeRequests pid slides (clock w))
    /\ reliable w'.
Proof.
  intros H. unfold saveSlides. rewrite logged_run.
  erewrite bind_ok by reflexivity.
  destruct (saveSlides_loop_reliable (writeRequests pid slides (clock w))
              (writeRequests_ok pid slides (clock w)) _ 0%nat w eq_refl H)
    as (w' & Hrun & Htab & Hr).
  exists w'. rewrite drop_0 in Htab. auto.
Qed.

Lemma request_item_attrs (pid : string) (j : nat) (slide : option Value) (now : Z) :
  request_item pid j slide now !! "slideIndex" = Some (VNum (Z.of_nat j))
  /\ request_item pid j slide now !! "slide" = slide.
Proof.
  unfold request_item. split.
  - attr_ne. apply lookup_insert_eq.
  - attr_ne. apply lookup_set_attr_eq. attr_ne. apply lookup_empty.
Qed.

Lemma metadata_not_slide_key (pid : string) (j : nat) :
  metadata_key pid <> (createPK pid, createSK SLIDE (Some (Z.of_nat j))).
Proof.
  intros E. apply (f_equal snd) in E. cbn [snd metadata_key] in E.
  pose proof (slide_key_prefix (Z.of_nat j)) as Hp. rewrite <- E in Hp. discriminate.
Qed.

Lemma puts_store_deck (pid : string) (now : Z) (t : Table)
    (old new : list (option Value)) :
  stores_deck t pid old ->
  stores_deck (foldl apply_request t (writeRequests pid new now)) pid
              (new ++ drop (length new) old).
Proof.
  intros [H1 H2].
  destruct (foldl_puts_lookup pid now new t) as [Ha Hb].
  split.
  - intros j slide Hj.
    destruct (decide (j < length new)%nat) as [Hlt | Hge].
    + rewrite lookup_app_l in Hj by exact Hlt.
      exists (request_item pid j slide now).
      split; [apply Ha, Hj | apply request_item_attrs].
    + rewrite lookup_app_r, lookup_drop in Hj by lia.
      replace (length new + (j - length new))%nat with j in Hj by lia.
      destruct (H1 j slide Hj) as (item & Ht & Hi & Hs).
      exists item. split; [| auto].
      rewrite Hb; [exact Ht |].
      intros i Hi' E. apply (f_equal snd) in E. cbn [snd] in E.
      apply slide_key_inj_nat in E. lia.
  - intros sk item Ht Hpre. rewrite length_app, length_drop.
    destruct (decide (sk ∈ (fun j => createSK SLIDE (Some (Z.of_nat j)))
                            <$> seq 0 (length new))) as [Hin | Hnin].
    + apply list_elem_of_fmap in Hin as (j & -> & Hj). apply elem_of_seq in Hj.
      exists j. split; [lia | reflexivity].
    + rewrite Hb in Ht.
      * destruct (H2 sk item Ht Hpre) as (j & Hj & ->).
        exists j. split; [| reflexivity].
        destruct (decide (j < length new)%nat) as [Hlt | Hge]; [| lia].
        exfalso. apply Hnin, list_elem_of_fmap. exists j.
        split; [reflexivity | apply elem_of_seq; lia].
      * intros j Hj E. apply Hnin, list_elem_of_fmap. exists j.
        split; [injection E as ->; reflexivity | apply elem_of_seq; lia].
Qed.

(** X15.  While the storage service serves every command and leaves no
    write unprocessed, [saveSlides] of the array [new] on a presentation that
    holds the deck [old] leaves the deck [new] followed by the positions of
    [old] from [length new] on: the first [length new] positions are replaced,
    nothing is deleted, and the metadata record is untouched.  When the slide
    records then fit the one answer of the query, [getPresentation] returns
    exactly that list, so it returns [new] when [old] was not longer, and
    after saving a shorter array it still returns the old slides of the
    dropped positions. *)
Theorem saveSlides_replaces_prefix (pid : string) (w : World) (metadata : Item)
    (old new : list (option Value)) :
  reliable w ->
  table w !! metadata_key pid = Some metadata ->
  stores_deck (table w) pid old ->
  exists w' : World,
    saveSlides pid new w = (Ok tt, w')
    /\ stores_deck (table w') pid (new ++ drop (length new) old)
    /\ table w' !! metadata_key pid = Some metadata
    /\ (slides_in_one_page w' pid ->
        exists (w'' : World) (p : Presentation),
          getPresentation pid w' = (Ok (Some p), w'')
          /\ slides p = (new ++ drop (length new) old)%list
          /\ ((length old <= length new)%nat -> slides p = new)).
Proof.
  intros H Hmd Hdeck.
  destruct (saveSlides_reliable pid new w H) as (w' & Hrun & Htab & Hr).
  assert (Hdeck' : stores_deck (table w') pid (new ++ drop (length new) old)).
  { rewrite Htab. apply puts_store_deck, Hdeck. }
  assert (Hmd' : table w' !! metadata_key pid = Some metadata).
  { rewrite Htab.
    destruct (foldl_puts_lookup pid (clock w) new (table w)) as [_ Hb].
    rewrite Hb; [exact Hmd |]. intros j _. apply metadata_not_slide_key. }
  exists w'. split; [exact Hrun |]. split; [exact Hdeck' |].
  split; [exact Hmd' |]. intros Hfit.
  pose proof (reliable_healthy w' Hr) as Hh.
  pose proof (getPresentation_served pid w' Hh) as Hget. cbv zeta in Hget.
  rewrite Hmd', (first_page_whole w' _ Hfit) in Hget.
  rewrite (deck_sorted_items (table w') pid _ Hdeck') in Hget
    by (apply fmap_Permutation, query_items_perm).
  rewrite (deck_slides (table w') pid _ Hdeck') in Hget.
  do 2 eexists. split; [exact Hget |].
  cbn [slides]. split; [reflexivity |].
  intros Hlen. rewrite drop_ge by exact Hlen. apply app_nil_r.
Qed.

Lemma stores_deck_saved (pid : string) (now : Z) (t : Table) (deck : list (option Value)) :
  (forall sk item, t !! (createPK pid, sk) = Some item ->
                   String.prefix "SLIDE#" sk = false) ->
  stores_deck (foldl apply_request t (writeRequests pid deck now)) pid deck.
Proof.
  intros Hfresh.
  assert (H0 : stores_deck t pid []).
  { split.
    - intros j slide Hj. rewrite lookup_nil in Hj. discriminate.
    - intros sk item Ht Hpre. rewrite (Hfresh sk item Ht) in Hpre. discriminate. }
  pose proof (puts_store_deck pid now t [] deck H0) as H.
  rewrite drop_nil, app_nil_r in H. exact H.
Qed.

Lemma metadata_only_fresh (pid : string) (md : Item) (sk : string) (item : Item) :
  ({[ metadata_key pid := md ]} : Table) !! (createPK pid, sk) = Some item ->
  String.prefix "SLIDE#" sk = false.
Proof.
  intros H. apply lookup_singleton_Some in H as [E _].
  apply (f_equal snd) in E. cbn [snd metadata_key] in E. subst sk. reflexivity.
Qed.

Lemma getPresentation_deck_witness :
  let deck := [Some (Sample.slide 0); Some (Sample.slide 1); None] in
  let t := foldl apply_request
             ({[ metadata_key "p1" := Sample.metadata 1000 None ]} : Table)
             (writeRequests "p1" deck 1000) in
  let w := Sample.world t 2000 [Served [1%nat]] in
  exists (p : Presentation) (w' : World),
    getPresentation "p1" w = (Ok (Some p), w')
    /\ slides p = deck
    /\ id p = Some (VStr "p1")
    /\ title p = Some (VStr "Q4 Review").
Proof.
  intros deck t w.
  destruct (getPresentation_deck "p1" w (Sample.metadata 1000 None) deck)
    as (p & w' & Hrun & Hs & Hid & Ht).
  - reflexivity.
  - apply Nat.le_refl.
  - vm_compute. reflexivity.
  - apply stores_deck_saved. apply metadata_only_fresh.
  - exists p, w'. split; [exact Hrun |]. split; [exact Hs |].
    split; [rewrite Hid | rewrite Ht]; vm_compute; reflexivity.
Defined.

Lemma saveSlides_replaces_prefix_witness :
  let old := [Some (Sample.slide 0); Some (Sample.slide 1); Some (Sample.slide 2)] in
  let new := [Some (Sample.slide 7)] in
  let t := foldl apply_request
             ({[ metadata_key "p1" := Sample.metadata 1000 None ]} : Table)
             (writeRequests "p1" old 1000) in
  let w := Sample.world t 2000 [Served []] in
  exists (w' w'' : World) (p : Presentation),
    saveSlides "p1" new w = (Ok tt, w')
    /\ slides_in_one_page w' "p1"
    /\ getPresentation "p1" w' = (Ok (Some p), w'')
    /\ slides p = [Some (Sample.slide 7); Some (Sample.slide 1); Some (Sample.slide 2)].
Proof.
  intros old new t w.
  destruct (saveSlides_replaces_prefix "p1" w (Sample.metadata 1000 None) old new)
    as (w' & Hrun & _ & _ & Hread).
  - repeat constructor.
  - vm_compute. reflexivity.
  - apply stores_deck_saved. apply metadata_only_fresh.
  - assert (Hfit : slides_in_one_page w' "p1").
    { replace w' with (saveSlides "p1" new w).2 by (rewrite Hrun; reflexivity).
      unfold slides_in_one_page, fits_page.
      replace (page (saveSlides "p1" new w).2) with (@length Item)
        by (vm_compute; reflexivity).
      apply Nat.le_refl. }
    destruct (Hread Hfit) as (w'' & p & Hget & Hs & _).
    exists w', w'', p. split; [exact Hrun |]. split; [exact Hfit |].
    split; [exact Hget | exact Hs].
Defined.

(** ** [saveSlide] on a stored deck *)

Lemma slide_item_request (pid : string) (j : nat) (slide : option Value) (now : Z) :
  slide_item pid (Z.of_nat j) slide now = request_item pid j slide now.
Proof.
  unfold slide_item, request_item.
  rewrite <- !insert_union_r, (right_id ∅ (∪)); [reflexivity | |];
    attr_ne; apply lookup_empty.
Qed.

(** The deck after writing [slide] at position [i]: replaced when the
    position exists, appended when [i] is the length. *)
Lemma lookup_put_eq (i : nat) (slide : option Value) (deck : list (option Value)) :
  (i <= length deck)%nat ->
  (take i deck ++ slide :: drop (S i) deck)%list !! i = Some slide.
Proof.
  intros Hi. rewrite lookup_app_r by (rewrite length_take; lia).
  rewrite length_take. replace (i - i `min` length deck)%nat with 0%nat by lia.
  reflexivity.
Qed.

Lemma lookup_put_ne (i j : nat) (slide : option Value) (deck : list (option Value)) :
  (i <= length deck)%nat -> j <> i ->
  (take i deck ++ slide :: drop (S i) deck)%list !! j = deck !! j.
Proof.
  intros Hi Hne. destruct (decide (j < i)%nat) as [Hlt | Hge].
  - rewrite lookup_app_l by (rewrite length_take; lia).
    apply lookup_take_lt, Hlt.
  - rewrite lookup_app_r by (rewrite length_take; lia).
    rewrite length_take. replace (j - i `min` length deck)%nat with (S (j - S i)) by lia.
    rewrite lookup_cons_ne_0, lookup_drop by lia. f_equal. lia.
Qed.

Lemma saveSlide_accepted (pid : string) (i : nat) (slide : option Value) (w : World) :
  accepts_next w ->
  saveSlide pid (Z.of_nat i) slide w =
    (Ok tt,
     with_table
       (<[(createPK pid, createSK SLIDE (Some (Z.of_nat i)))
          := request_item pid i slide (clock w)]> (table w))
       (after (EvPut (env_or (TABLE_NAME w) "presentations")
                     (request_item pid i slide (clock w))) w)).
Proof.
  intros H. unfold saveSlide. rewrite logged_run.
  erewrite bind_ok by reflexivity.
  erewrite bind_ok by reflexivity.
  unfold PutCommand. rewrite send_accepted by exact H.
  rewrite slide_item_request, request_item_key. reflexivity.
Qed.

(** X16.  When the storage service serves the write, [saveSlide] at a
    position [i] not beyond the end of the stored deck replaces position [i]
    (or appends, when [i] is the length of the deck) and leaves every other
    record of the table as it was: the stored deck becomes
    [take i deck ++ slide :: drop (i + 1) deck]. *)
Theorem saveSlide_on_deck (pid : string) (i : nat) (slide : option Value)
    (w : World) (deck : list (option Value)) :
  accepts_next w ->
  stores_deck (table w) pid deck ->
  (i <= length deck)%nat ->
  exists w',
    saveSlide pid (Z.of_nat i) slide w = (Ok tt, w')
    /\ stores_deck (table w') pid (take i deck ++ slide :: drop (S i) deck)%list
    /\ (forall k, k <> (createPK pid, createSK SLIDE (Some (Z.of_nat i))) ->
                  table w' !! k = table w !! k).
Proof.
  intros H [H1 H2] Hi. eexists. split; [apply saveSlide_accepted, H |].
  cbn [table with_table]. split; [split |].
  - intros j s Hj. destruct (decide (j = i)) as [-> | Hne].
    + rewrite lookup_put_eq in Hj by exact Hi. injection Hj as <-.
      exists (request_item pid i slide (clock w)).
      split; [apply lookup_insert_eq | apply request_item_attrs].
    + rewrite lookup_put_ne in Hj by assumption.
      destruct (H1 j s Hj) as (item & Ht & Hattrs).
      exists item. split; [| exact Hattrs].
      rewrite lookup_insert_ne; [exact Ht |].
      intros E. apply (f_equal snd) in E. cbn [snd] in E.
      apply slide_key_inj_nat in E. congruence.
  - intros sk item Ht Hpre.
    assert (Hlen : (i < length (take i deck ++ slide :: drop (S i) deck)%list)%nat
                   /\ (length deck <= length (take i deck ++ slide :: drop (S i) deck)%list)%nat).
    { rewrite length_app, length_take. cbn [length]. rewrite length_drop. lia. }
    destruct (decide (sk = createSK SLIDE (Some (Z.of_nat i)))) as [-> | Hne].
    + exists i. split; [apply Hlen | reflexivity].
    + rewrite lookup_insert_ne in Ht by congruence.
      destruct (H2 sk item Ht Hpre) as (j & Hj & ->).
      exists j. split; [lia | reflexivity].
  - intros k Hk. apply lookup_insert_ne. congruence.
Qed.

Lemma saveSlide_on_deck_witness :
  let deck := [Some (Sample.slide 0); Some (Sample.slide 1)] in
  let t := foldl apply_request
             ({[ metadata_key "p1" := Sample.metadata 1000 None ]} : Table)
             (writeRequests "p1" deck 1000) in
  let w := Sample.world t 2000 [Served []] in
  exists w',
    saveSlide "p1" 2 (Some (Sample.slide 9)) w = (Ok tt, w')
    /\ stores_deck (table w') "p1"
         [Some (Sample.slide 0); Some (Sample.slide 1); Some (Sample.slide 9)]
    /\ table w' !! metadata_key "p1" = Some (Sample.metadata 1000 None).
Proof.
  intros deck t w.
  destruct (saveSlide_on_deck "p1" 2 (Some (Sample.slide 9)) w deck)
    as (w' & Hrun & Hdeck & Hframe).
  - reflexivity.
  - apply stores_deck_saved. apply metadata_only_fresh.
  - cbn. lia.
  - exists w'. split; [exact Hrun |]. split; [exact Hdeck |].
    rewrite Hframe by (apply metadata_not_slide_key). vm_compute. reflexivity.
Defined.

(** ** The worker on a job that succeeds *)

Lemma stores_deck_metadata_update (t : Table) (pid : string) (item : Item)
    (deck : list (option Value)) :
  stores_deck t pid deck -> stores_deck (<[metadata_key pid := item]> t) pid deck.
Proof.
  intros [H1 H2]. split.
  - intros j slide Hj. destruct (H1 j slide Hj) as (it & Ht & Hattrs).
    exists it. split; [| exact Hattrs].
    rewrite lookup_insert_ne by apply metadata_not_slide_key. exact Ht.
  - intros sk it Ht Hpre. apply (H2 sk it); [| exact Hpre].
    rewrite lookup_insert_ne in Ht; [exact Ht |].
    intros E. apply (f_equal snd) in E. cbn [snd metadata_key] in E.
    subst sk. discriminate.
Qed.

Lemma generate_and_persist_reliable (message : GeneratePresentationMessage)
    (p : Presentation) (w : World) :
  openai w (msg_title message) (msg_description message) = inr p ->
  reliable w ->
  let pid := presentationId message in
  let w1 := emit (EvGenerate (msg_title message) (msg_description message)) w in
  exists w2,
    saveSlides pid (slides p) w1 = (Ok tt, w2)
    /\ table w2 = foldl apply_request (table w) (writeRequests pid (slides p) (clock w))
    /\ generate_and_persist message w =
         (Ok tt,
          Notification.notified (connectionId message)
            {| ws_type := presentation_completed;
               ws_presentationId := Some pid;
               ws_error := None |}
            (with_table
               (<[metadata_key pid :=
                    StatusUpdate.result completed None (clock w2) pid
                      (table w2 !! metadata_key pid)]> (table w2))
               (after (EvUpdate (env_or (TABLE_NAME w2) "presentations")
                                (createPK pid) "METADATA"
                                (StatusUpdate.sets completed None (clock w2))) w2))).
Proof.
  intros Hgen Hr pid w1.
  destruct (saveSlides_reliable pid (slides p) w1 Hr) as (w2 & Hrun & Htab & Hr2).
  exists w2. split; [exact Hrun |]. split; [exact Htab |].
  unfold generate_and_persist.
  erewrite bind_ok
    by (unfold generatePresentation; cbv zeta;
        change (openai (emit _ w)) with (openai w); rewrite Hgen; reflexivity).
  cbv zeta. cbn [slides].
  erewrite bind_ok by exact Hrun.
  erewrite bind_ok
    by (apply updatePresentationStatus_accepted, healthy_accepts, reliable_healthy, Hr2).
  apply notify_if_connected_run.
Qed.

(** X17.  A job that succeeds.  When the body parses, the generation
    returns a presentation and the storage service serves every command with
    nothing left unprocessed, [processMessage] returns normally; the slides
    of the generated presentation are stored under the job's presentation id
    (followed by whatever positions an older, longer deck had beyond them);
    the metadata record has status ["completed"], its [errorMessage], if a
    previous attempt had left one, is still there, and its other attributes
    are untouched; the last commands are the status update and then the
    notification, when a connection id came with the job and an endpoint is
    configured. *)
Theorem processMessage_success
    (JSON_parse : string -> Exn + GeneratePresentationMessage)
    (record : SQSRecord) (message : GeneratePresentationMessage)
    (p : Presentation) (metadata : Item) (old : list (option Value)) (w : World) :
  JSON_parse (body record) = inr message ->
  openai w (msg_title message) (msg_description message) = inr p ->
  reliable w ->
  table w !! metadata_key (presentationId message) = Some metadata ->
  stores_deck (table w) (presentationId message) old ->
  exists (w2 w' : World) (new : Item),
    processMessage JSON_parse record w = (Ok tt, w')
    /\ saveSlides (presentationId message) (slides p)
         (emit (EvGenerate (msg_title message) (msg_description message)) w)
       = (Ok tt, w2)
    /\ stores_deck (table w') (presentationId message)
         (slides p ++ drop (length (slides p)) old)
    /\ table w' !! metadata_key (presentationId message) = Some new
    /\ new !! "status" = Some (VStr "completed")
    /\ new !! "errorMessage" = metadata !! "errorMessage"
    /\ (forall a, a <> "status" -> a <> "updatedAt" -> new !! a = metadata !! a)
    /\ trace w' =
         (trace w2 ++
            EvUpdate (env_or (TABLE_NAME w2) "presentations")
                     (createPK (presentationId message)) "METADATA"
                     [("status", VStr "completed"); ("updatedAt", VNum (clock w2))]
            :: Notification.posts (connectionId message)
                 {| ws_type := presentation_completed;
                    ws_presentationId := Some (presentationId message);
                    ws_error := None |} w2)%list.
Proof.
  intros Hp Hgen Hr Hmd Hdeck.
  destruct (generate_and_persist_reliable message p w Hgen Hr)
    as (w2 & Hsave & Htab & Hrun).
  assert (Hmd2 : table w2 !! metadata_key (presentationId message) = Some metadata).
  { rewrite Htab.
    destruct (foldl_puts_lookup (presentationId message) (clock w) (slides p) (table w))
      as [_ Hb].
    rewrite Hb; [exact Hmd |]. intros j _. apply metadata_not_slide_key. }
  rewrite (processMessage_parsed _ _ _ _ Hp). unfold try_catch. rewrite Hrun.
  exists w2. do 2 eexists. split; [reflexivity |]. split; [exact Hsave |].
  rewrite notified_table. cbn [table with_table].
  split; [apply stores_deck_metadata_update; rewrite Htab;
          apply puts_store_deck, Hdeck |].
  split; [apply lookup_insert_eq |]. rewrite Hmd2.
  split; [apply (status_result_status completed) |].
  split; [apply (status_result_errorMessage completed None) |].
  split.
  - intros a Ha1 Ha2. destruct (decide (a = "errorMessage")) as [-> | Ha3].
    + apply (status_result_errorMessage completed None).
    + apply status_result_other; assumption.
  - rewrite notified_trace. cbn [trace with_table after with_ddb emit].
    rewrite <- app_assoc. reflexivity.
Qed.

Lemma processMessage_success_witness :
  let generated :=
    {| id := Some (VStr "generated"); title := Some (VStr "Q4 Review");
       description := None; theme := Some Sample.theme;
       slides := [Some (Sample.slide 0); Some (Sample.slide 1)] |} in
  let w :=
    {| table := {[ metadata_key "p1" := Sample.metadata 1000 (Some "timeout") ]};
       clock := 2000; ddb := []; openai := fun _ _ => inr generated;
       gateway := [Some (JsError "GoneException")]; TABLE_NAME := None;
       WEBSOCKET_API_ENDPOINT := Some "https://ws.example.com"; trace := [];
       page := length |} in
  exists (w' : World) (new : Item),
    processMessage Sample.parse Sample.record w = (Ok tt, w')
    /\ stores_deck (table w') "p1" [Some (Sample.slide 0); Some (Sample.slide 1)]
    /\ table w' !! metadata_key "p1" = Some new
    /\ new !! "status" = Some (VStr "completed")
    /\ new !! "errorMessage" = Some (VStr "timeout").
Proof.
  intros generated w.
  destruct (processMessage_success Sample.parse Sample.record Sample.message
              generated (Sample.metadata 1000 (Some "timeout")) [] w)
    as (w2 & w' & new & Hrun & _ & Hdeck & Hnew & Hst & Hem & _).
  - reflexivity.
  - reflexivity.
  - constructor.
  - vm_compute. reflexivity.
  - split.
    + intros j slide Hj. rewrite lookup_nil in Hj. discriminate.
    + intros sk item Ht Hpre.
      rewrite (metadata_only_fresh "p1" _ sk item Ht) in Hpre. discriminate.
  - exists w', new. split; [exact Hrun |]. split; [exact Hdeck |].
    split; [exact Hnew |]. split; [exact Hst |].
    rewrite Hem. vm_compute. reflexivity.
Defined.

(** ** The queue handler *)

Lemma handler_app (JSON_parse : string -> Exn + GeneratePresentationMessage)
    (done rest : list SQSRecord) (w w1 : World) :
  handler JSON_parse done w = (Ok tt, w1) ->
  handler JSON_parse (done ++ rest) w = handler JSON_parse rest w1.
Proof.
  revert w. induction done as [| r done IH]; intros w H.
  - cbn in H. injection H as <-. reflexivity.
  - cbn [app handler] in *.
    unfold mbind, M_bind in *. unfold try_catch in *.
    destruct (processMessage JSON_parse r w) as [[[] | e] w0]; [| discriminate].
    apply IH, H.
Qed.

(** X18.  The queue handler takes the records in order and stops at the
    first one whose processing raises: the exception that leaves the handler
    is that record's, the world is the one that record left, and the records
    after it are not touched (no command is issued for them). *)
Theorem handler_stops_at_first_failure
    (JSON_parse : string -> Exn + GeneratePresentationMessage)
    (done rest : list SQSRecord) (record : SQSRecord) (error : Exn)
    (w w1 w2 : World) :
  handler JSON_parse done w = (Ok tt, w1) ->
  processMessage JSON_parse record w1 = (Throw error, w2) ->
  handler JSON_parse (done ++ record :: rest) w = (Throw error, w2).
Proof.
  intros Hdone Hrun. rewrite (handler_app _ _ _ _ _ Hdone).
  cbn [handler]. unfold mbind, M_bind, try_catch. rewrite Hrun. reflexivity.
Qed.

Lemma handler_stops_at_first_failure_witness :
  let w := Sample.world (Sample.table_of (Sample.metadata 1000 None) []) 2000 [] in
  exists w2,
    handler Sample.parse [Sample.record; Sample.record] w
      = (Throw (JsError "No response from OpenAI"), w2)
    /\ length (trace w2) = 2%nat.
Proof.
  intros w.
  exists (snd (processMessage Sample.parse Sample.record w)).
  split.
  - apply (handler_stops_at_first_failure Sample.parse [] [Sample.record]
             Sample.record (JsError "No response from OpenAI") w w).
    + reflexivity.
    + vm_compute. reflexivity.
  - vm_compute. reflexivity.
Defined.

(** X19.  A record whose body does not parse makes the worker raise the
    parser's exception before anything else happens: no generation, no
    storage command, no notification.  In particular the status of the
    presentation is not set to ["failed"]: the table is unchanged. *)
Theorem processMessage_unparsable
    (JSON_parse : string -> Exn + GeneratePresentationMessage)
    (record : SQSRecord) (rest : list SQSRecord) (error : Exn) (w : World) :
  JSON_parse (body record) = inl error ->
  processMessage JSON_parse record w = (Throw error, w)
  /\ handler JSON_parse (record :: rest) w = (Throw error, w).
Proof.
  intros Hp.
  assert (H : processMessage JSON_parse record w = (Throw error, w)).
  { unfold processMessage, parse_body. rewrite Hp. reflexivity. }
  split; [exact H |].
  cbn [handler]. unfold mbind, M_bind, try_catch. rewrite H. reflexivity.
Qed.

Lemma processMessage_unparsable_witness :
  let parse := fun _ : string =>
                 inl (JsError "Unexpected token j in JSON at position 0")
                 : Exn + GeneratePresentationMessage in
  let w := Sample.world (Sample.table_of (Sample.metadata 1000 None) []) 2000 [] in
  handler parse [Sample.record; Sample.record] w
    = (Throw (JsError "Unexpected token j in JSON at position 0"), w).
Proof.
  intros parse w.
  apply (processMessage_unparsable parse Sample.record [Sample.record]). reflexivity.
Defined.

(** ** [GET /presentations/{id}] *)

Lemma send_readonly {A} (ev : Event)
    (serve : list nat -> Table -> Outcome A * Table) (w : World) :
  (forall skip t, (serve skip t).2 = t) ->
  table (send ev serve w).2 = table w.
Proof.
  intros Hserve. unfold send. cbv zeta.
  change (ddb (emit ev w)) with (ddb w).
  destruct (next_outcome (ddb w)) as [[skip | e] rest]; [| reflexivity].
  change (table (emit ev w)) with (table w).
  specialize (Hserve skip (table w)).
  destruct (serve skip (table w)) as [r t]. cbn in *. exact Hserve.
Qed.

Lemma bind_readonly {A B} (m : M A) (f : A -> M B) (w : World) :
  table (m w).2 = table w ->
  (forall a w1, table (f a w1).2 = table w1) ->
  table ((m ≫= f) w).2 = table w.
Proof.
  intros Hm Hf. unfold mbind, M_bind.
  destruct (m w) as [[a | e] w1]; cbn in *; [| exact Hm].
  rewrite Hf. exact Hm.
Qed.

Lemma getPresentation_readonly (pid : string) (w : World) :
  table (getPresentation pid w).2 = table w.
Proof.
  unfold getPresentation. rewrite logged_run.
  apply bind_readonly; [reflexivity |]. intros tbl w1.
  apply bind_readonly; [apply send_readonly; reflexivity |].
  intros [metadata |] w2; [| reflexivity].
  apply bind_readonly; [reflexivity |]. intros tbl' w3.
  apply bind_readonly; [apply send_readonly; reflexivity |].
  intros items w4. reflexivity.
Qed.

Lemma handler_with_id (event : GetPresentation.APIGatewayProxyEventV2)
    (pid : string) (w : World) :
  GetPresentation.path_id event = Some pid -> pid <> "" ->
  GetPresentation.handler event w =
    match getPresentation pid w with
    | (Ok None, w') => (Ok (GetPresentation.notOk404 "Presentation not found"), w')
    | (Ok (Some p), w') => (Ok (GetPresentation.ok p), w')
    | (Throw e, w') => (Ok (GetPresentation.notOk500 (GetPresentation.as_Error e)), w')
    end.
Proof.
  intros Hid Hne. unfold GetPresentation.handler, GetPresentation.path_id in *.
  cbv zeta. rewrite Hid. cbn [truthy].
  destruct (String.eqb_spec pid "") as [-> | _]; [contradiction |]. cbn [negb].
  unfold try_catch, mbind, M_bind.
  destruct (getPresentation pid w) as [[[p |] | e] w']; reflexivity.
Qed.

(** X20.  [GET /presentations/{id}] without a usable id (no path
    parameters, no [id] among them, or the empty string) answers
    [notOk400("Presentation ID is required")] and issues no storage command:
    the world is unchanged. *)
Theorem get_presentation_missing_id (event : GetPresentation.APIGatewayProxyEventV2)
    (w : World) :
  GetPresentation.path_id event = None \/ GetPresentation.path_id event = Some "" ->
  GetPresentation.handler event w
    = (Ok (GetPresentation.notOk400 "Presentation ID is required"), w).
Proof.
  unfold GetPresentation.handler, GetPresentation.path_id. cbv zeta.
  intros [-> | ->]; reflexivity.
Qed.

Lemma get_presentation_missing_id_witness :
  GetPresentation.handler
    {| GetPresentation.pathParameters := Some {[ "slug" := "p1" ]} |}
    (Sample.world ∅ 2000 [])
  = (Ok (GetPresentation.notOk400 "Presentation ID is required"),
     Sample.world ∅ 2000 []).
Proof.
  apply get_presentation_missing_id. left. vm_compute. reflexivity.
Defined.

(** X21.  [GET /presentations/{id}] never raises and never writes: whatever
    the request and whatever the storage service does, the handler returns a
    response, and the table is the one it started with. *)
Theorem get_presentation_total (event : GetPresentation.APIGatewayProxyEventV2)
    (w : World) :
  exists (r : GetPresentation.Response) (w' : World),
    GetPresentation.handler event w = (Ok r, w') /\ table w' = table w.
Proof.
  destruct (GetPresentation.path_id event) as [pid |] eqn:Hid.
  - destruct (decide (pid = "")) as [-> | Hne].
    + do 2 eexists. split; [| reflexivity].
      unfold GetPresentation.handler. cbv zeta.
      unfold GetPresentation.path_id in Hid. rewrite Hid. reflexivity.
    + rewrite (handler_with_id event pid w Hid Hne).
      pose proof (getPresentation_readonly pid w) as Hro.
      destruct (getPresentation pid w) as [[[p |] | e] w']; cbn in Hro;
        do 2 eexists; (split; [reflexivity | exact Hro]).
  - do 2 eexists. split; [| reflexivity].
    unfold GetPresentation.handler. cbv zeta.
    unfold GetPresentation.path_id in Hid. rewrite Hid. reflexivity.
Qed.

(** X22.  [GET /presentations/{id}] for an id with no metadata record
    answers [notOk404("Presentation not found")] after the one lookup of the
    metadata record, when the storage service serves it; slide records left
    under the id are not looked at. *)
Theorem get_presentation_not_found (event : GetPresentation.APIGatewayProxyEventV2)
    (pid : string) (w : World) :
  GetPresentation.path_id event = Some pid -> pid <> "" ->
  accepts_next w ->
  table w !! metadata_key pid = None ->
  GetPresentation.handler event w
    = (Ok (GetPresentation.notOk404 "Presentation not found"),
       after (EvGet (env_or (TABLE_NAME w) "presentations")
                    (createPK pid) "METADATA") w).
Proof.
  intros Hid Hne H Hnone. rewrite (handler_with_id event pid w Hid Hne).
  unfold getPresentation. rewrite logged_run.
  erewrite bind_ok by reflexivity.
  erewrite bind_ok by (apply GetCommand_accepted, H).
  cbn [createSK]. unfold metadata_key in Hnone. rewrite Hnone. reflexivity.
Qed.

Lemma get_presentation_not_found_witness :
  let w := Sample.world (Sample.table_of (Sample.metadata 1000 None) []) 2000 [] in
  exists w',
    GetPresentation.handler
      {| GetPresentation.pathParameters := Some {[ "id" := "p2" ]} |} w
    = (Ok (GetPresentation.notOk404 "Presentation not found"), w')
    /\ length (trace w') = 1%nat.
Proof.
  intros w. eexists. split.
  - apply (get_presentation_not_found _ "p2").
    + vm_compute. reflexivity.
    + discriminate.
    + reflexivity.
    + vm_compute. reflexivity.
  - reflexivity.
Defined.

(** X23.  [GET /presentations/{id}] for a presentation whose metadata
    record exists and whose slide records are those of a deck and fit the
    one answer of the query answers [ok(presentation)] with the slides of
    the deck in position order and the id, title, description and theme of
    the metadata record, while the storage service answers. *)
Theorem get_presentation_found (event : GetPresentation.APIGatewayProxyEventV2)
    (pid : string) (w : World) (metadata : Item) (deck : list (option Value)) :
  GetPresentation.path_id event = Some pid -> pid <> "" ->
  healthy w ->
  slides_in_one_page w pid ->
  table w !! metadata_key pid = Some metadata ->
  stores_deck (table w) pid deck ->
  exists w',
    GetPresentation.handler event w
    = (Ok (GetPresentation.ok
             {| id := metadata !! "id";
                title := metadata !! "title";
                description := metadata !! "description";
                theme := metadata !! "theme";
                slides := deck |}), w').
Proof.
  intros Hid Hne H Hfit Hmd Hdeck. rewrite (handler_with_id event pid w Hid Hne).
  rewrite (getPresentation_served pid w H). cbv zeta. rewrite Hmd.
  rewrite (first_page_whole w _ Hfit).
  rewrite (deck_sorted_items (table w) pid deck Hdeck)
    by (apply fmap_Permutation, query_items_perm).
  rewrite (deck_slides (table w) pid deck Hdeck).
  eexists. reflexivity.
Qed.

Lemma get_presentation_found_witness :
  let deck := [Some (Sample.slide 0); Some (Sample.slide 1)] in
  let t := foldl apply_request
             ({[ metadata_key "p1" := Sample.metadata 1000 None ]} : Table)
             (writeRequests "p1" deck 1000) in
  exists w',
    GetPresentation.handler
      {| GetPresentation.pathParameters := Some {[ "id" := "p1" ]} |}
      (Sample.world t 2000 [])
    = (Ok (GetPresentation.ok
             {| id := Some (VStr "p1"); title := Some (VStr "Q4 Review");
                description := Some (VStr "desc"); theme := Some Sample.theme;
                slides := deck |}), w').
Proof.
  intros deck t.
  destruct (get_presentation_found
              {| GetPresentation.pathParameters := Some {[ "id" := "p1" ]} |}
              "p1" (Sample.world t 2000 []) (Sample.metadata 1000 None) deck)
    as (w' & Hrun).
  - vm_compute. reflexivity.
  - discriminate.
  - reflexivity.
  - apply Nat.le_refl.
  - vm_compute. reflexivity.
  - apply stores_deck_saved. apply metadata_only_fresh.
  - exists w'. rewrite Hrun. vm_compute. reflexivity.
Defined.

(** X24.  When the storage service rejects a command of the lookup, be it
    the first (the metadata record) or the second (the slide records),
    [GET /presentations/{id}] answers [notOk500] with the exception of the
    service if it is an [Error], and with
    [Error("Failed to get presentation")] otherwise; nothing is retried. *)
Theorem get_presentation_storage_error (event : GetPresentation.APIGatewayProxyEventV2)
    (pid : string) (w : World) (e : Exn) (rest : list DdbOutcome) (skip : list nat) :
  GetPresentation.path_id event = Some pid -> pid <> "" ->
  (ddb w = Rejected e :: rest
   \/ (ddb w = Served skip :: Rejected e :: rest
       /\ table w !! metadata_key pid <> None)) ->
  exists w',
    GetPresentation.handler event w
      = (Ok (GetPresentation.notOk500 (GetPresentation.as_Error e)), w')
    /\ ddb w' = rest
    /\ table w' = table w.
Proof.
  intros Hid Hne Hddb. rewrite (handler_with_id event pid w Hid Hne).
  unfold getPresentation. rewrite logged_run.
  erewrite bind_ok by reflexivity.
  destruct Hddb as [H | [H Hmd]].
  - erewrite bind_throw by (apply send_rejected, H).
    eexists. split; [reflexivity |]. split; reflexivity.
  - erewrite bind_ok by (apply GetCommand_accepted; unfold accepts_next; rewrite H;
                         reflexivity).
    cbn [createSK]. unfold metadata_key in Hmd.
    destruct (table w !! (createPK pid, "METADATA")) as [metadata |];
      [| contradiction].
    erewrite bind_ok by reflexivity.
    erewrite bind_throw
      by (apply send_rejected; cbn [ddb after with_ddb emit]; rewrite H; reflexivity).
    eexists. split; [reflexivity |]. split; reflexivity.
Qed.

Lemma get_presentation_storage_error_witness :
  let w := Sample.world (Sample.table_of (Sample.metadata 1000 None) []) 2000
             [Served []; Rejected (Thrown (VStr "throttled"))] in
  exists w',
    GetPresentation.handler
      {| GetPresentation.pathParameters := Some {[ "id" := "p1" ]} |} w
    = (Ok (GetPresentation.notOk500 (JsError "Failed to get presentation")), w')
    /\ table w' = table w.
Proof.
  intros w.
  destruct (get_presentation_storage_error
              {| GetPresentation.pathParameters := Some {[ "id" := "p1" ]} |}
              "p1" w (Thrown (VStr "throttled")) [] [])
    as (w' & Hrun & _ & Htab).
  - vm_compute. reflexivity.
  - discriminate.
  - right. split; [reflexivity |]. vm_compute. discriminate.
  - exists w'. split; [exact Hrun | exact Htab].
Defined.

(** ** The secrets cache *)

Section SecretsCache.
Variable JSON_parse : string -> Exn + Value.

#[local] Abbreviation loadSecrets := (Secrets.loadSecrets JSON_parse).
#[local] Abbreviation getSecret := (Secrets.getSecret JSON_parse).
#[local] Abbreviation isGoogleAuthConfigured := (Secrets.isGoogleAuthConfigured JSON_parse).

Lemma truthy_str (c : string) : truthy (Some (VStr c)) = true <-> c <> "".
Proof.
  cbn [truthy]. destruct (String.eqb_spec c "") as [-> | Hne]; cbn [negb].
  - split; [discriminate | intros H; contradiction].
  - split; [intros _; exact Hne | reflexivity].
Qed.

Lemma loadSecrets_cached (s : Secrets.State) :
  truthy (Some (Secrets.cachedSecrets s)) = true ->
  loadSecrets s = (Ok (Secrets.cachedSecrets s), s).
Proof. intros H. unfold Secrets.loadSecrets. rewrite H. reflexivity. Qed.

Lemma loadSecrets_asks (s : Secrets.State) (secretId : string) :
  truthy (Some (Secrets.cachedSecrets s)) = false ->
  Secrets.configured s secretId ->
  loadSecrets s =
    let s1 := Secrets.with_requested (Secrets.requested s ++ [secretId]) s in
    match Secrets.secretsManager s (length (Secrets.requested s)) secretId with
    | inr (Some SecretString) =>
        if String.eqb SecretString "" then (Ok (VMap []), s1)
        else match JSON_parse SecretString with
             | inr secrets => (Ok secrets, Secrets.with_cachedSecrets secrets s1)
             | inl _ => (Ok (VMap []), s1)
             end
    | _ => (Ok (VMap []), s1)
    end.
Proof.
  intros Hc [Hid Hne]. unfold Secrets.loadSecrets. rewrite Hc. cbv zeta.
  rewrite Hid. apply truthy_str in Hne. rewrite Hne. cbn [negb].
  unfold Secrets.GetSecretValueCommand. cbv zeta.
  destruct (Secrets.secretsManager s _ secretId) as [e | [str |]]; try reflexivity.
  cbn [truthy]. destruct (String.eqb str ""); reflexivity.
Qed.

(** X25.  The first successful load is cached.  When the cache is empty, a
    secret id is configured, the service returns a secret string and the
    string parses to a truthy value, [loadSecrets] returns that value after
    one request to the service; from then on, whatever the environment and
    the service have become, every [loadSecrets] returns the same value
    without asking the service. *)
Theorem loadSecrets_caches (s : Secrets.State) (secretId SecretString : string)
    (secrets : Value) :
  truthy (Some (Secrets.cachedSecrets s)) = false ->
  Secrets.configured s secretId ->
  Secrets.secretsManager s (length (Secrets.requested s)) secretId
    = inr (Some SecretString) ->
  SecretString <> "" ->
  JSON_parse SecretString = inr secrets ->
  truthy (Some secrets) = true ->
  exists s1,
    loadSecrets s = (Ok secrets, s1)
    /\ Secrets.requested s1 = (Secrets.requested s ++ [secretId])%list
    /\ Secrets.cachedSecrets s1 = secrets
    /\ (forall s2, Secrets.cachedSecrets s2 = secrets ->
                   loadSecrets s2 = (Ok secrets, s2)).
Proof.
  intros Hc Hconf Hsvc Hne Hparse Ht.
  rewrite (loadSecrets_asks s secretId Hc Hconf). cbv zeta. rewrite Hsvc.
  destruct (String.eqb_spec SecretString "") as [E | _]; [contradiction |].
  rewrite Hparse. eexists. split; [reflexivity |].
  split; [reflexivity |]. split; [reflexivity |].
  intros s2 <-. apply loadSecrets_cached, Ht.
Qed.

(** X26.  A failed load is not cached.  When the cache is empty and a
    secret id is configured, but the service raises, or returns no secret
    string or an empty one, or the string does not parse, [loadSecrets]
    returns the empty object, leaves the cache empty, and the next
    [loadSecrets] asks the service again. *)
Theorem loadSecrets_failure_not_cached (s : Secrets.State) (secretId : string) :
  truthy (Some (Secrets.cachedSecrets s)) = false ->
  Secrets.configured s secretId ->
  Secrets.load_fails JSON_parse s secretId ->
  exists s1,
    loadSecrets s = (Ok (VMap []), s1)
    /\ Secrets.cachedSecrets s1 = Secrets.cachedSecrets s
    /\ Secrets.requested s1 = (Secrets.requested s ++ [secretId])%list
    /\ Secrets.requested (loadSecrets s1).2
       = (Secrets.requested s ++ [secretId; secretId])%list.
Proof.
  intros Hc Hconf Hfail.
  set (s1 := Secrets.with_requested (Secrets.requested s ++ [secretId]) s).
  assert (Hrun : loadSecrets s = (Ok (VMap []), s1)).
  { rewrite (loadSecrets_asks s secretId Hc Hconf). cbv zeta. fold s1.
    unfold Secrets.load_fails in Hfail.
    destruct (Secrets.secretsManager s _ secretId) as [e | [str |]];
      try reflexivity.
    destruct Hfail as [-> | [e He]]; [reflexivity |].
    rewrite He. destruct (String.eqb str ""); reflexivity. }
  exists s1. split; [exact Hrun |]. split; [reflexivity |]. split; [reflexivity |].
  rewrite (loadSecrets_asks s1 secretId Hc Hconf). cbv zeta.
  replace (Secrets.requested s ++ [secretId; secretId])%list
    with (Secrets.requested s1 ++ [secretId])%list
    by (subst s1; cbn [Secrets.requested Secrets.with_requested];
        rewrite <- app_assoc; reflexivity).
  destruct (Secrets.secretsManager s1 _ secretId) as [e | [str |]];
    try reflexivity.
  destruct (String.eqb str ""); [reflexivity |].
  destruct (JSON_parse str); reflexivity.
Qed.

(** X27.  [loadSecrets] never raises, whatever the service and the parser
    do; it asks the service at most once, never touches the environment, and
    leaves in the cache either what was there or the value it returns. *)
Theorem loadSecrets_never_raises (s : Secrets.State) :
  exists (secrets : Value) (s1 : Secrets.State),
    loadSecrets s = (Ok secrets, s1)
    /\ Secrets.env s1 = Secrets.env s
    /\ (Secrets.cachedSecrets s1 = Secrets.cachedSecrets s
        \/ Secrets.cachedSecrets s1 = secrets)
    /\ (Secrets.requested s1 = Secrets.requested s
        \/ exists secretId,
             Secrets.requested s1 = (Secrets.requested s ++ [secretId])%list).
Proof.
  assert (Hdone : forall (secrets : Value) (s1 : Secrets.State),
             Secrets.env s1 = Secrets.env s ->
             (Secrets.cachedSecrets s1 = Secrets.cachedSecrets s
              \/ Secrets.cachedSecrets s1 = secrets) ->
             (Secrets.requested s1 = Secrets.requested s
              \/ exists secretId,
                   Secrets.requested s1 = (Secrets.requested s ++ [secretId])%list) ->
             exists secrets' s1',
               (Ok secrets, s1) = (Ok secrets', s1')
               /\ Secrets.env s1' = Secrets.env s
               /\ (Secrets.cachedSecrets s1' = Secrets.cachedSecrets s
                   \/ Secrets.cachedSecrets s1' = secrets')
               /\ (Secrets.requested s1' = Secrets.requested s
                   \/ exists secretId,
                        Secrets.requested s1'
                        = (Secrets.requested s ++ [secretId])%list)).
  { intros secrets s1 H1 H2 H3. exists secrets, s1. auto. }
  unfold Secrets.loadSecrets.
  destruct (truthy (Some (Secrets.cachedSecrets s))).
  { apply Hdone; auto. }
  cbv zeta. destruct (Secrets.env s !! "SECRETS_ID") as [secretId |].
  2: { apply Hdone; auto. }
  destruct (negb (truthy (Some (VStr secretId)))).
  { apply Hdone; auto. }
  unfold Secrets.GetSecretValueCommand. cbv zeta.
  assert (Hasked : exists secretId0,
             (Secrets.requested s ++ [secretId])%list
             = (Secrets.requested s ++ [secretId0])%list) by (eexists; reflexivity).
  destruct (Secrets.secretsManager s _ secretId) as [e | [str |]].
  - apply Hdone; [reflexivity | left; reflexivity | right; exact Hasked].
  - destruct (truthy (Some (VStr str))).
    + destruct (JSON_parse str) as [e | v]; apply Hdone;
        [reflexivity | left; reflexivity | right; exact Hasked
        | reflexivity | right; reflexivity | right; exact Hasked].
    + apply Hdone; [reflexivity | left; reflexivity | right; exact Hasked].
  - apply Hdone; [reflexivity | left; reflexivity | right; exact Hasked].
Qed.

Lemma loadSecrets_env (s s1 : Secrets.State) (secrets : Value) :
  loadSecrets s = (Ok secrets, s1) -> Secrets.env s1 = Secrets.env s.
Proof.
  intros H. unfold Secrets.loadSecrets in H.
  destruct (truthy (Some (Secrets.cachedSecrets s)));
    [injection H as _ <-; reflexivity |].
  cbv zeta in H. destruct (Secrets.env s !! "SECRETS_ID") as [secretId |];
    [| injection H as _ <-; reflexivity].
  destruct (negb (truthy (Some (VStr secretId))));
    [injection H as _ <-; reflexivity |].
  unfold Secrets.GetSecretValueCommand in H. cbv zeta in H.
  destruct (Secrets.secretsManager s _ secretId) as [e | [str |]];
    try (injection H as _ <-; reflexivity).
  destruct (truthy (Some (VStr str))); [| injection H as _ <-; reflexivity].
  destruct (JSON_parse str); injection H as _ <-; reflexivity.
Qed.

(** X28.  Google sign-in counts as configured exactly when the loaded
    secrets hold a truthy [GOOGLE_CLIENT_ID] or, failing that, the
    environment variable of that name is set and not empty: an empty or
    missing secret falls back to the environment. *)
Theorem isGoogleAuthConfigured_iff (s s1 : Secrets.State)
    (m : list (string * Value)) :
  loadSecrets s = (Ok (VMap m), s1) ->
  exists b : bool,
    isGoogleAuthConfigured s = (Ok b, s1)
    /\ (b = true <->
        truthy (Secrets.own_property m "GOOGLE_CLIENT_ID") = true
        \/ exists c, Secrets.env s !! "GOOGLE_CLIENT_ID" = Some c /\ c <> "").
Proof.
  intros Hload. pose proof (loadSecrets_env s s1 _ Hload) as Henv.
  unfold Secrets.isGoogleAuthConfigured, Secrets.getSecret. rewrite Hload.
  cbn [Secrets.get_property Secrets.key_name]. rewrite Henv.
  eexists. split; [reflexivity |].
  destruct (truthy (Secrets.own_property m "GOOGLE_CLIENT_ID")) eqn:Hsec.
  - rewrite Hsec. split; [intros _; left; reflexivity | reflexivity].
  - destruct (Secrets.env s !! "GOOGLE_CLIENT_ID") as [c |]; cbn [fmap option_fmap option_map].
    + rewrite truthy_str. split.
      * intros Hc. right. exists c. split; [reflexivity | exact Hc].
      * intros [H | (c' & Hc' & Hne)]; [discriminate | congruence].
    + cbn [truthy]. split; [discriminate |].
      intros [H | (c' & Hc' & _)]; discriminate.
Qed.

(** X29.  A secret string that parses to [null] breaks every reader: the
    value is returned as the secrets, and [getSecret] (and with it
    [isGoogleAuthConfigured]) raises a [TypeError] on reading a key of it,
    instead of falling back to the environment. *)
Theorem getSecret_null_secrets (s : Secrets.State) (secretId SecretString : string)
    (key : Secrets.SecretKey) :
  truthy (Some (Secrets.cachedSecrets s)) = false ->
  Secrets.configured s secretId ->
  Secrets.secretsManager s (length (Secrets.requested s)) secretId
    = inr (Some SecretString) ->
  SecretString <> "" ->
  JSON_parse SecretString = inr VNull ->
  exists s1,
    getSecret key s = (Throw (Secrets.TypeError_null (Secrets.key_name key)), s1)
    /\ isGoogleAuthConfigured s
       = (Throw (Secrets.TypeError_null "GOOGLE_CLIENT_ID"), s1).
Proof.
  intros Hc Hconf Hsvc Hne Hparse.
  unfold Secrets.isGoogleAuthConfigured, Secrets.getSecret.
  rewrite (loadSecrets_asks s secretId Hc Hconf). cbv zeta. rewrite Hsvc.
  destruct (String.eqb_spec SecretString "") as [E | _]; [contradiction |].
  rewrite Hparse. eexists. split; reflexivity.
Qed.

(** X30.  After [clearSecretsCache], the next [loadSecrets] asks the
    service again when a secret id is configured, whatever had been cached. *)
Theorem clearSecretsCache_reloads (s : Secrets.State) (secretId : string) :
  Secrets.configured s secretId ->
  Secrets.requested (loadSecrets (Secrets.clearSecretsCache s)).2
    = (Secrets.requested s ++ [secretId])%list.
Proof.
  intros Hconf.
  rewrite (loadSecrets_asks (Secrets.clearSecretsCache s) secretId eq_refl Hconf).
  cbv zeta. cbn [Secrets.clearSecretsCache Secrets.with_cachedSecrets
                 Secrets.secretsManager Secrets.requested].
  destruct (Secrets.secretsManager s _ secretId) as [e | [str |]];
    try reflexivity.
  destruct (String.eqb str ""); [reflexivity |].
  destruct (JSON_parse str); reflexivity.
Qed.
End SecretsCache.

Lemma loadSecrets_caches_witness :
  let s := SecretsSample.state (inr (Some "secrets-object")) None in
  exists secrets s1,
    Secrets.loadSecrets SecretsSample.parse s = (Ok secrets, s1)
    /\ Secrets.requested s1 = ["prod/app"]
    /\ Secrets.loadSecrets SecretsSample.parse (Secrets.clearSecretsCache s1)
       <> (Ok secrets, Secrets.clearSecretsCache s1)
    /\ Secrets.loadSecrets SecretsSample.parse s1 = (Ok secrets, s1).
Proof.
  intros s.
  destruct (loadSecrets_caches SecretsSample.parse s "prod/app" "secrets-object"
              (VMap [("OPENAI_API_KEY", VStr "sk-1"); ("GOOGLE_CLIENT_ID", VStr "")]))
    as (s1 & Hrun & Hreq & Hcache & Hnext).
  - reflexivity.
  - split; [vm_compute; reflexivity | discriminate].
  - reflexivity.
  - discriminate.
  - reflexivity.
  - reflexivity.
  - do 2 eexists. split; [exact Hrun |]. split; [exact Hreq |].
    split; [| apply Hnext, Hcache].
    injection Hrun as <-. vm_compute. discriminate.
Defined.

Lemma loadSecrets_failure_not_cached_witness :
  let s := SecretsSample.state (inr (Some "not json")) None in
  exists s1,
    Secrets.loadSecrets SecretsSample.parse s = (Ok (VMap []), s1)
    /\ Secrets.cachedSecrets s1 = VNull
    /\ Secrets.requested (Secrets.loadSecrets SecretsSample.parse s1).2
       = ["prod/app"; "prod/app"].
Proof.
  intros s.
  destruct (loadSecrets_failure_not_cached SecretsSample.parse s "prod/app")
    as (s1 & Hrun & Hcache & _ & Hnext).
  - reflexivity.
  - split; [vm_compute; reflexivity | discriminate].
  - right. eexists. reflexivity.
  - exists s1. split; [exact Hrun |]. split; [exact Hcache | exact Hnext].
Defined.

Lemma isGoogleAuthConfigured_iff_witness :
  let s := SecretsSample.state (inr (Some "secrets-object")) (Some "env-client") in
  exists s1, Secrets.isGoogleAuthConfigured SecretsSample.parse s = (Ok true, s1).
Proof.
  intros s.
  destruct (isGoogleAuthConfigured_iff SecretsSample.parse s
              (Secrets.loadSecrets SecretsSample.parse s).2
              [("OPENAI_API_KEY", VStr "sk-1"); ("GOOGLE_CLIENT_ID", VStr "")])
    as (b & Hrun & Hb).
  - reflexivity.
  - eexists. rewrite Hrun. f_equal. f_equal. apply Hb. right.
    exists "env-client". split; [vm_compute; reflexivity | discriminate].
Defined.

Lemma getSecret_null_secrets_witness :
  let s := SecretsSample.state (inr (Some "null")) (Some "env-client") in
  exists e s1,
    Secrets.getSecret SecretsSample.parse Secrets.GOOGLE_CLIENT_ID s = (Throw e, s1).
Proof.
  intros s.
  destruct (getSecret_null_secrets SecretsSample.parse s "prod/app" "null"
              Secrets.GOOGLE_CLIENT_ID) as (s1 & Hrun & _).
  - reflexivity.
  - split; [vm_compute; reflexivity | discriminate].
  - reflexivity.
  - discriminate.
  - reflexivity.
  - do 2 eexists. exact Hrun.
Defined.

Lemma clearSecretsCache_reloads_witness :
  let s := Secrets.with_cachedSecrets (VMap [("OPENAI_API_KEY", VStr "sk-0")])
             (SecretsSample.state (inl (JsError "AccessDenied")) None) in
  Secrets.requested (Secrets.loadSecrets SecretsSample.parse s).2 = []
  /\ Secrets.requested
       (Secrets.loadSecrets SecretsSample.parse (Secrets.clearSecretsCache s)).2
     = ["prod/app"].
Proof.
  intros s. split; [reflexivity |].
  apply (clearSecretsCache_reloads SecretsSample.parse s "prod/app").
  split; [vm_compute; reflexivity | discriminate].
Defined.
